(** * Signed-token analytics client: a shallow embedding

    The development follows the Python sources of the Slack demo bot:

    - [src/handler_tasks/cortalyst.py]: the [Cortlayst] client
      ([sanitize_host_name], [answer]);
    - [app.py]: [ask_cortex_analyst] and the dispatcher [show_response];
    - [src/security/key_util.py]: [load_rsa_public_key],
      [get_key_fingerprint], [match_fingerprints].

    Python [str] values are Rocq strings, read as sequences of characters
    (code points below 256); [bytes] values are lists of bytes.  Dictionaries
    are finite maps.  Calls that leave the process (Slack, the warehouse
    session, the chart library, HTTP, the token generator) are answered by a
    [World]; every such call is recorded, in order, in a trace.  Of the
    logging only [logger.error] is recorded: the debug and info lines
    change neither the control flow nor what the collaborators see. *)

From Stdlib Require Import ZArith NArith DecimalString Ascii String.
From stdpp Require Import base strings gmap list vector.

Local Open Scope string_scope.

(** ** Characters and strings *)

Abbreviation chars := (list ascii).

Definition is_char (x c : ascii) : bool := Ascii.eqb c x.

Definition is_slash : ascii -> bool := is_char "/".
Definition is_underscore : ascii -> bool := is_char "_".
Definition is_newline : ascii -> bool := is_char "010".

Definition str_chars : string -> chars := list_ascii_of_string.
Definition chars_str : chars -> string := string_of_list_ascii.

(** [s.replace("_", "-")] on one character. *)
Definition hyphenate (c : ascii) : ascii :=
  if is_underscore c then "-"%char else c.

(** [match.group(0).replace("_", "-")], the [replace_host] callback. *)
Definition replace_host (m : chars) : chars := map hyphenate m.

(** ** The regular expression [(?<=//)[^/]+(?=/|$)]

    The pattern is matched by a cursor: [before] is the text to the left of
    the cursor, nearest character first, and the second argument is the text
    to its right. *)
Module Re.

(** [(?<=//)]: the two characters left of the cursor are slashes. *)
Definition lookbehind (before : chars) : bool :=
  match before with
  | c1 :: c2 :: _ => is_slash c1 && is_slash c2
  | _ => false
  end.

(** [[^/]+]: every way of consuming one or more characters other than a
    slash, as (consumed, remainder), the longest first (the quantifier is
    greedy and gives characters back one at a time). *)
Fixpoint host_chars (s : chars) : list (chars * chars) :=
  match s with
  | [] => []
  | c :: r =>
      if is_slash c then []
      else map (fun mr => (c :: mr.1, mr.2)) (host_chars r) ++ [([c], r)]
  end.

(** [(?=/|$)]: a slash follows, or the string ends here; without
    [re.MULTILINE], [$] also matches just before a final newline. *)
Definition lookahead (rest : chars) : bool :=
  match rest with
  | [] => true
  | c :: r => is_slash c || (is_newline c && bool_decide (r = []))
  end.

(** One attempt at the cursor: the first alternative of [[^/]+] after
    which the lookahead holds. *)
Definition match_here (before s : chars) : option (chars * chars) :=
  if lookbehind before
  then List.find (fun mr => lookahead mr.2) (host_chars s)
  else None.

(** [re.search(pattern, url)]: the leftmost match, [group(0)] of it. *)
Fixpoint search (before s : chars) {struct s} : option chars :=
  match match_here before s with
  | Some mr => Some mr.1
  | None =>
      match s with
      | [] => None
      | c :: r => search (c :: before) r
      end
  end.

(** [re.sub(pattern, repl, url)]: every match, left to right and without
    overlap, is replaced by [repl] of it; the scan resumes where the match
    ended, and the lookbehind still sees the original text.  A match is
    never empty, so each step consumes a character and [fuel] bounds the
    number of steps. *)
Fixpoint sub_fuel (fuel : nat) (repl : chars -> chars)
    (before s : chars) : chars :=
  match fuel with
  | O => s
  | S fuel' =>
      match match_here before s with
      | Some mr => repl mr.1 ++ sub_fuel fuel' repl (rev mr.1 ++ before) mr.2
      | None =>
          match s with
          | [] => []
          | c :: r => c :: sub_fuel fuel' repl (c :: before) r
          end
      end
  end.

Definition sub (repl : chars -> chars) (s : chars) : chars :=
  sub_fuel (S (length s)) repl [] s.

End Re.

(** ** [Cortlayst.sanitize_host_name] *)

Definition sanitize_host_name (url : string) : string :=
  match Re.search [] (str_chars url) with
  | Some matched_host =>
      if existsb is_underscore matched_host
      then chars_str (Re.sub replace_host (str_chars url))
      else url
  | None => url
  end.

(** ** Question sanitation: [" ".join(question.splitlines())] *)

(** The line boundaries of [str.splitlines] among the modelled characters:
    LF, VT, FF, CR, FS, GS, RS and NEL (CR LF counts as one boundary). *)
Definition is_linebreak (c : ascii) : bool :=
  existsb (fun b => Ascii.eqb c b)
    ["010"; "011"; "012"; "013"; "028"; "029"; "030"; "133"]%char.

Definition is_cr : ascii -> bool := is_char "013".

(** [cur] is the line being read, last character first. *)
Fixpoint splitlines_from (cur s : chars) {struct s} : list chars :=
  match s with
  | [] => match cur with [] => [] | _ => [rev cur] end
  | c :: r =>
      if is_linebreak c then
        match r with
        | c' :: r' =>
            if is_cr c && is_newline c'
            then rev cur :: splitlines_from [] r'
            else rev cur :: splitlines_from [] r
        | [] => [rev cur]
        end
      else splitlines_from (c :: cur) r
  end.

Definition splitlines (s : string) : list string :=
  map chars_str (splitlines_from [] (str_chars s)).

(** [sep.join(parts)] *)
Fixpoint join (sep : string) (parts : list string) : string :=
  match parts with
  | [] => ""
  | [p] => p
  | p :: rest => p +:+ sep +:+ join sep rest
  end.

(** [sanitized_question] of [ask_cortex_analyst]. *)
Definition sanitize_question (question : string) : string :=
  join " " (splitlines question).

(** The line feed, and the two-line question of the specification. *)
Definition LF : string := String "010" "".
Definition two_line_question : string := "line one" +:+ LF +:+ "line two".

(** ** Python values and exceptions *)

(** JSON values, as [resp.json()] builds them: [None], [bool], [int],
    [float] (kept as its literal), [str], [list] and [dict]. *)
#[warnings="-register-all"]
Inductive json : Type :=
| JNull
| JBool (b : bool)
| JInt (z : Z)
| JFloat (literal : string)
| JStr (s : string)
| JArr (items : list json)
| JObj (fields : gmap string json).

Inductive exc_class : Set :=
| Exception
| ValueError
| TypeError
| KeyError
| FileNotFoundError
| ForeignError (name : string).

(** An exception object: its class and [str(e)]. *)
Record exn : Type := Raise { exn_class : exc_class; exn_str : string }.

Definition result (A : Type) : Type := exn + A.

(** [type(v).__name__] *)
Definition py_type_name (v : json) : string :=
  match v with
  | JNull => "NoneType"
  | JBool _ => "bool"
  | JInt _ => "int"
  | JFloat _ => "float"
  | JStr _ => "str"
  | JArr _ => "list"
  | JObj _ => "dict"
  end.

(** [str(n)] for an [int]. *)
Definition str_of_int (z : Z) : string := NilZero.string_of_int (Z.to_int z).

(** [f"{v}"] for a value that is a [str] or [None]. *)
Definition str_of_optional (v : option string) : string :=
  match v with Some s => s | None => "None" end.

Definition json_of_optional (v : option string) : json :=
  match v with Some s => JStr s | None => JNull end.

(** [v[key]] with a [str] key.  A missing key raises [KeyError], whose
    [str] is the [repr] of the key (the keys used here are plain
    identifiers); a value that is not a [dict] raises [TypeError] (the
    wording is CPython 3.11's). *)
Definition getitem (v : json) (key : string) : result json :=
  match v with
  | JObj fields =>
      match fields !! key with
      | Some x => inr x
      | None => inl (Raise KeyError ("'" +:+ key +:+ "'"))
      end
  | JStr _ => inl (Raise TypeError "string indices must be integers, not 'str'")
  | JArr _ =>
      inl (Raise TypeError "list indices must be integers or slices, not str")
  | _ => inl (Raise TypeError ("'" +:+ py_type_name v +:+ "' object is not subscriptable"))
  end.

(** [v == literal] for a [str] literal, as a literal pattern of [match]
    compares. *)
Definition equals_str (v : json) (literal : string) : bool :=
  match v with
  | JStr s => String.eqb s literal
  | _ => false
  end.

(** [iter(v)]: the items a [for] loop visits.  A [dict] yields its keys
    and a [str] its characters. *)
Definition py_iter (v : json) : result (list json) :=
  match v with
  | JArr items => inr items
  | JObj fields => inr (map (fun kv => JStr kv.1) (map_to_list fields))
  | JStr s => inr (map (fun c => JStr (String c "")) (str_chars s))
  | _ => inl (Raise TypeError ("'" +:+ py_type_name v +:+ "' object is not iterable"))
  end.

(** [{**v, key: x}] *)
Definition dict_with (v : json) (key : string) (x : json) : result json :=
  match v with
  | JObj fields => inr (JObj (<[key := x]> fields))
  | _ => inl (Raise TypeError ("'" +:+ py_type_name v +:+ "' object is not a mapping"))
  end.

(** ** Collaborators, events and the trace *)

(** A pandas data frame: named columns and rows of cells. *)
Record DataFrame : Type := { columns : list string; rows : list (list string) }.

(** The [blocks=] argument of [say].  The helpers of [handler_tasks.blocks]
    are not among the sources: a block is recorded as the helper called and
    its argument, and the helpers are taken to return. *)
Inductive slack_blocks : Type :=
| create_sql_block (query : json)
| create_df_block (df : DataFrame).

(** [requests.Response]: [status_code], the header
    [X-Snowflake-Request-Id] if present, [text], and what [json()] gives. *)
Record Response : Type := {
  status_code : Z;
  request_id_header : option string;
  text : string;
  json_body : result json
}.

(** The calls that leave the process, as they appear in the trace. *)
Inductive event : Type :=
| EChatPostMessage (channel text : string)
| ESay (blocks : slack_blocks) (text : string)
| ESql (query : json)
| EChartSave (df : DataFrame) (theta color : string)
| EFilesUpload (channel : string) (file : list Byte.byte)
    (filename initial_comment : string)
| ELogError (msg : string)
| ENewJWTGenerator (account user : option string) (private_key_file_path : string)
| EGenerateToken
| EHttpPost (url : string) (payload : json) (headers : list (string * string)).

Abbreviation trace := (list event).

(** What the collaborators answer.  Each answer may depend on the calls made
    so far and may be an exception.

    - [say], [chat_postMessage], [files_upload_v2]: the Slack client;
    - [session_sql]: [session.sql(query).to_pandas()];
    - [chart_png]: building the arc chart of the frame with the given
      [theta] and [color] fields and saving it as PNG bytes;
    - [new_jwt_generator], [generate_token]: the [JWTGenerator] of
      [security.jwt_generator], which is not among the sources;
    - [requests_post]: [requests.post];
    - [getenv], [session_conf]: [os.getenv] and [session.conf.get]. *)
Record World : Type := {
  say : trace -> slack_blocks -> string -> result unit;
  chat_postMessage : trace -> string -> string -> result unit;
  files_upload_v2 :
    trace -> string -> list Byte.byte -> string -> string -> result unit;
  session_sql : trace -> json -> result DataFrame;
  chart_png : trace -> DataFrame -> string -> string -> result (list Byte.byte);
  new_jwt_generator :
    trace -> option string -> option string -> string -> result unit;
  generate_token : trace -> result string;
  requests_post :
    trace -> string -> json -> list (string * string) -> result Response;
  getenv : string -> option string;
  session_conf : string -> option string
}.

(** ** Computations: state, exceptions, and the trace *)

Definition M (St A : Type) : Type := St -> result A * St.

#[export] Instance M_ret {St} : MRet (M St) :=
  fun A (a : A) st => (inr a, st).

#[export] Instance M_bind {St} : MBind (M St) :=
  fun A B (k : A -> M St B) (m : M St A) st =>
    match m st with
    | (inr a, st') => k a st'
    | (inl e, st') => (inl e, st')
    end.

Definition raise {St A} (e : exn) : M St A := fun st => (inl e, st).

(** [try: m  except Exception as e: handler(e)] *)
Definition try_except {St A} (m : M St A) (handler : exn -> M St A) : M St A :=
  fun st =>
    match m st with
    | (inr a, st') => (inr a, st')
    | (inl e, st') => handler e st'
    end.

Definition lift {St A} (r : result A) : M St A := fun st => (r, st).

(** A call to a collaborator: its answer is decided on the trace so far,
    and the call is appended to the trace. *)
Definition call {A} (e : event) (answer : trace -> result A) : M trace A :=
  fun tr => (answer tr, (tr ++ [e])%list).

(** A call that cannot fail (logging). *)
Definition emit (e : event) : M trace unit := call e (fun _ => inr tt).

Definition outcome {St A} (r : result A * St) : result A := r.1.
Definition final {St A} (r : result A * St) : St := r.2.

(** ** The dispatcher: [show_response] of [app.py] *)

Section Dispatcher.

Variable w : World.
Variable channel_id : string.

(** The body of [case "sql":]. *)
Definition show_sql (item : json) : M trace unit :=
  query ← lift (getitem item "statement");
  call (ESay (create_sql_block query) "Generated SQL")
       (fun tr => say w tr (create_sql_block query) "Generated SQL");;
  df ← call (ESql query) (fun tr => session_sql w tr query);
  call (ESay (create_df_block df) "Query Result")
       (fun tr => say w tr (create_df_block df) "Query Result");;
  if (1 <? length (columns df))%nat then
    image_bytes ←
      call (EChartSave df "TICKET_COUNT" "SERVICE_TYPE")
           (fun tr => chart_png w tr df "TICKET_COUNT" "SERVICE_TYPE");
    call (EFilesUpload channel_id image_bytes "chart.png" "Generating chart...")
         (fun tr => files_upload_v2 w tr channel_id image_bytes
                      "chart.png" "Generating chart...")
  else mret tt.

(** One turn of the loop: [match item["type"]] with its two cases,
    the literal ["sql"] and the wildcard. *)
Definition show_item (item : json) : M trace unit :=
  type ← lift (getitem item "type");
  if equals_str type "sql" then show_sql item
  else mret tt.

(** [for item in content: ...]; an exception leaves the loop. *)
Fixpoint show_items (content : list json) : M trace unit :=
  match content with
  | [] => mret tt
  | item :: rest => show_item item;; show_items rest
  end.

(** The [except] clause: log, then raise a new [Exception]. *)
Definition show_response_failed (e : exn) : M trace unit :=
  emit (ELogError ("Error sending response " +:+ exn_str e));;
  raise (Raise Exception ("Error sending response " +:+ exn_str e)).

Definition show_response (content : json) : M trace unit :=
  try_except (items ← lift (py_iter content); show_items items)
             show_response_failed.

End Dispatcher.

(** ** The client: [Cortlayst] of [handler_tasks/cortalyst.py] *)

(** The fields of the object; the token generator it holds is the
    [World]'s. *)
Record Cortlayst : Type := {
  account : option string;
  user : option string;
  database : string;
  schema : string;
  stage : string;
  file : string;
  analyst_endpoint : string
}.

Definition set_analyst_endpoint (url : string) (self : Cortlayst) : Cortlayst :=
  {| account := account self; user := user self; database := database self;
     schema := schema self; stage := stage self; file := file self;
     analyst_endpoint := url |}.

(** A method runs on the object and the trace. *)
Abbreviation Method := (M (Cortlayst * trace)).

Definition get_self : Method Cortlayst := fun st => (inr st.1, st).

Definition update_self (f : Cortlayst -> Cortlayst) : Method unit :=
  fun st => (inr tt, (f st.1, st.2)).

Definition world {A} (m : M trace A) : Method A :=
  fun st => let r := m st.2 in (r.1, (st.1, r.2)).

(** Runs a method of a local object; the object is dropped afterwards. *)
Definition on_object {A} (self : Cortlayst) (m : Method A) : M trace A :=
  fun tr => let r := m (self, tr) in (r.1, r.2.2).

Section Client.

Variable w : World.

(** [Cortlayst.__init__], with the defaults of its signature. *)
Definition Cortlayst_init (account user : option string)
    (private_key_file_path : string) (host : option string) : M trace Cortlayst :=
  call (ENewJWTGenerator account user private_key_file_path)
       (fun tr => new_jwt_generator w tr account user private_key_file_path);;
  mret {| account := account; user := user;
          database := "slack_demo"; schema := "data";
          stage := "semantic_models";
          file := "support_tickets_semantic_model.yaml";
          analyst_endpoint :=
            "https://" +:+ str_of_optional host
              +:+ "/api/v2/cortex/analyst/message" |}.

Definition get_token : Method string :=
  world (call EGenerateToken (generate_token w)).

Definition request_payload (self : Cortlayst) (question : string) : json :=
  JObj (<["messages" :=
            JArr [JObj (<["role" := JStr "user"]>
                       (<["content" :=
                            JArr [JObj (<["type" := JStr "text"]>
                                       (<["text" := JStr question]> ∅))]]> ∅))]]>
       (<["semantic_model_file" :=
            JStr ("@" +:+ database self +:+ "." +:+ schema self +:+ "."
                    +:+ stage self +:+ "/" +:+ file self)]> ∅)).

Definition request_headers (jwt_token : string) : list (string * string) :=
  [("X-Snowflake-Authorization-Token-Type", "KEYPAIR_JWT");
   ("Content-Type", "application/json");
   ("Accept", "application/json");
   ("Authorization", "Bearer " +:+ jwt_token)].

Definition failed_request (resp : Response) : exn :=
  Raise Exception
    ("Failed request (id: " +:+ str_of_optional (request_id_header resp)
       +:+ ") with status " +:+ str_of_int (status_code resp)
       +:+ ": " +:+ text resp).

(** [Cortlayst.answer] *)
Definition answer (question : string) : Method json :=
  jwt_token ← get_token;
  self ← get_self;
  let payload := request_payload self question in
  update_self (set_analyst_endpoint (sanitize_host_name (analyst_endpoint self)));;
  self ← get_self;
  resp ← world (call (EHttpPost (analyst_endpoint self) payload
                                (request_headers jwt_token))
                     (fun tr => requests_post w tr (analyst_endpoint self) payload
                                  (request_headers jwt_token)));
  let request_id := request_id_header resp in
  if (status_code resp =? 200)%Z then
    body ← lift (json_body resp);
    lift (dict_with body "request_id" (json_of_optional request_id))
  else raise (failed_request resp).

(** ** [ask_cortex_analyst] of [app.py] *)

Definition wait_message : string :=
  ":hourglass_flowing_sand: Wait for a few seconds... while I ask the Cortex Analyst :robot_face:".

Definition key_path_required : exn :=
  Raise Exception
    "Require PRIVATE_KEY_FILE_PATH to be set. Consult Snowflake documentation https://docs.snowflake.com/user-guide/key-pair-auth#configuring-key-pair-authentication.".

(** [sanitized_question] is computed first and only logged (at debug
    level, which is not traced); [answer] receives [question]. *)
Definition ask_cortex_analyst (channel_id question : string) : M trace unit :=
  try_except
    (let sanitized_question := sanitize_question question in
     call (EChatPostMessage channel_id wait_message)
          (fun tr => chat_postMessage w tr channel_id wait_message);;
     match getenv w "PRIVATE_KEY_FILE_PATH" with
     | None => raise key_path_required
     | Some private_key_file_path =>
         cortalyst ← Cortlayst_init (session_conf w "account")
                                    (session_conf w "user")
                                    private_key_file_path
                                    (session_conf w "host");
         ans ← on_object cortalyst (answer question);
         message ← lift (getitem ans "message");
         content ← lift (getitem message "content");
         show_response w channel_id content
     end)
    (fun e => raise (Raise Exception (exn_str e))).

End Client.

(** ** Keys: [security/key_util.py] *)

(** What [load_rsa_public_key] may be given: a [Path], a [str] or
    [bytes]. *)
Inductive key_source : Type :=
| KeyPath (path : string)
| KeyStr (pem : string)
| KeyBytes (pem : list Byte.byte).

(** An RSA public key is its public numbers. *)
Record RSAPublicKey : Set := { rsa_n : N; rsa_e : N }.

(** What [serialization.load_pem_public_key] may return. *)
Inductive public_key : Type :=
| RSAKey (k : RSAPublicKey)
| OtherKey (algorithm : string).

(** The digits of [hexdigest]. *)
Definition hex_digit (n : N) : ascii :=
  nth (N.to_nat n) (str_chars "0123456789abcdef") "0"%char.

(** The two digits of a byte, high nibble first. *)
Definition hex_of_byte (b : Byte.byte) : ascii * ascii :=
  (hex_digit (Byte.to_N b / 16), hex_digit (Byte.to_N b mod 16)).

Fixpoint hexdigest (digest : list Byte.byte) : string :=
  match digest with
  | [] => ""
  | b :: rest =>
      String (hex_of_byte b).1 (String (hex_of_byte b).2 (hexdigest rest))
  end.

Definition is_lower_hex (c : ascii) : bool :=
  existsb (Ascii.eqb c) (str_chars "0123456789abcdef").

Section KeyUtil.

(** The file system and the two libraries:
    - [read_binary]: [open(path, "rb").read()];
    - [load_pem_public_key]: [cryptography]'s PEM parser;
    - [public_bytes]: [public_key.public_bytes(DER, SubjectPublicKeyInfo)];
    - [sha256]: [hashlib.sha256(data).digest()], 32 bytes. *)
Variable read_binary : string -> result (list Byte.byte).
Variable load_pem_public_key : list Byte.byte -> result public_key.
Variable public_bytes : RSAPublicKey -> list Byte.byte.
Variable sha256 : list Byte.byte -> vec Byte.byte 32.

(** [bytes(key)] raises for a [str]: no encoding is given. *)
Definition load_rsa_public_key (key : key_source) : result RSAPublicKey :=
  let key_data :=
    match key with
    | KeyPath path => read_binary path
    | KeyStr _ => inl (Raise TypeError "string argument without an encoding")
    | KeyBytes data => inr data
    end in
  match key_data with
  | inl e => inl e
  | inr key_data =>
      let tried :=
        match load_pem_public_key key_data with
        | inr (RSAKey k) => inr k
        | inr (OtherKey _) => inl (Raise ValueError "Not an RSA public key")
        | inl e => inl e
        end in
      match tried with
      | inr k => inr k
      | inl e => inl (Raise ValueError ("Failed to load public key: " +:+ exn_str e))
      end
  end.

Definition get_key_fingerprint (public_key : RSAPublicKey) : string :=
  let public_bytes := public_bytes public_key in
  let fingerprint := hexdigest (vec_to_list (sha256 public_bytes)) in
  fingerprint.

Definition match_fingerprints (fp_1 fp_2 : string) : bool := String.eqb fp_1 fp_2.

End KeyUtil.

(** ** A one-pass reading of the pattern

    The matches of the pattern are the maximal runs of characters other
    than a slash that start right after two slashes.  [scan_sub] and
    [scan_search] read the text once, remembering what lies left of the
    cursor; they are proved equal to [Re.sub] and [Re.search] below. *)

Inductive cursor : Set :=
| Plain   (* start of text, or inside a run that is no match *)
| Slash1  (* after exactly one slash *)
| Slash2  (* after two slashes or more *)
| Host.   (* inside a match *)

Definition after_slash (st : cursor) : cursor :=
  match st with
  | Slash1 | Slash2 => Slash2
  | Plain | Host => Slash1
  end.

Definition in_host (st : cursor) : bool :=
  match st with
  | Slash2 | Host => true
  | Plain | Slash1 => false
  end.

Definition cursor_of (before : chars) : cursor :=
  match before with
  | [] => Plain
  | c1 :: b =>
      if is_slash c1 then
        match b with
        | [] => Slash1
        | c2 :: _ => if is_slash c2 then Slash2 else Slash1
        end
      else Plain
  end.

(** The longest prefix free of slashes, and what follows it. *)
Fixpoint span_host (s : chars) : chars * chars :=
  match s with
  | [] => ([], [])
  | c :: r =>
      if is_slash c then ([], s)
      else (c :: (span_host r).1, (span_host r).2)
  end.

Fixpoint scan_sub (st : cursor) (s : chars) : chars :=
  match s with
  | [] => []
  | c :: r =>
      if is_slash c then c :: scan_sub (after_slash st) r
      else if in_host st then hyphenate c :: scan_sub Host r
      else c :: scan_sub Plain r
  end.

Fixpoint scan_search (st : cursor) (s : chars) : option chars :=
  match s with
  | [] => None
  | c :: r =>
      if is_slash c then scan_search (after_slash st) r
      else if in_host st then Some (span_host s).1
      else scan_search Plain r
  end.

(** ** URLs with one host *)

Definition slash_free (s : chars) : bool :=
  forallb (fun c => negb (is_slash c)) s.

(** No two slashes in a row. *)
Fixpoint double_slash_free (s : chars) : bool :=
  match s with
  | [] => true
  | c1 :: r =>
      match r with
      | c2 :: _ => negb (is_slash c1 && is_slash c2)
      | [] => true
      end && double_slash_free r
  end.

(** Empty, or starting with a slash: what may follow the host. *)
Definition starts_path (rest : chars) : bool :=
  match rest with
  | [] => true
  | c :: _ => is_slash c
  end.

(** The URL [scheme//host rest]. *)
Definition url_of_parts (scheme host rest : chars) : string :=
  chars_str (scheme ++ "/"%char :: "/"%char :: host ++ rest)%list.

(** ** Reading a trace *)

(** The question a request body carries:
    [payload["messages"][0]["content"][0]["text"]]. *)
Definition payload_question (payload : json) : option string :=
  match getitem payload "messages" with
  | inr (JArr (message :: _)) =>
      match getitem message "content" with
      | inr (JArr (part :: _)) =>
          match getitem part "text" with
          | inr (JStr question) => Some question
          | _ => None
          end
      | _ => None
      end
  | _ => None
  end.

(** The questions sent over HTTP, one per request. *)
Definition posted_questions (tr : trace) : list (option string) :=
  flat_map (fun e => match e with
                     | EHttpPost _ payload _ => [payload_question payload]
                     | _ => []
                     end) tr.

Definition is_http_post (e : event) : bool :=
  match e with EHttpPost _ _ _ => true | _ => false end.

(** Calls to the output collaborator (the Slack client). *)
Definition is_output_call (e : event) : bool :=
  match e with
  | ESay _ _ | EChatPostMessage _ _ | EFilesUpload _ _ _ _ => true
  | _ => false
  end.

(** Calls to the analytics engine (the warehouse session). *)
Definition is_engine_call (e : event) : bool :=
  match e with ESql _ => true | _ => false end.



(** The call hands the text [t] to the output collaborator as the text to
    show. *)
Definition shows_text (t : string) (e : event) : bool :=
  match e with
  | ESay _ text | EChatPostMessage _ text => String.eqb text t
  | _ => false
  end.

Definition count (p : event -> bool) (tr : trace) : nat :=
  length (List.filter p tr).

(** A block whose discriminator is [text]. *)
Definition is_text_block (item : json) : bool :=
  match getitem item "type" with
  | inr type => equals_str type "text"
  | inl _ => false
  end.

(** The calls of a sql block, by what they do. *)
Abbreviation shown q := (ESay (create_sql_block q) "Generated SQL").
Abbreviation executed q := (ESql q).
Abbreviation rendered df := (ESay (create_df_block df) "Query Result").
Abbreviation charted df := (EChartSave df "TICKET_COUNT" "SERVICE_TYPE").
Abbreviation uploaded ch png :=
  (EFilesUpload ch png "chart.png" "Generating chart...").


(** ** Test doubles *)

Definition two_column_frame : DataFrame :=
  {| columns := ["SERVICE_TYPE"; "TICKET_COUNT"];
     rows := [["Cellular"; "12"]; ["Home Internet"; "7"]] |}.

(** Two columns, neither of which the chart asks for. *)
Definition other_frame : DataFrame :=
  {| columns := ["REGION"; "TOTAL"]; rows := [["North"; "3"]] |}.

Definition has_column (df : DataFrame) (name : string) : bool :=
  existsb (String.eqb name) (columns df).

Definition png_stub : list Byte.byte := [Byte.x89; Byte.x50; Byte.x4e; Byte.x47].

(** A chart library that refuses a field that is no column of the frame. *)
Definition stub_chart_png (_ : trace) (df : DataFrame) (theta color : string)
    : result (list Byte.byte) :=
  if has_column df theta && has_column df color then inr png_stub
  else inl (Raise ValueError "Unable to determine data type for the field").

(** Collaborators that all succeed: every query returns [df], every request
    [resp]. *)
Definition stub_world (df : DataFrame) (resp : Response) : World :=
  {| say := fun _ _ _ => inr tt;
     chat_postMessage := fun _ _ _ => inr tt;
     files_upload_v2 := fun _ _ _ _ _ => inr tt;
     session_sql := fun _ _ => inr df;
     chart_png := stub_chart_png;
     new_jwt_generator := fun _ _ _ _ => inr tt;
     generate_token := fun _ => inr "jwt";
     requests_post := fun _ _ _ _ => inr resp;
     getenv := fun k =>
       if String.eqb k "PRIVATE_KEY_FILE_PATH" then Some "rsa_key.p8" else None;
     session_conf := fun k =>
       if String.eqb k "account" then Some "acme"
       else if String.eqb k "user" then Some "bot"
       else if String.eqb k "host" then Some "my_host.example.com"
       else None |}.

Definition overloaded : Response :=
  {| status_code := 503; request_id_header := Some "req-1";
     text := "overloaded";
     json_body := inl (Raise (ForeignError "JSONDecodeError") "Expecting value") |}.

Definition text_block (t : string) : json :=
  JObj (<["type" := JStr "text"]> (<["text" := JStr t]> ∅)).

Definition sql_block (q : string) : json :=
  JObj (<["type" := JStr "sql"]> (<["statement" := JStr q]> ∅)).

Definition envelope (content : list json) : Response :=
  {| status_code := 200; request_id_header := Some "req-2";
     text := "(json)";
     json_body :=
       inr (JObj (<["message" :=
                     JObj (<["role" := JStr "analyst"]>
                          (<["content" := JArr content]> ∅))]> ∅)) |}.

Definition a_client : Cortlayst :=
  {| account := Some "acme"; user := Some "bot"; database := "slack_demo";
     schema := "data"; stage := "semantic_models";
     file := "support_tickets_semantic_model.yaml";
     analyst_endpoint :=
       "https://my_host.example.com/api/v2/cortex/analyst/message" |}.

(** ** Keys: decoding of digits, and test doubles *)

(** A family of keys, all different. *)
Definition key_of_index (i : nat) : RSAPublicKey :=
  {| rsa_n := 2 * N.of_nat i + 65539; rsa_e := 65537 |}.

Definition hex_value (c : ascii) : N :=
  match List.find (fun p => Ascii.eqb c p.1)
          (combine (str_chars "0123456789abcdef") (map N.of_nat (seq 0 16))) with
  | Some p => p.2
  | None => 0
  end.

Definition byte_of_hex (digits : ascii * ascii) : option Byte.byte :=
  Byte.of_N (16 * hex_value digits.1 + hex_value digits.2).

Definition stub_pem : list Byte.byte :=
  list_byte_of_string "-----BEGIN PUBLIC KEY-----".

Definition stub_key : RSAPublicKey := key_of_index 0.

Definition stub_read_binary (path : string) : result (list Byte.byte) :=
  if String.eqb path "rsa_key.pub" then inr stub_pem
  else inl (Raise FileNotFoundError
              ("[Errno 2] No such file or directory: '" +:+ path +:+ "'")).

Definition stub_load_pem (data : list Byte.byte) : result public_key :=
  if String.eqb (string_of_list_byte data) "-----BEGIN PUBLIC KEY-----"
  then inr (RSAKey stub_key)
  else inl (Raise ValueError "Unable to load PEM file").

(** * More of the code

    What follows models the functions that the first part leaves out, and
    what is needed to state their properties. *)

(** ** Reading a result of [sanitize_host_name] *)

(** [c'] is [c], or the hyphen that replaced the underscore [c]. *)
Definition hyphenated (c c' : ascii) : Prop :=
  c' = c \/ (c = "_"%char /\ c' = "-"%char).

(** ** Reading a result of [sanitize_question] *)

(** No character of [s] is a line boundary of [str.splitlines]. *)
Definition single_line (s : string) : bool :=
  forallb (fun c => negb (is_linebreak c)) (str_chars s).

(** ** The causes of a failure of [answer] *)

(** The five ways in which [answer], called with [question] on [self]
    after the calls [tr], raises [e]. *)
Inductive answer_failure (w : World) (question : string) (self : Cortlayst)
    (tr : trace) : exn -> Prop :=
| token_failed e :
    generate_token w tr = inl e ->
    answer_failure w question self tr e
| request_failed jwt_token e :
    generate_token w tr = inr jwt_token ->
    requests_post w (tr ++ [EGenerateToken])
      (sanitize_host_name (analyst_endpoint self))
      (request_payload self question) (request_headers jwt_token) = inl e ->
    answer_failure w question self tr e
| status_refused jwt_token resp :
    generate_token w tr = inr jwt_token ->
    requests_post w (tr ++ [EGenerateToken])
      (sanitize_host_name (analyst_endpoint self))
      (request_payload self question) (request_headers jwt_token) = inr resp ->
    status_code resp <> 200%Z ->
    answer_failure w question self tr (failed_request resp)
| body_undecodable jwt_token resp e :
    generate_token w tr = inr jwt_token ->
    requests_post w (tr ++ [EGenerateToken])
      (sanitize_host_name (analyst_endpoint self))
      (request_payload self question) (request_headers jwt_token) = inr resp ->
    status_code resp = 200%Z ->
    json_body resp = inl e ->
    answer_failure w question self tr e
| body_not_a_mapping jwt_token resp body :
    generate_token w tr = inr jwt_token ->
    requests_post w (tr ++ [EGenerateToken])
      (sanitize_host_name (analyst_endpoint self))
      (request_payload self question) (request_headers jwt_token) = inr resp ->
    status_code resp = 200%Z ->
    json_body resp = inr body ->
    (forall fields, body <> JObj fields) ->
    answer_failure w question self tr
      (Raise TypeError ("'" +:+ py_type_name body +:+ "' object is not a mapping")).

(** ** More test doubles for the dispatcher *)

(** A warehouse session that refuses every statement. *)
Definition failing_session_world : World :=
  {| say := fun _ _ _ => inr tt;
     chat_postMessage := fun _ _ _ => inr tt;
     files_upload_v2 := fun _ _ _ _ _ => inr tt;
     session_sql := fun _ _ =>
       inl (Raise (ForeignError "SnowparkSQLException") "invalid identifier");
     chart_png := stub_chart_png;
     new_jwt_generator := fun _ _ _ _ => inr tt;
     generate_token := fun _ => inr "jwt";
     requests_post := fun _ _ _ _ => inr (envelope []);
     getenv := fun _ => None;
     session_conf := fun _ => None |}.

(** An item with a discriminator that is not [sql]. *)
Definition is_other_block (item : json) : bool :=
  match getitem item "type" with
  | inr type => negb (equals_str type "sql")
  | inl _ => false
  end.

Definition suggestions_block : json :=
  JObj (<["type" := JStr "suggestions"]>
       (<["suggestions" := JArr [JStr "How many tickets are open?"]]> ∅)).

(** ** Reading the requests of a trace *)

(** The requests made, as (URL, body). *)
Definition http_requests (tr : trace) : list (string * json) :=
  flat_map (fun e => match e with
                     | EHttpPost url payload _ => [(url, payload)]
                     | _ => []
                     end) tr.

(** The endpoint built from the configured host, before normalisation. *)
Definition configured_endpoint (w : World) : string :=
  "https://" +:+ str_of_optional (session_conf w "host")
    +:+ "/api/v2/cortex/analyst/message".

(** The semantic model of the defaults of [Cortlayst.__init__]. *)
Definition default_model_file : string :=
  "@slack_demo.data.semantic_models/support_tickets_semantic_model.yaml".

(** ** More test doubles for the keys *)

(** A parser that finds an elliptic-curve key. *)
Definition stub_load_ec_pem (_ : list Byte.byte) : result public_key :=
  inr (OtherKey "EllipticCurvePublicKey").

(** ** Text helpers of the handlers *)

(** The characters [str.isspace] accepts, among the modelled ones: TAB,
    LF, VT, FF, CR, FS, GS, RS, US, space, NEL and NBSP. *)
Definition is_space (c : ascii) : bool :=
  existsb (Ascii.eqb c)
    ["009"; "010"; "011"; "012"; "013"; "028"; "029"; "030"; "031"; "032";
     "133"; "160"]%char.

Fixpoint lstrip_chars (s : chars) : chars :=
  match s with
  | [] => []
  | c :: r => if is_space c then lstrip_chars r else s
  end.

Definition strip_chars (s : chars) : chars :=
  rev (lstrip_chars (rev (lstrip_chars s))).

(** [s.strip()] *)
Definition strip (s : string) : string := chars_str (strip_chars (str_chars s)).

(** [cur] is the word being read, last character first. *)
Fixpoint split_from (cur s : chars) : list chars :=
  match s with
  | [] => match cur with [] => [] | _ => [rev cur] end
  | c :: r =>
      if is_space c then
        match cur with
        | [] => split_from [] r
        | _ => rev cur :: split_from [] r
        end
      else split_from (c :: cur) r
  end.

(** [s.split()]: the words between runs of white space. *)
Definition split (s : string) : list string :=
  map chars_str (split_from [] (str_chars s)).

(** [os.path.basename(path)] on POSIX: what follows the last slash. *)
Fixpoint basename_from (cur s : chars) : chars :=
  match s with
  | [] => rev cur
  | c :: r => if is_slash c then basename_from [] r else basename_from (c :: cur) r
  end.

Definition basename (path : string) : string :=
  chars_str (basename_from [] (str_chars path)).

(** [os.path.join(a, b)] on POSIX. *)
Definition path_join (a b : string) : string :=
  match str_chars b with
  | c :: _ => if is_slash c then b else
      match rev (str_chars a) with
      | [] => b
      | last :: _ => if is_slash last then a +:+ b else a +:+ "/" +:+ b
      end
  | [] =>
      match rev (str_chars a) with
      | [] => b
      | last :: _ => if is_slash last then a +:+ b else a +:+ "/" +:+ b
      end
  end.

(** The double quote. *)
Definition DQUOTE : string := String "034" "".

(** ** The Slack handlers and the demo setup: what they call *)

(** The commands [/cortalyst], [/cleanup] and [/setup], the action
    [ask_cortex_analyst], [do_setup] and the class [DBSetup] follow.  A
    slash command is the map of its form fields, which are strings.  The
    names given to [do_setup] are strings, as [/setup] gives them; the
    action [setup_db], which passes on values of the payload that need not
    be strings, is left out, and so are the start-up code of the module,
    [error_handler] and [main].  Constructors of resources and
    [logger.debug] and [logger.info] are taken to return and are not
    recorded. *)

(** The forms of [handler_tasks.blocks] the handlers send; the module is
    not among the sources, and a form is recorded by its name. *)
Inductive form : Set := cortex_question | db_schema_setup.

(** [snowflake.core.CreateMode] *)
Inductive CreateMode : Set := error_if_exists | or_replace | if_not_exists.

(** The resources of [snowflake.core] the setup builds, with the
    arguments it gives them. *)
Record Database : Set := { Database_name : string; Database_comment : string }.

Record Schema : Set := { Schema_name : string; Schema_comment : string }.

Record Stage : Set := {
  Stage_name : string;
  Stage_url : option string;
  Stage_encryption : option string;
  Stage_directory_table : bool;
  Stage_comment : string
}.

Record TableColumn : Set := {
  TableColumn_name : string;
  TableColumn_datatype : string
}.

Record Table : Set := {
  Table_name : string;
  Table_columns : list TableColumn;
  Table_comment : string
}.

Record Pipe : Set := {
  Pipe_name : string;
  Pipe_auto_ingest : option bool;
  Pipe_comment : string;
  Pipe_copy_statement : string
}.

(** What [list_files] yields: the two attributes the setup reads. *)
Record StageFile : Set := {
  StageFile_name : string;
  StageFile_last_modified : string
}.

(** The calls of the handlers and of [DBSetup] that leave the process.
    [Core] wraps the calls of the part above; reading the clock is a call
    as well, as two readings differ. *)
Inductive app_event : Type :=
| Core (e : event)
| EAck
| ERespondBlocks (blocks : form) (response_type : string)
| ERespondText (text response_type : string)
| EChatPostEphemeral (channel user text : string)
| ESqlCount (statement : string)
| ESqlCollect (statement : string)
| ECreateOrAlterDatabase (name : string) (database : Database)
| ECreateSchema (db_name : string) (schema : Schema) (mode : CreateMode)
| ECreateStage (db_name schema_name : string) (stage : Stage) (mode : CreateMode)
| ECreateTable (db_name schema_name : string) (table : Table) (mode : CreateMode)
| ECreatePipe (db_name schema_name : string) (pipe : Pipe) (mode : CreateMode)
| ERenderTemplate (template_dir template db_name schema_name : string)
| EWriteFile (path content : string)
| EStagePut (db_name schema_name stage_name local_file stage_location : string)
    (auto_compress overwrite : bool)
| EListFiles (db_name schema_name stage_name pattern : string)
| ENow
| EPipeRefresh (db_name schema_name pipe_name : string)
| EDumpDbInfo (db_name schema_name : string)
| EGlobYaml (directory : string)
| EUnlink (path : string).

Abbreviation history := (list app_event).

(** The calls of the part above within a history. *)
Definition core_calls (h : history) : trace :=
  omap (fun e => match e with Core c => Some c | _ => None end) h.

(** What the collaborators answer, on the history so far.

    [session_sql_count] is [session.sql(statement).count()] and
    [session_sql_collect] is [session.sql(statement).collect()];
    [template_render] is [env.get_template(name).render(...)] on the
    templates of a directory; [file_write] opens a file for writing and
    writes it; [dump_dbinfo] opens [.dbinfo] and dumps the two names into
    it; [glob_yaml] lists the [*.yaml] files of a directory.
    [strptime] parses a date of the given format into microseconds since
    the epoch, reading it as UTC, and [datetime_now] is the clock in the
    same unit.  [data_dir] is the absolute path of the [data] directory
    beside the package of [db_setup.py]. *)
Record Services : Type := {
  core_world : World;
  ack : history -> result unit;
  respond_blocks : history -> form -> string -> result unit;
  respond_text : history -> string -> string -> result unit;
  chat_postEphemeral : history -> string -> string -> string -> result unit;
  session_sql_count : history -> string -> result Z;
  session_sql_collect : history -> string -> result unit;
  databases_create_or_alter : history -> string -> Database -> result unit;
  schemas_create : history -> string -> Schema -> CreateMode -> result unit;
  stages_create :
    history -> string -> string -> Stage -> CreateMode -> result unit;
  tables_create :
    history -> string -> string -> Table -> CreateMode -> result unit;
  pipes_create :
    history -> string -> string -> Pipe -> CreateMode -> result unit;
  template_render :
    history -> string -> string -> string -> string -> result string;
  file_write : history -> string -> string -> result unit;
  stage_put :
    history -> string -> string -> string -> string -> string -> bool -> bool
    -> result unit;
  stage_list_files :
    history -> string -> string -> string -> string -> result (list StageFile);
  strptime : string -> string -> result Z;
  datetime_now : history -> Z;
  pipe_refresh : history -> string -> string -> string -> result unit;
  dump_dbinfo : history -> string -> string -> result unit;
  glob_yaml : history -> string -> result (list string);
  path_unlink : history -> string -> result unit;
  data_dir : string
}.

(** A call of a handler: answered on the history so far, then recorded. *)
Definition app_call {A} (e : app_event) (answer : history -> result A)
    : M history A :=
  fun h => (answer h, (h ++ [e])%list).

(** A computation of the part above, run within a history: it sees the
    core calls made so far, and the calls it adds are recorded. *)
Definition lift_core {A} (m : M trace A) : M history A :=
  fun h =>
    let r := m (core_calls h) in
    (r.1, (h ++ map Core (drop (length (core_calls h)) r.2))%list).

(** [command[key]] on the form fields of a slash command, which are
    strings. *)
Definition command_item (command : gmap string string) (key : string)
    : result string :=
  match command !! key with
  | Some v => inr v
  | None => inl (Raise KeyError ("'" +:+ key +:+ "'"))
  end.

(** [command.get("text", "").strip()] *)
Definition command_text_of (command : gmap string string) : string :=
  strip (default "" (command !! "text")).

(** [not s] for a [str]. *)
Definition is_empty (s : string) : bool := String.eqb s "".

(** [a, b = tuple(words)] *)
Definition unpack_two (words : list string) : result (string * string) :=
  match words with
  | [x; y] => inr (x, y)
  | [] | [_] =>
      inl (Raise ValueError
             ("not enough values to unpack (expected 2, got "
              +:+ str_of_int (Z.of_nat (length words)) +:+ ")"))
  | _ => inl (Raise ValueError "too many values to unpack (expected 2)")
  end.

(** [isinstance(e, ValueError)], for the classes raised here; a
    [ForeignError] names a class that does not derive from
    [ValueError]. *)
Definition is_value_error (e : exn) : bool :=
  match exn_class e with ValueError => true | _ => false end.

(** The action payload of a block action, as far as the handlers read
    it: [body["state"]] if present, and [body["channel"]] if present, an
    object whose fields are strings. *)
Record ActionBody : Type := {
  body_state : option json;
  body_channel : option (gmap string string)
}.

(** [body["state"]["values"][block][action]["value"]] *)
Definition input_value {St} (body : ActionBody) (block action : string)
    : M St json :=
  match body_state body with
  | None => raise (Raise KeyError "'state'")
  | Some state =>
      values ← lift (getitem state "values");
      input_block ← lift (getitem values block);
      input ← lift (getitem input_block action);
      lift (getitem input "value")
  end.

(** [body["channel"]["id"]] *)
Definition body_channel_id (body : ActionBody) : result string :=
  match body_channel body with
  | None => inl (Raise KeyError "'channel'")
  | Some channel => command_item channel "id"
  end.

(** ** [DBSetup] of [handler_tasks/db_setup.py] *)

(** The fields of the object, by the names of their properties; its
    session and its [Root] are the [Services]. *)
Record DBSetup : Set := {
  db_name : string;
  schema_name : string;
  semantic_models_stage : string;
  semantic_model_file : string
}.

(** [DBSetup(session=session)], with the defaults of [__init__]. *)
Definition DBSetup_init : DBSetup :=
  {| db_name := "demo_db"; schema_name := "data";
     semantic_models_stage := "semantic_models";
     semantic_model_file := "support_tickets_semantic_model.yaml" |}.

Definition set_db_name (v : string) (self : DBSetup) : DBSetup :=
  {| db_name := v; schema_name := schema_name self;
     semantic_models_stage := semantic_models_stage self;
     semantic_model_file := semantic_model_file self |}.

Definition set_schema_name (v : string) (self : DBSetup) : DBSetup :=
  {| db_name := db_name self; schema_name := v;
     semantic_models_stage := semantic_models_stage self;
     semantic_model_file := semantic_model_file self |}.

Definition setup_comment : string := "created by slack bot setup".

(** [_mode] *)
Definition DBSetup_mode : CreateMode := if_not_exists.

Definition file_format_statement (ff_name : string) : string :=
  "CREATE OR REPLACE FILE FORMAT " +:+ ff_name +:+ LF
  +:+ "SKIP_HEADER = 1" +:+ LF
  +:+ "FIELD_OPTIONALLY_ENCLOSED_BY = '" +:+ DQUOTE +:+ "'" +:+ LF
  +:+ "TYPE = 'CSV'" +:+ LF
  +:+ "COMMENT = 'created by slack bot setup';" +:+ LF.

Definition copy_files_statement (_target_stage_fqn _stage_fqn _older_files : string)
    : string :=
  LF +:+ "                COPY FILES " +:+ LF
  +:+ "                INTO @" +:+ _target_stage_fqn +:+ LF
  +:+ "                FROM @" +:+ _stage_fqn +:+ LF
  +:+ "                FILES=(" +:+ _older_files +:+ ")" +:+ LF
  +:+ "                    ".

Definition date_format : string := "%a, %d %b %Y %H:%M:%S %Z".

(** [timedelta(days=7)], in microseconds. *)
Definition seven_days : Z := 604800000000.

Definition support_tickets_columns : list TableColumn :=
  [ {| TableColumn_name := "ticket_id"; TableColumn_datatype := "varchar(60)" |};
    {| TableColumn_name := "customer_name"; TableColumn_datatype := "varchar(60)" |};
    {| TableColumn_name := "customer_email"; TableColumn_datatype := "varchar(60)" |};
    {| TableColumn_name := "service_type"; TableColumn_datatype := "varchar(60)" |};
    {| TableColumn_name := "request"; TableColumn_datatype := "varchar" |};
    {| TableColumn_name := "contact_preference"; TableColumn_datatype := "varchar(60)" |} ].

(** [f"'{x}'"] *)
Definition quoted (x : string) : string := "'" +:+ x +:+ "'".

Section Setup.

Variable a : Services.

(** [LOGGER.error] and [logger.error]. *)
Definition log_error (msg : string) : M history unit :=
  app_call (Core (ELogError msg)) (fun _ => inr tt).

(** [client.chat_postMessage(channel=..., text=...)] *)
Definition post_message (channel msg : string) : M history unit :=
  app_call (Core (EChatPostMessage channel msg))
           (fun h => chat_postMessage (core_world a) (core_calls h) channel msg).

(** The [except] clause shared by the methods: log the exception, raise
    an [Exception] that names the step. *)
Definition step_failed (step : string) (e : exn) : M history unit :=
  log_error (exn_str e);;
  raise (Raise Exception (step +:+ "," +:+ exn_str e)).

(** [raise f"..."]: raising a [str] is itself a [TypeError]. *)
Definition raise_str (msg : string) : M history unit :=
  raise (Raise TypeError "exceptions must derive from BaseException").

Definition create_db (self : DBSetup) (db_name : string) : M history unit :=
  let database := {| Database_name := db_name; Database_comment := setup_comment |} in
  try_except
    (app_call (ECreateOrAlterDatabase db_name database)
              (fun h => databases_create_or_alter a h db_name database))
    (fun e =>
       log_error (exn_str e);;
       raise_str ("Error creating database " +:+ db_name +:+ "," +:+ exn_str e)).

Definition create_schema (self : DBSetup) (schema_name db_name : string)
    : M history unit :=
  let schema := {| Schema_name := schema_name; Schema_comment := setup_comment |} in
  try_except
    (app_call (ECreateSchema db_name schema DBSetup_mode)
              (fun h => schemas_create a h db_name schema DBSetup_mode))
    (step_failed ("Error creating schema " +:+ schema_name)).

Definition create_file_formats (self : DBSetup) (db_name schema_name : string)
    : M history unit :=
  let ff_name := join "." [db_name; schema_name; "csvformat"] in
  try_except
    (app_call (ESqlCollect (file_format_statement ff_name))
              (fun h => session_sql_collect a h (file_format_statement ff_name)))
    (step_failed ("Error creating file format " +:+ ff_name)).

(** [for stage in stages: ...stages.create(stage, mode=self._mode)] *)
Fixpoint create_stages (db_name schema_name : string) (stages : list Stage)
    : M history unit :=
  match stages with
  | [] => mret tt
  | stage :: rest =>
      app_call (ECreateStage db_name schema_name stage DBSetup_mode)
               (fun h => stages_create a h db_name schema_name stage DBSetup_mode);;
      create_stages db_name schema_name rest
  end.

Definition setup_stages (self : DBSetup) (stage_name : string) : list Stage :=
  [ {| Stage_name := stage_name;
       Stage_url := Some "s3://sfquickstarts/finetuning_llm_using_snowflake_cortex_ai/";
       Stage_encryption := None;
       Stage_directory_table := true;
       Stage_comment := setup_comment |};
    {| Stage_name := "older_than_7days_" +:+ stage_name;
       Stage_url := None;
       Stage_encryption := Some "SNOWFLAKE_SSE";
       Stage_directory_table := true;
       Stage_comment := setup_comment |};
    {| Stage_name := semantic_models_stage self;
       Stage_url := None;
       Stage_encryption := Some "SNOWFLAKE_SSE";
       Stage_directory_table := true;
       Stage_comment := setup_comment |} ].

Definition create_stage (self : DBSetup) (db_name schema_name stage_name : string)
    : M history unit :=
  try_except
    (create_stages db_name schema_name (setup_stages self stage_name);;
     let template_dir := data_dir a in
     let _model_file_template := semantic_model_file self +:+ ".j2" in
     let _model_file := path_join template_dir (semantic_model_file self) in
     rendered_yaml ←
       app_call (ERenderTemplate template_dir _model_file_template db_name schema_name)
                (fun h => template_render a h template_dir _model_file_template
                            db_name schema_name);
     app_call (EWriteFile _model_file rendered_yaml)
              (fun h => file_write a h _model_file rendered_yaml);;
     app_call (EStagePut db_name schema_name (semantic_models_stage self)
                         _model_file "/" false true)
              (fun h => stage_put a h db_name schema_name (semantic_models_stage self)
                          _model_file "/" false true))
    (step_failed "Error creating stages").

Definition create_table (self : DBSetup) (db_name schema_name table_name : string)
    : M history unit :=
  let table := {| Table_name := table_name;
                  Table_columns := support_tickets_columns;
                  Table_comment := setup_comment |} in
  try_except
    (app_call (ECreateTable db_name schema_name table DBSetup_mode)
              (fun h => tables_create a h db_name schema_name table DBSetup_mode))
    (step_failed ("Error creating table " +:+ table_name)).

Definition is_date_older_than_7days (self : DBSetup) (date_str : string)
    : M history bool :=
  date_obj ← lift (strptime a date_str date_format);
  current_time ← app_call ENow (fun h => inr (datetime_now a h));
  let time_difference := (current_time - date_obj)%Z in
  mret (seven_days <? time_difference)%Z.

(** [[os.path.basename(f.name) for f in files
      if self.is_date_older_than_7days(f.last_modified)]] *)
Fixpoint older_than_7days (self : DBSetup) (files : list StageFile)
    : M history (list string) :=
  match files with
  | [] => mret []
  | f :: rest =>
      older ← is_date_older_than_7days self (StageFile_last_modified f);
      names ← older_than_7days self rest;
      mret (if older : bool then basename (StageFile_name f) :: names else names)
  end.

(** [for pipe in support_tickets_pipes: pipes.create(pipe, mode=self._mode)] *)
Fixpoint create_pipes (db_name schema_name : string) (pipes : list Pipe)
    : M history unit :=
  match pipes with
  | [] => mret tt
  | pipe :: rest =>
      app_call (ECreatePipe db_name schema_name pipe DBSetup_mode)
               (fun h => pipes_create a h db_name schema_name pipe DBSetup_mode);;
      create_pipes db_name schema_name rest
  end.

Definition support_tickets_pipes
    (_table_fqn _stage_fqn _target_stage_fqn ff_fqn pipe_name : string) : list Pipe :=
  [ {| Pipe_name := pipe_name;
       Pipe_auto_ingest := Some true;
       Pipe_comment := setup_comment;
       Pipe_copy_statement :=
         "COPY INTO " +:+ _table_fqn +:+ " FROM @" +:+ _stage_fqn
         +:+ "/ FILE_FORMAT = (FORMAT_NAME = '" +:+ ff_fqn +:+ "')" |};
    {| Pipe_name := "older_than_7days_" +:+ pipe_name;
       Pipe_auto_ingest := None;
       Pipe_comment :=
         "created by slack bot setup to ingest 7 days older data files from external stage";
       Pipe_copy_statement :=
         "COPY INTO " +:+ _table_fqn +:+ " FROM @" +:+ _target_stage_fqn
         +:+ " FILE_FORMAT = (FORMAT_NAME = '" +:+ ff_fqn +:+ "')" |} ].

Definition pipe_and_load (self : DBSetup)
    (db_name schema_name stage_name table_name ff_name pipe_name : string)
    : M history unit :=
  try_except
    (let _table_fqn := db_name +:+ "." +:+ schema_name +:+ "." +:+ table_name in
     let _stage_fqn := db_name +:+ "." +:+ schema_name +:+ "." +:+ stage_name in
     let _target_stage_fqn :=
       db_name +:+ "." +:+ schema_name +:+ ".older_than_7days_" +:+ stage_name in
     let ff_fqn := db_name +:+ "." +:+ schema_name +:+ "." +:+ ff_name in
     create_pipes db_name schema_name
       (support_tickets_pipes _table_fqn _stage_fqn _target_stage_fqn ff_fqn pipe_name);;
     old_stage_files ←
       app_call (EListFiles db_name schema_name stage_name ".*[.csv]")
                (fun h => stage_list_files a h db_name schema_name stage_name ".*[.csv]");
     older ← older_than_7days self old_stage_files;
     if (0 <? length older)%nat then
       let _older_files := join "," (map quoted older) in
       let statement := copy_files_statement _target_stage_fqn _stage_fqn _older_files in
       app_call (ESqlCollect statement) (fun h => session_sql_collect a h statement);;
       app_call (EPipeRefresh db_name schema_name ("older_than_7days_" +:+ pipe_name))
                (fun h => pipe_refresh a h db_name schema_name
                            ("older_than_7days_" +:+ pipe_name))
     else mret tt)
    (step_failed "Error creating pipe and loading data").

(** The messages of [do], in the order of the steps. *)
Definition progress_messages (self : DBSetup) : list string :=
  [ ":white_check_mark: Created database " +:+ db_name self;
    ":white_check_mark:  Created schema " +:+ schema_name self;
    ":white_check_mark:  Created file formats.";
    ":white_check_mark:  Created stages.";
    ":white_check_mark:  Created tables.";
    ":white_check_mark: Loaded data, wait for 15 to 20 secs for the pipe to refresh and ingest data.";
    "Setup completed." ].

(** [do], with the defaults of the methods it calls. *)
Definition DBSetup_do (self : DBSetup) (channel_id : string) : M history unit :=
  try_except
    (create_db self (db_name self);;
     post_message channel_id (":white_check_mark: Created database " +:+ db_name self);;
     create_schema self (schema_name self) (db_name self);;
     post_message channel_id (":white_check_mark:  Created schema " +:+ schema_name self);;
     create_file_formats self (db_name self) (schema_name self);;
     post_message channel_id ":white_check_mark:  Created file formats.";;
     create_stage self (db_name self) (schema_name self) "support_tickets_data";;
     post_message channel_id ":white_check_mark:  Created stages.";;
     create_table self (db_name self) (schema_name self) "support_tickets";;
     post_message channel_id ":white_check_mark:  Created tables.";;
     pipe_and_load self (db_name self) (schema_name self) "support_tickets_data"
       "support_tickets" "csvformat" "support_tickets_data";;
     post_message channel_id
       ":white_check_mark: Loaded data, wait for 15 to 20 secs for the pipe to refresh and ingest data.";;
     post_message channel_id "Setup completed.")
    (fun e =>
       log_error "Error setting up demo";;
       raise (Raise Exception ("Error setting up demo," +:+ exn_str e))).

(** ** [do_setup] and the handlers of [app.py] *)

(** The handlers run on the global [db_setup] and the history. *)
Abbreviation Handler := (M (DBSetup * history)).

Definition in_history {A} (m : M history A) : Handler A :=
  fun st => let r := m st.2 in (r.1, (st.1, r.2)).

Definition get_db_setup : Handler DBSetup := fun st => (inr st.1, st).

Definition update_db_setup (f : DBSetup -> DBSetup) : Handler unit :=
  fun st => (inr tt, (f st.1, st.2)).

Definition setup_wait_message : string :=
  "Wait for few seconds for the setup to be done :hourglass_flowing_sand:".

Definition congratulations (db_name schema_name : string) : string :=
  LF +:+ "*Congratulations!!* Demo setup successful :tada:." +:+ LF
  +:+ LF
  +:+ "Try this query in *Snowsight* to view the loaded data:  " +:+ LF
  +:+ "```" +:+ LF
  +:+ "SELECT * FROM " +:+ db_name +:+ "." +:+ schema_name +:+ ".SUPPORT_TICKETS;" +:+ LF
  +:+ "```".

(** [for file_path in files: file_path.unlink()] *)
Fixpoint unlink_all (files : list string) : M history unit :=
  match files with
  | [] => mret tt
  | file_path :: rest =>
      app_call (EUnlink file_path) (fun h => path_unlink a h file_path);;
      unlink_all rest
  end.

(** The [except] clause of [do_setup]. *)
Definition setup_failed (channel_id : string) (e : exn) : M history unit :=
  log_error ("Error handling db setup: " +:+ exn_str e);;
  files ← app_call (EGlobYaml "src/templates")
                   (fun h => glob_yaml a h "src/templates");
  unlink_all files;;
  post_message channel_id ("Sorry, error setting up database." +:+ exn_str e).

Definition do_setup (channel_id db_name schema_name : string) : Handler unit :=
  try_except
    (in_history (post_message channel_id setup_wait_message);;
     update_db_setup (set_db_name db_name);;
     update_db_setup (set_schema_name schema_name);;
     db_setup ← get_db_setup;
     in_history (DBSetup_do db_setup channel_id);;
     in_history (post_message channel_id (congratulations db_name schema_name));;
     in_history (app_call (EDumpDbInfo db_name schema_name)
                          (fun h => dump_dbinfo a h db_name schema_name)))
    (fun e => in_history (setup_failed channel_id e)).

Definition unexpected_error : string := "An unexpected error occurred.".

(** The outermost [except] clause of the two command handlers: log, tell
    the user, and if that fails tell the user through the client. *)
Definition global_failed (prefix : string) (command : gmap string string) (e : exn)
    : M history unit :=
  log_error (prefix +:+ exn_str e);;
  try_except
    (app_call (ERespondText unexpected_error "ephemeral")
              (fun h => respond_text a h unexpected_error "ephemeral"))
    (fun _ =>
       channel ← lift (command_item command "channel_id");
       user ← lift (command_item command "user_id");
       app_call (EChatPostEphemeral channel user unexpected_error)
                (fun h => chat_postEphemeral a h channel user unexpected_error)).

(** Sends a form, with its fallback. *)
Definition send_form (blocks : form) (apology : string) : M history unit :=
  try_except
    (app_call (ERespondBlocks blocks "ephemeral")
              (fun h => respond_blocks a h blocks "ephemeral"))
    (fun e =>
       log_error ("Failed to send response: " +:+ exn_str e);;
       app_call (ERespondText apology "ephemeral")
                (fun h => respond_text a h apology "ephemeral")).

Definition invalid_format : string :=
  "Invalid format. Please provide both database name and schema name.".

Definition setup_handler (command : gmap string string) : Handler unit :=
  try_except
    (in_history (app_call EAck (ack a));;
     let command_text := command_text_of command in
     if is_empty command_text then
       in_history
         (send_form db_schema_setup
                    "Sorry, there was an error displaying the setup form.")
     else
       try_except
         (names ← in_history (lift (unpack_two (split (strip command_text))));
          channel ← in_history (lift (command_item command "channel_id"));
          do_setup channel names.1 names.2)
         (fun e =>
            if is_value_error e then
              in_history
                (app_call (ERespondText invalid_format "ephemeral")
                          (fun h => respond_text a h invalid_format "ephemeral"))
            else
              in_history
                (log_error ("Setup error: " +:+ exn_str e);;
                 app_call (ERespondText ("Error during setup: " +:+ exn_str e) "ephemeral")
                          (fun h => respond_text a h ("Error during setup: " +:+ exn_str e)
                                      "ephemeral"))))
    (fun e => in_history (global_failed "Global handler error: " command e)).

Definition cleanup_wait_message : string :=
  "Wait for few seconds for the cleanup to be done :hourglass_flowing_sand:".

(** The text of the failure response is a plain literal, braces
    included: it is no f-string. *)
Definition cleanup_apology : string :=
  "Sorry, there was an error during cleanup of Database {db_name}.".

(** [db_name] is a [str], so [db_name is not None] holds. *)
Definition cleanup_handler (command : gmap string string) : M history unit :=
  app_call EAck (ack a);;
  channel_id ← lift (command_item command "channel_id");
  post_message channel_id cleanup_wait_message;;
  let db_name := command_text_of command in
  try_except
    (_count ← app_call (ESqlCount ("DROP DATABASE " +:+ db_name))
                       (fun h => session_sql_count a h ("DROP DATABASE " +:+ db_name));
     if (0 <? _count)%Z then
       post_message channel_id
         (":white_check_mark: Database `" +:+ db_name +:+ "` dropped successfully.")
     else mret tt)
    (fun e =>
       log_error ("Failed to cleanup: " +:+ exn_str e);;
       app_call (ERespondText cleanup_apology "ephemeral")
                (fun h => respond_text a h cleanup_apology "ephemeral")).

Definition handle_cortalyst (command : gmap string string) : M history unit :=
  app_call EAck (ack a);;
  try_except
    (let command_text := command_text_of command in
     if is_empty command_text then
       send_form cortex_question
                 "Sorry, there was an error displaying the question form."
     else
       try_except
         (channel_id ← lift (command_item command "channel_id");
          lift_core (ask_cortex_analyst (core_world a) channel_id command_text))
         (fun e =>
            log_error ("Cortalyst error: " +:+ exn_str e);;
            app_call (ERespondText ("Error asking Cortex Analyst: " +:+ exn_str e)
                                   "ephemeral")
                     (fun h => respond_text a h
                                 ("Error asking Cortex Analyst: " +:+ exn_str e)
                                 "ephemeral")))
    (global_failed "Cortalyst::Failed to send response: " command).

(** [ask_cortex_analyst] on the value of an input, which need not be a
    [str]: [question.splitlines()] is the first thing evaluated, and a
    value of another type has no such attribute. *)
Definition ask_cortex_analyst_value (channel_id : string) (question : json)
    : M trace unit :=
  match question with
  | JStr q => ask_cortex_analyst (core_world a) channel_id q
  | _ =>
      raise (Raise Exception
               ("'" +:+ py_type_name question
                +:+ "' object has no attribute 'splitlines'"))
  end.

Definition ask_apology : string :=
  "Sorry, there was an error askingCortex Analyst .".

Definition action_ask_cortex_analyst (body : ActionBody) : M history unit :=
  app_call EAck (ack a);;
  try_except
    (question ← input_value body "analyst_question_block" "question";
     channel_id ← lift (body_channel_id body);
     lift_core (ask_cortex_analyst_value channel_id question))
    (fun e =>
       log_error ("Failed to send request to Cortex Analyst: " +:+ exn_str e);;
       app_call (ERespondText ask_apology "ephemeral")
                (fun h => respond_text a h ask_apology "ephemeral")).

End Setup.

(** ** Test doubles for the handlers *)

(** Two staged files: one of 1 January 2024, one of 9 January 2024. *)
Definition staged_files : list StageFile :=
  [ {| StageFile_name := "s3://bucket/data/tickets_old.csv";
       StageFile_last_modified := "Mon, 01 Jan 2024 00:00:00 GMT" |};
    {| StageFile_name := "s3://bucket/data/tickets_new.csv";
       StageFile_last_modified := "Tue, 09 Jan 2024 00:00:00 GMT" |} ].

(** Parses the two dates above. *)
Definition stub_strptime (date_str format : string) : result Z :=
  if String.eqb date_str "Mon, 01 Jan 2024 00:00:00 GMT" then inr 1704067200000000%Z
  else if String.eqb date_str "Tue, 09 Jan 2024 00:00:00 GMT" then inr 1704758400000000%Z
  else inl (Raise ValueError
              ("time data '" +:+ date_str +:+ "' does not match format '"
               +:+ format +:+ "'")).

(** Services that all succeed, on the given core collaborators; the clock
    stands at 10 January 2024, 00:00:00 UTC. *)
Definition stub_services (w : World) : Services :=
  {| core_world := w;
     ack := fun _ => inr tt;
     respond_blocks := fun _ _ _ => inr tt;
     respond_text := fun _ _ _ => inr tt;
     chat_postEphemeral := fun _ _ _ _ => inr tt;
     session_sql_count := fun _ _ => inr 1%Z;
     session_sql_collect := fun _ _ => inr tt;
     databases_create_or_alter := fun _ _ _ => inr tt;
     schemas_create := fun _ _ _ _ => inr tt;
     stages_create := fun _ _ _ _ _ => inr tt;
     tables_create := fun _ _ _ _ _ => inr tt;
     pipes_create := fun _ _ _ _ _ => inr tt;
     template_render := fun _ _ _ _ _ => inr "name: support_tickets";
     file_write := fun _ _ _ => inr tt;
     stage_put := fun _ _ _ _ _ _ _ _ => inr tt;
     stage_list_files := fun _ _ _ _ _ => inr staged_files;
     strptime := stub_strptime;
     datetime_now := fun _ => 1704844800000000%Z;
     pipe_refresh := fun _ _ _ _ => inr tt;
     dump_dbinfo := fun _ _ _ => inr tt;
     glob_yaml := fun _ _ => inr [];
     path_unlink := fun _ _ => inr tt;
     data_dir := "/app/src/data" |}.

(** A slash command with the given text, sent from channel [C0123] by
    user [U0456]. *)
Definition a_command (command_text : string) : gmap string string :=
  {[ "text" := command_text; "channel_id" := "C0123"; "user_id" := "U0456" ]}.

(** Services whose session refuses every statement. *)
Definition refusing_session (a : Services) : Services :=
  {| core_world := core_world a;
     ack := ack a;
     respond_blocks := respond_blocks a;
     respond_text := respond_text a;
     chat_postEphemeral := chat_postEphemeral a;
     session_sql_count := fun _ _ =>
       inl (Raise (ForeignError "SnowparkSQLException") "Database does not exist");
     session_sql_collect := fun _ _ =>
       inl (Raise (ForeignError "SnowparkSQLException") "Database does not exist");
     databases_create_or_alter := databases_create_or_alter a;
     schemas_create := schemas_create a;
     stages_create := stages_create a;
     tables_create := tables_create a;
     pipes_create := pipes_create a;
     template_render := template_render a;
     file_write := file_write a;
     stage_put := stage_put a;
     stage_list_files := stage_list_files a;
     strptime := strptime a;
     datetime_now := datetime_now a;
     pipe_refresh := pipe_refresh a;
     dump_dbinfo := dump_dbinfo a;
     glob_yaml := glob_yaml a;
     path_unlink := path_unlink a;
     data_dir := data_dir a |}.

(** The payload of the question form, submitted with the given value of
    its input, from channel [C0123]. *)
Definition question_form_body (value : json) : ActionBody :=
  {| body_state :=
       Some (JObj {[ "values" :=
         JObj {[ "analyst_question_block" :=
           JObj {[ "question" :=
             JObj {[ "type" := JStr "plain_text_input"; "value" := value ]} ]} ]} ]});
     body_channel := Some {[ "id" := "C0123"; "name" := "general" ]} |}.

(** ** Reading a history *)

(** The messages posted to channels, as pairs of channel and text. *)
Definition posted_messages (h : history) : list (string * string) :=
  flat_map (fun e => match e with
                     | Core (EChatPostMessage channel msg) => [(channel, msg)]
                     | _ => []
                     end) h.

(** The names written to [.dbinfo]. *)
Definition dumps (h : history) : list (string * string) :=
  flat_map (fun e => match e with
                     | EDumpDbInfo db_name schema_name => [(db_name, schema_name)]
                     | _ => []
                     end) h.

(** The statements collected. *)
Definition collected (h : history) : list string :=
  flat_map (fun e => match e with
                     | ESqlCollect statement => [statement]
                     | _ => []
                     end) h.

(** [m] only adds calls; it writes no [.dbinfo]; the messages it posts
    are the first ones of [msgs], and all of them if it returns. *)
Definition reports (m : M history unit) (msgs : list (string * string)) : Prop :=
  forall h,
    exists new,
      final (m h) = (h ++ new)%list
      /\ dumps new = []
      /\ posted_messages new `prefix_of` msgs
      /\ (outcome (m h) = inr tt -> posted_messages new = msgs).

(** The six steps of [do], each with the message that reports it. *)
Definition setup_steps (a : Services) (self : DBSetup)
    : list (M history unit * string) :=
  [ (create_db a self (db_name self),
     ":white_check_mark: Created database " +:+ db_name self);
    (create_schema a self (schema_name self) (db_name self),
     ":white_check_mark:  Created schema " +:+ schema_name self);
    (create_file_formats a self (db_name self) (schema_name self),
     ":white_check_mark:  Created file formats.");
    (create_stage a self (db_name self) (schema_name self) "support_tickets_data",
     ":white_check_mark:  Created stages.");
    (create_table a self (db_name self) (schema_name self) "support_tickets",
     ":white_check_mark:  Created tables.");
    (pipe_and_load a self (db_name self) (schema_name self) "support_tickets_data"
       "support_tickets" "csvformat" "support_tickets_data",
     ":white_check_mark: Loaded data, wait for 15 to 20 secs for the pipe to refresh and ingest data.") ].

(** Steps run in order, each followed by its message, and then [rest]:
    the shape of the body of [do]. *)
Fixpoint report_steps (a : Services) (channel_id : string)
    (steps : list (M history unit * string)) (rest : M history unit)
    : M history unit :=
  match steps with
  | [] => rest
  | (step, msg) :: steps' =>
      step;; post_message a channel_id msg;; report_steps a channel_id steps' rest
  end.

(** Services that cannot create the database. *)
Definition refusing_database (a : Services) : Services :=
  {| core_world := core_world a;
     ack := ack a;
     respond_blocks := respond_blocks a;
     respond_text := respond_text a;
     chat_postEphemeral := chat_postEphemeral a;
     session_sql_count := session_sql_count a;
     session_sql_collect := session_sql_collect a;
     databases_create_or_alter := fun _ _ _ =>
       inl (Raise (ForeignError "APIError") "Insufficient privileges");
     schemas_create := schemas_create a;
     stages_create := stages_create a;
     tables_create := tables_create a;
     pipes_create := pipes_create a;
     template_render := template_render a;
     file_write := file_write a;
     stage_put := stage_put a;
     stage_list_files := stage_list_files a;
     strptime := strptime a;
     datetime_now := datetime_now a;
     pipe_refresh := pipe_refresh a;
     dump_dbinfo := dump_dbinfo a;
     glob_yaml := glob_yaml a;
     path_unlink := path_unlink a;
     data_dir := data_dir a |}.

(** A world whose Slack client posts every message. *)
Definition posting_world : World := stub_world two_column_frame overloaded.

(** The dates of [staged_files], as [stub_strptime] reads them. *)
Definition stub_modified (f : StageFile) : Z :=
  match stub_strptime (StageFile_last_modified f) date_format with
  | inr z => z
  | inl _ => 0%Z
  end.

(** The clock of [stub_services]. *)
Definition stub_now : Z := 1704844800000000.

(** * Properties *)

(** ** The pattern *)

Lemma is_slash_hyphenate c : is_slash (hyphenate c) = is_slash c.
Proof.
  unfold hyphenate, is_underscore, is_slash, is_char.
  destruct (Ascii.eqb_spec c "_") as [->|]; reflexivity.
Qed.

Lemma span_host_app s : ((span_host s).1 ++ (span_host s).2)%list = s.
Proof.
  induction s as [|c r IH]; simpl; [reflexivity|].
  destruct (is_slash c); simpl; [reflexivity|]. by rewrite IH.
Qed.

Lemma span_host_free s : Forall (fun c => is_slash c = false) (span_host s).1.
Proof.
  induction s as [|c r IH]; simpl; [constructor|].
  destruct (is_slash c) eqn:E; simpl; [constructor|]. by constructor.
Qed.

Lemma span_host_rest_length s : (length (span_host s).2 <= length s)%nat.
Proof.
  induction s as [|c r IH]; simpl; [lia|].
  destruct (is_slash c); simpl; lia.
Qed.

Lemma span_host_lookahead s : Re.lookahead (span_host s).2 = true.
Proof.
  induction s as [|c r IH]; simpl; [reflexivity|].
  destruct (is_slash c) eqn:E; simpl; [by rewrite E|exact IH].
Qed.

Lemma find_append {A} (f : A -> bool) (l1 l2 : list A) :
  List.find f (l1 ++ l2)
  = match List.find f l1 with Some x => Some x | None => List.find f l2 end.
Proof.
  induction l1 as [|x l1 IH]; simpl; [reflexivity|].
  by destruct (f x).
Qed.

Lemma find_host_chars_cons c (l : list (chars * chars)) :
  List.find (fun mr => Re.lookahead mr.2) (map (fun mr => (c :: mr.1, mr.2)) l)
  = (fun mr => (c :: mr.1, mr.2)) <$> List.find (fun mr => Re.lookahead mr.2) l.
Proof.
  induction l as [|[m rest] l IH]; simpl; [reflexivity|].
  destruct (Re.lookahead rest); simpl; [reflexivity|exact IH].
Qed.

(** The greedy alternative already satisfies the lookahead: the class
    never has to give a character back. *)
Lemma find_host_chars s :
  List.find (fun mr => Re.lookahead mr.2) (Re.host_chars s)
  = match s with
    | [] => None
    | c :: _ => if is_slash c then None else Some (span_host s)
    end.
Proof.
  induction s as [|c r IH]; simpl; [reflexivity|].
  destruct (is_slash c) eqn:E; simpl; [reflexivity|].
  rewrite find_append, find_host_chars_cons, IH.
  destruct r as [|c' r']; simpl; [reflexivity|].
  destruct (is_slash c') eqn:E'; simpl; [|reflexivity].
  reflexivity.
Qed.

Lemma lookbehind_cursor before :
  Re.lookbehind before = match cursor_of before with Slash2 => true | _ => false end.
Proof.
  destruct before as [|c1 [|c2 b]]; simpl; [reflexivity| |].
  - by destruct (is_slash c1).
  - by destruct (is_slash c1), (is_slash c2).
Qed.

Lemma cursor_of_slash c before :
  is_slash c = true -> cursor_of (c :: before) = after_slash (cursor_of before).
Proof.
  intros E. destruct before as [|c1 b]; simpl; rewrite E; [reflexivity|].
  destruct (is_slash c1); [|reflexivity].
  destruct b as [|c2 b]; [reflexivity|]. by destruct (is_slash c2).
Qed.

Lemma cursor_of_other c before : is_slash c = false -> cursor_of (c :: before) = Plain.
Proof. intros E. simpl. by rewrite E. Qed.

Lemma cursor_of_not_host before : cursor_of before <> Host.
Proof.
  destruct before as [|c1 [|c2 b]]; simpl; [done| |].
  - by destruct (is_slash c1).
  - by destruct (is_slash c1), (is_slash c2).
Qed.

Lemma search_scan s : forall before,
  Re.search before s = scan_search (cursor_of before) s.
Proof.
  induction s as [|c r IH]; intros before.
  - simpl. unfold Re.match_here. by destruct (Re.lookbehind before).
  - cbn [Re.search scan_search]. unfold Re.match_here.
    rewrite find_host_chars, lookbehind_cursor.
    destruct (is_slash c) eqn:E.
    + rewrite IH, (cursor_of_slash _ _ E).
      by destruct (cursor_of before).
    + rewrite IH, (cursor_of_other _ _ E).
      pose proof (cursor_of_not_host before).
      by destruct (cursor_of before).
Qed.

Lemma scan_sub_host s :
  scan_sub Host s
  = (map hyphenate (span_host s).1 ++ scan_sub Plain (span_host s).2)%list.
Proof.
  induction s as [|c r IH]; simpl; [reflexivity|].
  destruct (is_slash c) eqn:E; simpl; [by rewrite E|].
  by rewrite IH.
Qed.

Lemma cursor_of_after_run m before :
  m <> [] -> Forall (fun c => is_slash c = false) m ->
  cursor_of (rev m ++ before) = Plain.
Proof.
  intros Hne Hfree.
  destruct (rev m) as [|c l] eqn:E.
  - apply (f_equal (@length _)) in E. rewrite length_rev in E.
    by destruct m.
  - simpl. rewrite Forall_forall in Hfree.
    rewrite (Hfree c); [reflexivity|].
    apply list_elem_of_In, in_rev. rewrite E. by left.
Qed.

(** [Re.sub] with enough fuel is the one-pass substitution. *)
Lemma sub_fuel_scan fuel : forall s before,
  (length s < fuel)%nat ->
  Re.sub_fuel fuel replace_host before s = scan_sub (cursor_of before) s.
Proof.
  induction fuel as [|fuel IH]; intros s before Hlen; [lia|].
  cbn [Re.sub_fuel]. unfold Re.match_here.
  rewrite find_host_chars, lookbehind_cursor.
  destruct s as [|c r].
  { by destruct (cursor_of before). }
  cbn [scan_sub]. simpl in Hlen.
  destruct (is_slash c) eqn:E.
  - rewrite IH by lia. rewrite (cursor_of_slash _ _ E).
    by destruct (cursor_of before).
  - pose proof (cursor_of_not_host before) as Hnh.
    destruct (cursor_of before) eqn:Ec; try done;
      try (rewrite IH by lia; by rewrite (cursor_of_other _ _ E)).
    cbn [in_host fst snd]. simpl span_host. rewrite E. cbn [fst snd].
    rewrite IH by (pose proof (span_host_rest_length r); lia).
    rewrite cursor_of_after_run.
    + unfold replace_host. simpl. by rewrite scan_sub_host.
    + done.
    + constructor; [exact E|apply span_host_free].
Qed.

Lemma sub_scan s : Re.sub replace_host s = scan_sub Plain s.
Proof. unfold Re.sub. by rewrite sub_fuel_scan by lia. Qed.

Lemma span_host_scan_sub s :
  (span_host (scan_sub Host s)).1 = map hyphenate (span_host s).1.
Proof.
  induction s as [|c r IH]; simpl; [reflexivity|].
  destruct (is_slash c) eqn:E; simpl.
  - by rewrite E.
  - rewrite is_slash_hyphenate, E. simpl. by rewrite IH.
Qed.

(** Substitution moves no slash: the matches stay where they were, and the
    first of them is the first match of the original, with hyphens. *)
Lemma scan_search_sub s : forall st,
  scan_search st (scan_sub st s) = map hyphenate <$> scan_search st s.
Proof.
  induction s as [|c r IH]; intros st; simpl; [reflexivity|].
  destruct (is_slash c) eqn:E.
  - simpl. rewrite E. apply IH.
  - destruct (in_host st) eqn:Eh; simpl.
    + rewrite is_slash_hyphenate, E, Eh. simpl. by rewrite span_host_scan_sub.
    + rewrite E, Eh. apply IH.
Qed.

Lemma no_underscore_left m : existsb is_underscore (map hyphenate m) = false.
Proof.
  induction m as [|c m IH]; simpl; [reflexivity|].
  rewrite IH, orb_false_r. unfold hyphenate, is_underscore, is_char.
  destruct (Ascii.eqb c "_") eqn:E; [reflexivity|exact E].
Qed.

Lemma str_chars_str l : str_chars (chars_str l) = l.
Proof. apply list_ascii_of_string_of_list_ascii. Qed.

Lemma chars_str_chars s : chars_str (str_chars s) = s.
Proof. apply string_of_list_ascii_of_string. Qed.

(** [sanitize_host_name] through the one-pass reading. *)
Lemma sanitize_host_name_scan url :
  sanitize_host_name url
  = match scan_search Plain (str_chars url) with
    | Some matched_host =>
        if existsb is_underscore matched_host
        then chars_str (scan_sub Plain (str_chars url))
        else url
    | None => url
    end.
Proof.
  unfold sanitize_host_name. rewrite search_scan. simpl cursor_of.
  destruct (scan_search Plain (str_chars url)); [|reflexivity].
  by rewrite sub_scan.
Qed.

Lemma sanitize_host_name_twice url :
  sanitize_host_name (sanitize_host_name url) = sanitize_host_name url.
Proof.
  rewrite (sanitize_host_name_scan url).
  destruct (scan_search Plain (str_chars url)) as [host|] eqn:Es.
  - destruct (existsb is_underscore host) eqn:Eu.
    + rewrite sanitize_host_name_scan, str_chars_str, scan_search_sub, Es.
      simpl. by rewrite no_underscore_left.
    + rewrite sanitize_host_name_scan, Es. by rewrite Eu.
  - rewrite sanitize_host_name_scan. by rewrite Es.
Qed.

(** ** The client *)

Ltac run :=
  unfold answer, get_token, world, call, emit, get_self, update_self, lift,
    raise, try_except, on_object, final, outcome;
  unfold mbind, M_bind, mret, M_ret; simpl.

Lemma payload_question_request self question :
  payload_question (request_payload self question) = Some question.
Proof.
  unfold payload_question, request_payload, getitem.
  by simplify_map_eq.
Qed.

(** The endpoint after a call: normalised as soon as the token was
    obtained. *)
Lemma answer_endpoint w question self tr :
  analyst_endpoint (final (answer w question (self, tr))).1
  = match generate_token w tr with
    | inr _ => sanitize_host_name (analyst_endpoint self)
    | inl _ => analyst_endpoint self
    end.
Proof.
  run. destruct (generate_token w tr); simpl; [reflexivity|].
  destruct (requests_post w _ _ _ _) as [e|resp]; simpl; [reflexivity|].
  destruct (status_code resp =? 200)%Z; simpl; [|reflexivity].
  destruct (json_body resp); reflexivity.
Qed.

(** The calls a run of [answer] makes: the token, then at most one
    request. *)
Lemma answer_trace w question self tr :
  (final (answer w question (self, tr))).2
  = (tr ++ EGenerateToken ::
       match generate_token w tr with
       | inr jwt_token =>
           [EHttpPost (sanitize_host_name (analyst_endpoint self))
                      (request_payload self question)
                      (request_headers jwt_token)]
       | inl _ => []
       end)%list.
Proof.
  run. destruct (generate_token w tr); simpl; [reflexivity|].
  rewrite <- app_assoc. simpl.
  destruct (requests_post w _ _ _ _) as [e|resp]; simpl; [reflexivity|].
  destruct (status_code resp =? 200)%Z; simpl; [|reflexivity].
  destruct (json_body resp); reflexivity.
Qed.

(** The examples of the docstring. *)
Example sanitize_host_name_doc :
  sanitize_host_name "https://my_server_name.example.com/path_name"
  = "https://my-server-name.example.com/path_name"
  /\ sanitize_host_name "http://sub_domain.my_site_name.com:8080/my_path"
     = "http://sub-domain.my-site-name.com:8080/my_path"
  /\ sanitize_host_name "https://example.com/path_with_underscore"
     = "https://example.com/path_with_underscore".
Proof. repeat split; vm_compute; reflexivity. Qed.

(** C9.  [sanitize_host_name] is idempotent.  Consequently the endpoint
    the client stores is normalised by the first call of [answer] that
    reaches the assignment (the one whose token was obtained), and a call
    of [answer] on a client whose endpoint is already normalised leaves the
    endpoint as it is. *)
Theorem sanitize_host_name_idempotent :
  (forall u, sanitize_host_name (sanitize_host_name u) = sanitize_host_name u)
  /\ (forall w question self tr,
        analyst_endpoint (final (answer w question (self, tr))).1
        = match generate_token w tr with
          | inr _ => sanitize_host_name (analyst_endpoint self)
          | inl _ => analyst_endpoint self
          end)
  /\ (forall w question self tr u,
        analyst_endpoint
          (final (answer w question
                    (set_analyst_endpoint (sanitize_host_name u) self, tr))).1
        = sanitize_host_name u).
Proof.
  split; [exact sanitize_host_name_twice|].
  split; [exact answer_endpoint|].
  intros w question self tr u. rewrite answer_endpoint. simpl.
  destruct (generate_token w tr); [reflexivity|].
  apply sanitize_host_name_twice.
Qed.

(** C7, at the input where the code departs from it.  The substitution
    rewrites every run that follows two slashes, not the host alone: with
    an underscore in the host, a path segment after a second [//] loses its
    underscores too.  The two examples of the specification hold. *)
Theorem sanitize_host_name_rewrites_path :
  sanitize_host_name "https://my_host.example.com/a//b_c"
  = "https://my-host.example.com/a//b-c"
  /\ sanitize_host_name "https://my_host.example.com/api"
     = "https://my-host.example.com/api"
  /\ sanitize_host_name "https://host.example.com/path_with_underscore"
     = "https://host.example.com/path_with_underscore".
Proof. repeat split; vm_compute; reflexivity. Qed.

(** C4.  When the response has a status other than 200, [answer] raises an
    exception whose message carries the request id of the response header,
    the status and the response text, unchanged and whatever the status is;
    it has made one request and no call to the output collaborator or to
    the analytics engine. *)
Theorem answer_fails_on_non_200 w question self tr jwt_token resp :
  generate_token w tr = inr jwt_token ->
  requests_post w (tr ++ [EGenerateToken])
    (sanitize_host_name (analyst_endpoint self))
    (request_payload self question) (request_headers jwt_token) = inr resp ->
  status_code resp <> 200%Z ->
  outcome (answer w question (self, tr))
  = inl (Raise Exception
           ("Failed request (id: " +:+ str_of_optional (request_id_header resp)
              +:+ ") with status " +:+ str_of_int (status_code resp)
              +:+ ": " +:+ text resp))
  /\ exists new,
       (final (answer w question (self, tr))).2 = (tr ++ new)%list
       /\ count is_http_post new = 1%nat
       /\ count is_output_call new = 0%nat
       /\ count is_engine_call new = 0%nat.
Proof.
  intros Htoken Hpost Hstatus. split.
  - run. rewrite Htoken. simpl. rewrite Hpost. simpl.
    apply Z.eqb_neq in Hstatus. by rewrite Hstatus.
  - eexists. rewrite answer_trace, Htoken. split; [reflexivity|]. done.
Qed.

Lemma answer_fails_on_503 :
  outcome (answer (stub_world two_column_frame overloaded)
             "how many tickets per service type?" (a_client, []))
  = inl (Raise Exception "Failed request (id: req-1) with status 503: overloaded")
  /\ exists new,
       (final (answer (stub_world two_column_frame overloaded)
                 "how many tickets per service type?" (a_client, []))).2
       = ([] ++ new)%list
       /\ count is_http_post new = 1%nat
       /\ count is_output_call new = 0%nat
       /\ count is_engine_call new = 0%nat.
Proof.
  apply (answer_fails_on_non_200
           (stub_world two_column_frame overloaded)
           "how many tickets per service type?" a_client [] "jwt" overloaded).
  - reflexivity.
  - reflexivity.
  - simpl. lia.
Defined.

(** C3, as the code has it.  [answer] does not look at the question: once
    the token is obtained it sends one request, whose body carries the
    question as given, be it empty or blank. *)
Theorem answer_sends_any_question w question self tr jwt_token :
  generate_token w tr = inr jwt_token ->
  exists url payload headers,
    (final (answer w question (self, tr))).2
    = (tr ++ [EGenerateToken; EHttpPost url payload headers])%list
    /\ payload_question payload = Some question.
Proof.
  intros Htoken. do 3 eexists. rewrite answer_trace, Htoken.
  split; [reflexivity|]. apply payload_question_request.
Qed.

Lemma answer_sends_blank_question :
  exists url payload headers,
    (final (answer (stub_world two_column_frame (envelope [])) "   "
              (a_client, []))).2
    = ([] ++ [EGenerateToken; EHttpPost url payload headers])%list
    /\ payload_question payload = Some "   ".
Proof.
  apply (answer_sends_any_question
           (stub_world two_column_frame (envelope [])) "   " a_client [] "jwt").
  reflexivity.
Defined.

(** C3 fails on the code: for the empty question and for a blank one,
    [answer] makes an HTTP request and returns the response. *)
Lemma blank_question_reaches_network :
  (count is_http_post
     (final (answer (stub_world two_column_frame (envelope [])) ""
               (a_client, []))).2 = 1%nat
   /\ exists v, outcome (answer (stub_world two_column_frame (envelope [])) ""
                           (a_client, [])) = inr v)
  /\ (count is_http_post
        (final (answer (stub_world two_column_frame (envelope [])) "   "
                  (a_client, []))).2 = 1%nat
      /\ exists v, outcome (answer (stub_world two_column_frame (envelope []))
                              "   " (a_client, [])) = inr v).
Proof.
  split; (split; [vm_compute; reflexivity|]); eexists; vm_compute; reflexivity.
Qed.

(** ** The dispatcher *)

Ltac run_dispatch :=
  unfold show_response, show_response_failed, show_item, show_sql;
  run.

Lemma show_items_app w ch pre post tr :
  show_items w ch (pre ++ post) tr
  = match show_items w ch pre tr with
    | (inr _, tr1) => show_items w ch post tr1
    | (inl e, tr1) => (inl e, tr1)
    end.
Proof.
  revert tr. induction pre as [|item pre IH]; intros tr; [reflexivity|].
  simpl. unfold mbind, M_bind.
  destruct (show_item w ch item tr) as [[e|[]] tr']; [reflexivity|].
  apply IH.
Qed.

Lemma show_response_items w ch items tr :
  show_response w ch (JArr items) tr
  = match show_items w ch items tr with
    | (inr v, tr') => (inr v, tr')
    | (inl e, tr') =>
        (inl (Raise Exception ("Error sending response " +:+ exn_str e)),
         (tr' ++ [ELogError ("Error sending response " +:+ exn_str e)])%list)
    end.
Proof.
  run_dispatch. by destruct (show_items w ch items tr) as [[e|v] tr'].
Qed.

Lemma posted_questions_app tr1 tr2 :
  posted_questions (tr1 ++ tr2)
  = (posted_questions tr1 ++ posted_questions tr2)%list.
Proof. apply flat_map_app. Qed.

(** The dispatcher only appends to the trace, and posts no request. *)
Lemma show_sql_extends w ch item tr :
  exists new,
    final (show_sql w ch item tr) = (tr ++ new)%list
    /\ posted_questions new = [].
Proof.
  unfold show_sql. run.
  destruct (getitem item "statement") as [e|q]; simpl.
  { exists []. by rewrite app_nil_r. }
  destruct (say w tr _ _) as [e|[]]; simpl; [by eexists|].
  destruct (session_sql w _ q) as [e|df]; simpl.
  { eexists. by rewrite <- app_assoc. }
  destruct (say w _ (create_df_block df) _) as [e|[]]; simpl.
  { eexists. by rewrite <- !app_assoc. }
  destruct (1 <? length (columns df))%nat; simpl.
  - destruct (chart_png w _ df _ _) as [e|png]; simpl.
    + eexists. by rewrite <- !app_assoc.
    + eexists. by rewrite <- !app_assoc.
  - eexists. by rewrite <- !app_assoc.
Qed.

Lemma show_item_extends w ch item tr :
  exists new,
    final (show_item w ch item tr) = (tr ++ new)%list
    /\ posted_questions new = [].
Proof.
  unfold show_item, mbind, M_bind, lift.
  destruct (getitem item "type") as [e|type]; simpl.
  { exists []. by rewrite app_nil_r. }
  destruct (equals_str type "sql").
  - apply show_sql_extends.
  - exists []. by rewrite app_nil_r.
Qed.

Lemma show_items_extends w ch items : forall tr,
  exists new,
    final (show_items w ch items tr) = (tr ++ new)%list
    /\ posted_questions new = [].
Proof.
  induction items as [|item items IH]; intros tr; simpl.
  { exists []. by rewrite app_nil_r. }
  unfold mbind, M_bind.
  destruct (show_item_extends w ch item tr) as (new & Hnew & Hposts).
  destruct (show_item w ch item tr) as [[e|[]] tr']; simpl in *; subst tr'.
  - by exists new.
  - destruct (IH (tr ++ new)%list) as (new' & Hnew' & Hposts').
    exists (new ++ new')%list. rewrite Hnew', app_assoc.
    by rewrite posted_questions_app, Hposts, Hposts'.
Qed.

Lemma show_response_extends w ch content tr :
  exists new,
    final (show_response w ch content tr) = (tr ++ new)%list
    /\ posted_questions new = [].
Proof.
  run_dispatch.
  destruct (py_iter content) as [e|items]; simpl.
  { by eexists. }
  destruct (show_items_extends w ch items tr) as (new & Hnew & Hposts).
  unfold final in Hnew.
  destruct (show_items w ch items tr) as [[e|v] tr']; simpl in *; subst tr'.
  - eexists. rewrite <- app_assoc. split; [reflexivity|].
    by rewrite posted_questions_app, Hposts.
  - by exists new.
Qed.

(** A block whose discriminator is [text] falls to the wildcard. *)
Lemma show_item_text w ch item tr :
  is_text_block item = true -> show_item w ch item tr = (inr tt, tr).
Proof.
  unfold is_text_block, show_item, mbind, M_bind, lift.
  destruct (getitem item "type") as [e|type]; [done|]. simpl.
  destruct type; try done. simpl.
  intros ->%String.eqb_eq. reflexivity.
Qed.

Lemma show_items_without_text w ch items : forall tr,
  show_items w ch (List.filter (fun item => negb (is_text_block item)) items) tr
  = show_items w ch items tr.
Proof.
  induction items as [|item items IH]; intros tr; [reflexivity|].
  simpl. destruct (is_text_block item) eqn:E; simpl.
  - unfold mbind, M_bind. rewrite (show_item_text _ _ _ _ E). apply IH.
  - unfold mbind, M_bind.
    destruct (show_item w ch item tr) as [[e|[]] tr']; [reflexivity|apply IH].
Qed.

(** C1, as the code has it.  The dispatcher has a case for [sql] and a
    wildcard that does nothing: a block whose discriminator is [text]
    causes no call at all, and an envelope is dispatched exactly as the
    same envelope without its text blocks. *)
Theorem text_blocks_are_skipped w ch items tr :
  show_response w ch (JArr items) tr
  = show_response w ch
      (JArr (List.filter (fun item => negb (is_text_block item)) items)) tr
  /\ forall t, show_item w ch (text_block t) tr = (inr tt, tr).
Proof.
  split.
  - by rewrite !show_response_items, show_items_without_text.
  - intros t. by apply show_item_text.
Qed.

(** C1 fails on the code: dispatching a text block and a sql block makes
    the five calls of the sql block, and none of them shows the text. *)
Lemma text_block_is_not_displayed :
  show_response (stub_world two_column_frame (envelope [])) "C0123"
    (JArr [text_block "Tickets per service type:";
           sql_block "SELECT service_type, COUNT(*) FROM tickets GROUP BY 1"]) []
  = (inr tt,
     [ESay (create_sql_block
              (JStr "SELECT service_type, COUNT(*) FROM tickets GROUP BY 1"))
           "Generated SQL";
      ESql (JStr "SELECT service_type, COUNT(*) FROM tickets GROUP BY 1");
      ESay (create_df_block two_column_frame) "Query Result";
      EChartSave two_column_frame "TICKET_COUNT" "SERVICE_TYPE";
      EFilesUpload "C0123" png_stub "chart.png" "Generating chart..."])
  /\ existsb (shows_text "Tickets per service type:")
       (final (show_response (stub_world two_column_frame (envelope [])) "C0123"
                 (JArr [text_block "Tickets per service type:";
                        sql_block "SELECT service_type, COUNT(*) FROM tickets GROUP BY 1"])
                 []))
     = false.
Proof. split; vm_compute; reflexivity. Qed.

Lemma show_item_sql w ch item tr :
  getitem item "type" = inr (JStr "sql") ->
  show_item w ch item tr = show_sql w ch item tr.
Proof.
  intros Htype. unfold show_item, mbind, M_bind, lift. by rewrite Htype.
Qed.

(** A sql block whose statement was shown, run and rendered, and whose
    result has more than one column: what is left is the chart. *)
Lemma show_sql_chart w ch item q df tr :
  getitem item "statement" = inr q ->
  say w tr (create_sql_block q) "Generated SQL" = inr tt ->
  session_sql w (tr ++ [shown q]) q = inr df ->
  say w (tr ++ [shown q; executed q])
    (create_df_block df) "Query Result" = inr tt ->
  (1 < length (columns df))%nat ->
  show_sql w ch item tr
  = match chart_png w (tr ++ [shown q; executed q;
                              rendered df])
            df "TICKET_COUNT" "SERVICE_TYPE" with
    | inl e =>
        (inl e,
         (tr ++ [shown q; executed q;
                 rendered df;
                 charted df])%list)
    | inr png =>
        (files_upload_v2 w
           (tr ++ [shown q; executed q;
                   rendered df;
                   charted df])
           ch png "chart.png" "Generating chart...",
         (tr ++ [shown q; executed q;
                 rendered df;
                 charted df;
                 uploaded ch png])%list)
    end.
Proof.
  intros Hq Hsay Hsql Hsay' Hcols.
  unfold show_sql. run. rewrite Hq. simpl. rewrite Hsay. simpl.
  rewrite Hsql. simpl. rewrite <- !app_assoc. simpl. rewrite Hsay'. simpl.
  apply Nat.ltb_lt in Hcols. rewrite Hcols. simpl.
  rewrite <- !app_assoc. simpl.
  destruct (chart_png w _ df _ _) as [e|png]; simpl; [reflexivity|].
  by rewrite <- !app_assoc.
Qed.

(** C5, as the code has it.  The chart is built and uploaded inside the one
    [try] of the dispatcher: when either step raises while a sql block is
    processed, the block ends there, the failure is logged, the blocks that
    follow are not processed, and the caller gets an exception. *)
Theorem chart_failure_aborts_dispatch w ch pre item post q df tr tr1 e :
  show_items w ch pre tr = (inr tt, tr1) ->
  getitem item "type" = inr (JStr "sql") ->
  getitem item "statement" = inr q ->
  say w tr1 (create_sql_block q) "Generated SQL" = inr tt ->
  session_sql w (tr1 ++ [shown q]) q = inr df ->
  say w (tr1 ++ [shown q; executed q])
    (create_df_block df) "Query Result" = inr tt ->
  (1 < length (columns df))%nat ->
  (chart_png w (tr1 ++ [shown q; executed q;
                        rendered df])
     df "TICKET_COUNT" "SERVICE_TYPE" = inl e
   \/ exists png,
        chart_png w (tr1 ++ [shown q; executed q;
                             rendered df])
          df "TICKET_COUNT" "SERVICE_TYPE" = inr png
        /\ files_upload_v2 w
             (tr1 ++ [shown q; executed q;
                      rendered df;
                      charted df])
             ch png "chart.png" "Generating chart..." = inl e) ->
  outcome (show_item w ch item tr1) = inl e
  /\ show_response w ch (JArr (pre ++ item :: post)) tr
     = (inl (Raise Exception ("Error sending response " +:+ exn_str e)),
        (final (show_item w ch item tr1)
           ++ [ELogError ("Error sending response " +:+ exn_str e)])%list).
Proof.
  intros Hpre Htype Hq Hsay Hsql Hsay' Hcols Hfail.
  assert (outcome (show_item w ch item tr1) = inl e) as Hout.
  { rewrite (show_item_sql _ _ _ _ Htype).
    rewrite (show_sql_chart _ _ _ _ _ _ Hq Hsay Hsql Hsay' Hcols).
    destruct Hfail as [->|(png & -> & Hup)]; [reflexivity|exact Hup]. }
  split; [exact Hout|].
  rewrite show_response_items, show_items_app, Hpre. simpl.
  unfold mbind, M_bind. unfold outcome, final in *.
  destruct (show_item w ch item tr1) as [[e'|[]] tr2]; simpl in *; [|done].
  by injection Hout as ->.
Qed.

(** The chart columns are absent from the result: the first of two sql
    blocks fails in the chart, and the second is never reached. *)
Lemma chart_failure_aborts_two_blocks :
  outcome (show_item (stub_world other_frame (envelope [])) "C0123"
             (sql_block "SELECT region, total FROM t") [])
  = inl (Raise ValueError "Unable to determine data type for the field")
  /\ show_response (stub_world other_frame (envelope [])) "C0123"
       (JArr ([] ++ sql_block "SELECT region, total FROM t"
                 :: [sql_block "SELECT 2"])) []
     = (inl (Raise Exception
               ("Error sending response "
                  +:+ exn_str (Raise ValueError
                                 "Unable to determine data type for the field"))),
        (final (show_item (stub_world other_frame (envelope [])) "C0123"
                  (sql_block "SELECT region, total FROM t") [])
           ++ [ELogError
                 ("Error sending response "
                    +:+ exn_str (Raise ValueError
                                   "Unable to determine data type for the field"))])%list).
Proof.
  apply (chart_failure_aborts_dispatch
           (stub_world other_frame (envelope [])) "C0123" []
           (sql_block "SELECT region, total FROM t") [sql_block "SELECT 2"]
           (JStr "SELECT region, total FROM t") other_frame [] []
           (Raise ValueError "Unable to determine data type for the field")).
  - reflexivity.
  - vm_compute. reflexivity.
  - vm_compute. reflexivity.
  - reflexivity.
  - reflexivity.
  - reflexivity.
  - simpl. lia.
  - left. reflexivity.
Defined.

(** C5 fails on the code: the chart of the first block cannot be built, and
    dispatch stops; the second block's statement is neither shown nor run. *)
Lemma dispatch_stops_at_chart_failure :
  show_response (stub_world other_frame (envelope [])) "C0123"
    (JArr [sql_block "SELECT region, total FROM t"; sql_block "SELECT 2"]) []
  = (inl (Raise Exception
            "Error sending response Unable to determine data type for the field"),
     [ESay (create_sql_block (JStr "SELECT region, total FROM t")) "Generated SQL";
      ESql (JStr "SELECT region, total FROM t");
      ESay (create_df_block other_frame) "Query Result";
      EChartSave other_frame "TICKET_COUNT" "SERVICE_TYPE";
      ELogError "Error sending response Unable to determine data type for the field"]).
Proof. vm_compute. reflexivity. Qed.







(** ** Keys and fingerprints *)

Lemma byte_of_hex_of_byte b : byte_of_hex (hex_of_byte b) = Some b.
Proof. destruct b; reflexivity. Qed.

Lemma hex_of_byte_inj b1 b2 : hex_of_byte b1 = hex_of_byte b2 -> b1 = b2.
Proof.
  intros H. apply (f_equal byte_of_hex) in H.
  rewrite !byte_of_hex_of_byte in H. by injection H.
Qed.

Lemma hexdigest_inj l1 : forall l2, hexdigest l1 = hexdigest l2 -> l1 = l2.
Proof.
  induction l1 as [|b1 l1 IH]; intros [|b2 l2] H; simpl in H; try done.
  injection H as H1 H2 H3.
  f_equal; [|by apply IH].
  apply hex_of_byte_inj. by apply injective_projections.
Qed.

Lemma hexdigest_length l : String.length (hexdigest l) = (2 * length l)%nat.
Proof. induction l as [|b l IH]; simpl; [reflexivity|]. rewrite IH. lia. Qed.

Lemma hex_of_byte_lower b :
  is_lower_hex (hex_of_byte b).1 && is_lower_hex (hex_of_byte b).2 = true.
Proof. destruct b; reflexivity. Qed.

Lemma hexdigest_lower l : forallb is_lower_hex (str_chars (hexdigest l)) = true.
Proof.
  induction l as [|b l IH]; [reflexivity|].
  cbn [hexdigest str_chars list_ascii_of_string forallb].
  fold (str_chars (hexdigest l)). rewrite IH, andb_true_r.
  apply hex_of_byte_lower.
Qed.

(** C10.  Given a [str], [load_rsa_public_key] raises the [TypeError] of
    [bytes(key)] and returns no key; a load that returns a key was given a
    [Path] or [bytes]. *)
Theorem load_rsa_public_key_rejects_str read_binary load_pem :
  (forall pem,
     load_rsa_public_key read_binary load_pem (KeyStr pem)
     = inl (Raise TypeError "string argument without an encoding"))
  /\ (forall key k,
        load_rsa_public_key read_binary load_pem key = inr k ->
        (exists path, key = KeyPath path) \/ (exists data, key = KeyBytes data)).
Proof.
  split; [reflexivity|].
  intros [path|pem|data] k H; [by left; eexists|done|by right; eexists].
Qed.

Lemma load_rsa_public_key_from_path :
  load_rsa_public_key stub_read_binary stub_load_pem (KeyPath "rsa_key.pub")
  = inr stub_key
  /\ load_rsa_public_key stub_read_binary stub_load_pem (KeyBytes stub_pem)
     = inr stub_key
  /\ ((exists path, KeyPath "rsa_key.pub" = KeyPath path)
      \/ (exists data, KeyPath "rsa_key.pub" = KeyBytes data)).
Proof.
  split; [reflexivity|]. split; [reflexivity|].
  apply (proj2 (load_rsa_public_key_rejects_str stub_read_binary stub_load_pem)
           (KeyPath "rsa_key.pub") stub_key).
  reflexivity.
Defined.

(** ** The question on the wire *)

(** Whatever the collaborators answer, every request of
    [ask_cortex_analyst] carries the question as it was given. *)
Lemma ask_posts_question_as_given w ch question :
  Forall (fun sent => sent = Some question)
    (posted_questions (final (ask_cortex_analyst w ch question []))).
Proof.
  unfold ask_cortex_analyst, Cortlayst_init. run.
  destruct (chat_postMessage w [] ch wait_message) as [e|[]]; simpl; [constructor|].
  destruct (getenv w "PRIVATE_KEY_FILE_PATH") as [path|]; simpl; [|constructor].
  destruct (new_jwt_generator w _ _ _ _) as [e|[]]; simpl; [constructor|].
  destruct (generate_token w _) as [e|jwt_token]; simpl; [constructor|].
  destruct (requests_post w _ _ _ _) as [e|resp]; simpl.
  { rewrite payload_question_request. by repeat constructor. }
  destruct (status_code resp =? 200)%Z; simpl.
  2:{ rewrite payload_question_request. by repeat constructor. }
  destruct (json_body resp) as [e|body]; simpl.
  { rewrite payload_question_request. by repeat constructor. }
  destruct (dict_with body _ _) as [e|ans]; simpl.
  { rewrite payload_question_request. by repeat constructor. }
  destruct (getitem ans "message") as [e|message]; simpl.
  { rewrite payload_question_request. by repeat constructor. }
  destruct (getitem message "content") as [e|content]; simpl.
  { rewrite payload_question_request. by repeat constructor. }
  match goal with
  | |- context [show_response w ch content ?tr] =>
      destruct (show_response_extends w ch content tr) as (new & Hnew & Hposts);
      unfold final in Hnew;
      destruct (show_response w ch content tr) as [[e|v] tr']
  end; simpl in *; subst tr';
    match goal with
    | |- context [posted_questions (?a :: ?b :: ?c :: ?d :: ?n)] =>
        change (posted_questions (a :: b :: c :: d :: n))
          with (posted_questions [a; b; c; d] ++ posted_questions n)%list
    end;
    rewrite Hposts; simpl;
    rewrite payload_question_request; by repeat constructor.
Qed.

(** C2, at the input where the code departs from it.  The sanitised text
    of the two-line question is ["line one line two"], but the request
    carries the question as it came, line break included; and so it is for
    every question and every behaviour of the collaborators. *)
Theorem ask_posts_the_raw_question :
  sanitize_question two_line_question = "line one line two"
  /\ posted_questions
       (final (ask_cortex_analyst (stub_world two_column_frame (envelope []))
                 "C0123" two_line_question []))
     = [Some two_line_question]
  /\ (forall w ch question,
        Forall (fun sent => sent = Some question)
          (posted_questions (final (ask_cortex_analyst w ch question [])))).
Proof.
  split; [vm_compute; reflexivity|]. split; [vm_compute; reflexivity|].
  exact ask_posts_question_as_given.
Qed.

(** ** Where the host is the only match *)

Lemma scan_search_scheme p : forall s,
  slash_free p = true -> scan_search Plain (p ++ s) = scan_search Plain s.
Proof.
  induction p as [|c p IH]; intros s H; [reflexivity|].
  simpl in *. apply andb_true_iff in H as [Hc Hp].
  apply negb_true_iff in Hc. rewrite Hc. simpl. by apply IH.
Qed.

Lemma scan_sub_scheme p : forall s,
  slash_free p = true -> scan_sub Plain (p ++ s) = (p ++ scan_sub Plain s)%list.
Proof.
  induction p as [|c p IH]; intros s H; [reflexivity|].
  simpl in *. apply andb_true_iff in H as [Hc Hp].
  apply negb_true_iff in Hc. rewrite Hc. simpl. by rewrite IH.
Qed.

Lemma span_host_run host : forall rest,
  slash_free host = true -> starts_path rest = true ->
  span_host (host ++ rest) = (host, rest).
Proof.
  induction host as [|c host IH]; intros rest Hh Hr; simpl in *.
  - destruct rest as [|c r]; [reflexivity|]. simpl in *. by rewrite Hr.
  - apply andb_true_iff in Hh as [Hc Hh]. apply negb_true_iff in Hc.
    rewrite Hc. by rewrite (IH rest Hh Hr).
Qed.

Lemma scan_sub_no_match s : forall st,
  in_host st = false ->
  (st = Slash1 -> match s with c :: _ => is_slash c = false | [] => True end) ->
  double_slash_free s = true ->
  scan_sub st s = s.
Proof.
  induction s as [|c r IH]; intros st Hst H1 Hfree; [reflexivity|].
  simpl in *. apply andb_true_iff in Hfree as [Hpair Hfree].
  destruct (is_slash c) eqn:Ec.
  - f_equal. destruct st; try done; [|by specialize (H1 eq_refl)].
    apply IH; [reflexivity| |exact Hfree].
    intros _. destruct r as [|c2 r]; [done|]. simpl in Hpair.
    by apply negb_true_iff in Hpair.
  - rewrite Hst. f_equal. by apply IH.
Qed.

Lemma replace_host_no_underscore host :
  existsb is_underscore host = false -> replace_host host = host.
Proof.
  induction host as [|c host IH]; intros H; [reflexivity|].
  simpl in *. apply orb_false_iff in H as [Hc Hh].
  unfold hyphenate. rewrite Hc. f_equal. by apply IH.
Qed.

(** X1.  For a URL made of a scheme without slashes, [//], a host, and a
    path and query without [//], only the host is rewritten: its
    underscores become hyphens and nothing else changes. *)
Theorem sanitize_host_name_one_host scheme host rest :
  slash_free scheme = true ->
  host <> [] -> slash_free host = true ->
  starts_path rest = true -> double_slash_free rest = true ->
  sanitize_host_name (url_of_parts scheme host rest)
  = url_of_parts scheme (replace_host host) rest.
Proof.
  intros Hscheme Hne Hhost Hrest Hfree. unfold url_of_parts.
  rewrite sanitize_host_name_scan, str_chars_str.
  rewrite (scan_search_scheme _ _ Hscheme), (scan_sub_scheme _ _ Hscheme).
  destruct host as [|h host]; [done|].
  simpl in Hhost. apply andb_true_iff in Hhost as [Hh Hhost].
  apply negb_true_iff in Hh.
  cbn [scan_search scan_sub app]. change (is_slash "/"%char) with true.
  cbn [after_slash in_host]. rewrite Hh.
  rewrite scan_sub_host.
  change (span_host (h :: host ++ rest)).1
    with (span_host ((h :: host) ++ rest)).1.
  rewrite !span_host_run by (try done; simpl; by rewrite Hh).
  cbn [fst snd].
  rewrite (scan_sub_no_match rest Plain); try done.
  destruct (existsb is_underscore (h :: host)) eqn:Eu; [reflexivity|].
  by rewrite (replace_host_no_underscore _ Eu).
Qed.

Lemma sanitize_host_name_one_host_api :
  sanitize_host_name "https://my_host.example.com/api_v2?q=a_b"
  = "https://my-host.example.com/api_v2?q=a_b".
Proof.
  apply (sanitize_host_name_one_host
           (str_chars "https:") (str_chars "my_host.example.com")
           (str_chars "/api_v2?q=a_b")).
  - reflexivity.
  - discriminate.
  - reflexivity.
  - reflexivity.
  - reflexivity.
Defined.

(** ** A failed request, seen from [ask_cortex_analyst] *)

(** When the request comes back with a status other than 200,
    [ask_cortex_analyst] has posted its wait message and made the request,
    and stops there: the exception of [answer] is raised again, and neither
    the session nor the dispatcher is reached. *)
Lemma ask_stops_on_non_200 w ch question path jwt_token resp :
  chat_postMessage w [] ch wait_message = inr tt ->
  getenv w "PRIVATE_KEY_FILE_PATH" = Some path ->
  new_jwt_generator w [EChatPostMessage ch wait_message]
    (session_conf w "account") (session_conf w "user") path = inr tt ->
  generate_token w
    [EChatPostMessage ch wait_message;
     ENewJWTGenerator (session_conf w "account") (session_conf w "user") path]
  = inr jwt_token ->
  (forall tr url payload headers,
     requests_post w tr url payload headers = inr resp) ->
  status_code resp <> 200%Z ->
  exists url payload,
    ask_cortex_analyst w ch question []
    = (inl (failed_request resp),
       [EChatPostMessage ch wait_message;
        ENewJWTGenerator (session_conf w "account") (session_conf w "user") path;
        EGenerateToken;
        EHttpPost url payload (request_headers jwt_token)]).
Proof.
  intros Hchat Henv Hjwt Htoken Hpost Hstatus.
  do 2 eexists. unfold ask_cortex_analyst, Cortlayst_init. run.
  rewrite Hchat. simpl. rewrite Henv. simpl. rewrite Hjwt. simpl.
  rewrite Htoken. simpl. rewrite Hpost. simpl.
  apply Z.eqb_neq in Hstatus. rewrite Hstatus. simpl. reflexivity.
Qed.

Example ask_stops_on_503 :
  ask_cortex_analyst (stub_world two_column_frame overloaded) "C0123"
    "how many tickets per service type?" []
  = (inl (Raise Exception "Failed request (id: req-1) with status 503: overloaded"),
     [EChatPostMessage "C0123" wait_message;
      ENewJWTGenerator (Some "acme") (Some "bot") "rsa_key.p8";
      EGenerateToken;
      EHttpPost "https://my-host.example.com/api/v2/cortex/analyst/message"
        (request_payload a_client "how many tickets per service type?")
        (request_headers "jwt")]).
Proof. vm_compute. reflexivity. Qed.

(** * Further properties *)

(** ** [sanitize_host_name] changes underscores only *)

Lemma hyphenate_hyphenated c : hyphenated c (hyphenate c).
Proof.
  unfold hyphenated, hyphenate, is_underscore, is_char.
  destruct (Ascii.eqb_spec c "_") as [->|]; [right|left]; done.
Qed.

Lemma scan_sub_hyphenated s : forall st, Forall2 hyphenated s (scan_sub st s).
Proof.
  induction s as [|c r IH]; intros st; simpl; [constructor|].
  destruct (is_slash c); [constructor; [by left|apply IH]|].
  destruct (in_host st); constructor; try apply IH;
    [apply hyphenate_hyphenated|by left].
Qed.

Lemma Forall2_hyphenated_refl s : Forall2 hyphenated s s.
Proof. induction s; constructor; [by left|done]. Qed.

Lemma hyphenated_no_underscore s s' :
  Forall2 hyphenated s s' -> existsb is_underscore s = false -> s' = s.
Proof.
  induction 1 as [|c c' s s' Hc _ IH]; intros Hu; [reflexivity|].
  simpl in Hu. apply orb_false_iff in Hu as [Hcu Hs].
  f_equal; [|by apply IH].
  destruct Hc as [->|[-> _]]; [reflexivity|]. done.
Qed.

Lemma string_length_chars s : String.length s = length (str_chars s).
Proof. induction s as [|c s IH]; simpl; [reflexivity|]. by rewrite IH. Qed.

(** X2.  Whatever the URL, [sanitize_host_name] returns a text of the same
    length that differs from the URL only where the URL has an underscore
    and the result a hyphen: no character is added, dropped or moved, and
    a URL without underscores comes back unchanged. *)
Theorem sanitize_host_name_only_hyphenates url :
  Forall2 hyphenated (str_chars url) (str_chars (sanitize_host_name url))
  /\ String.length (sanitize_host_name url) = String.length url
  /\ (existsb is_underscore (str_chars url) = false ->
      sanitize_host_name url = url).
Proof.
  assert (Forall2 hyphenated (str_chars url) (str_chars (sanitize_host_name url)))
    as H.
  { rewrite sanitize_host_name_scan.
    destruct (scan_search Plain (str_chars url)) as [host|];
      [|apply Forall2_hyphenated_refl].
    destruct (existsb is_underscore host); [|apply Forall2_hyphenated_refl].
    rewrite str_chars_str. apply scan_sub_hyphenated. }
  split; [exact H|]. split.
  - rewrite !string_length_chars. symmetry. by eapply Forall2_length.
  - intros Hu. rewrite <- (chars_str_chars url) at 2.
    rewrite <- (chars_str_chars (sanitize_host_name url)).
    f_equal. by apply hyphenated_no_underscore.
Qed.

Lemma sanitize_host_name_keeps_plain_url :
  existsb is_underscore (str_chars "https://host.example.com//a-b/c") = false
  /\ sanitize_host_name "https://host.example.com//a-b/c"
     = "https://host.example.com//a-b/c".
Proof.
  split; [reflexivity|].
  apply (proj2 (proj2 (sanitize_host_name_only_hyphenates
                         "https://host.example.com//a-b/c"))).
  reflexivity.
Defined.

(** ** [sanitize_question] *)

Lemma str_chars_append a b :
  str_chars (a +:+ b) = (str_chars a ++ str_chars b)%list.
Proof. induction a as [|c a IH]; simpl; [reflexivity|]. by rewrite IH. Qed.

Lemma chars_str_app l1 l2 :
  chars_str (l1 ++ l2) = chars_str l1 +:+ chars_str l2.
Proof. induction l1 as [|c l1 IH]; simpl; [reflexivity|]. by rewrite IH. Qed.

Lemma forallb_rev {A} (p : A -> bool) l : forallb p (rev l) = forallb p l.
Proof.
  induction l as [|x l IH]; [reflexivity|].
  simpl. rewrite forallb_app, IH. simpl. rewrite andb_true_r. apply andb_comm.
Qed.

(** Every line that [splitlines] returns is free of line boundaries. *)
Lemma splitlines_from_single_bounded n : forall s cur,
  (length s <= n)%nat ->
  forallb (fun c => negb (is_linebreak c)) cur = true ->
  Forall (fun line => forallb (fun c => negb (is_linebreak c)) line = true)
    (splitlines_from cur s).
Proof.
  induction n as [|n IH]; intros s cur Hlen Hcur.
  { destruct s; [|simpl in Hlen; lia]. simpl.
    destruct cur; [constructor|]. repeat constructor. by rewrite forallb_rev. }
  destruct s as [|c r]; simpl in *.
  { destruct cur; [constructor|]. repeat constructor. by rewrite forallb_rev. }
  destruct (is_linebreak c) eqn:Ec.
  - destruct r as [|c' r'].
    + repeat constructor. by rewrite forallb_rev.
    + destruct (is_cr c && is_newline c');
        (constructor; [by rewrite forallb_rev|]); apply IH; simpl in *;
        done || lia.
  - apply IH; [lia|]. simpl. by rewrite Ec.
Qed.

Lemma splitlines_from_single s cur :
  forallb (fun c => negb (is_linebreak c)) cur = true ->
  Forall (fun line => forallb (fun c => negb (is_linebreak c)) line = true)
    (splitlines_from cur s).
Proof. by apply (splitlines_from_single_bounded (length s)). Qed.

Lemma join_single sep : forall parts,
  single_line sep = true ->
  Forall (fun p => single_line p = true) parts ->
  single_line (join sep parts) = true.
Proof.
  intros parts Hsep Hparts. unfold single_line in *.
  induction Hparts as [|p parts Hp Hparts IH]; [reflexivity|].
  destruct parts as [|p' parts]; [exact Hp|].
  cbn [join]. rewrite !str_chars_append, !forallb_app, Hp, Hsep. exact IH.
Qed.

Lemma splitlines_from_plain s : forall cur,
  forallb (fun c => negb (is_linebreak c)) s = true ->
  splitlines_from cur s
  = match (rev cur ++ s)%list with [] => [] | line => [line] end.
Proof.
  induction s as [|c r IH]; intros cur Hs; simpl in *.
  - rewrite app_nil_r. destruct cur as [|x cur]; [reflexivity|].
    simpl. by destruct (rev cur ++ [x])%list eqn:E; [destruct (rev cur)|].
  - apply andb_true_iff in Hs as [Hc Hr]. apply negb_true_iff in Hc.
    rewrite Hc, (IH _ Hr). simpl. by rewrite <- app_assoc.
Qed.

(** X3.  The sanitised question never holds a line boundary, and a
    question without line boundaries is its own sanitised form. *)
Theorem sanitize_question_single_line question :
  single_line (sanitize_question question) = true
  /\ (single_line question = true -> sanitize_question question = question).
Proof.
  split.
  - apply join_single; [reflexivity|].
    unfold splitlines. apply Forall_fmap.
    eapply Forall_impl; [apply (splitlines_from_single _ []); reflexivity|].
    intros line H. unfold single_line. simpl. by rewrite str_chars_str.
  - intros H. unfold sanitize_question, splitlines.
    rewrite (splitlines_from_plain _ [] H). simpl.
    destruct (str_chars question) as [|c l] eqn:E.
    + by destruct question.
    + cbn [map join]. rewrite <- E. apply chars_str_chars.
Qed.

Lemma sanitize_question_keeps_one_line :
  single_line "how many tickets per service type?" = true
  /\ sanitize_question "how many tickets per service type?"
     = "how many tickets per service type?".
Proof.
  split; [reflexivity|].
  apply (proj2 (sanitize_question_single_line
                  "how many tickets per service type?")).
  reflexivity.
Defined.

Lemma splitlines_from_prefix a : forall cur rest,
  forallb (fun c => negb (is_linebreak c)) a = true ->
  splitlines_from cur (a ++ rest) = splitlines_from (rev a ++ cur) rest.
Proof.
  induction a as [|c a IH]; intros cur rest Ha; simpl in *; [reflexivity|].
  apply andb_true_iff in Ha as [Hc Ha]. apply negb_true_iff in Hc.
  rewrite Hc, (IH _ _ Ha). by rewrite <- app_assoc.
Qed.

Lemma splitlines_from_started s : forall cur,
  cur <> [] -> splitlines_from cur s <> [].
Proof.
  induction s as [|c r IH]; intros cur Hcur; simpl.
  - by destruct cur.
  - destruct (is_linebreak c); [|by apply IH].
    destruct r as [|c' r']; [done|]. by destruct (is_cr c && is_newline c').
Qed.

Lemma splitlines_empty s : splitlines s = [] -> s = "".
Proof.
  unfold splitlines. destruct s as [|c s]; [reflexivity|]. simpl.
  destruct (is_linebreak c).
  - destruct (str_chars s) as [|c' r']; [done|].
    by destruct (is_cr c && is_newline c').
  - intros H. apply fmap_nil_inv in H.
    by apply splitlines_from_started in H.
Qed.

(** X4.  A first line followed by a line feed: the line feed becomes one
    space before the sanitised rest, and is dropped when nothing follows
    it. *)
Theorem sanitize_question_line_feed a b :
  single_line a = true ->
  sanitize_question (a +:+ LF +:+ b)
  = if String.eqb b "" then a else a +:+ " " +:+ sanitize_question b.
Proof.
  intros Ha. unfold sanitize_question.
  assert (splitlines (a +:+ LF +:+ b) = a :: splitlines b) as ->.
  { unfold splitlines. rewrite !str_chars_append.
    rewrite (splitlines_from_prefix _ _ _ Ha), app_nil_r.
    change (str_chars LF) with ["010"%char].
    assert (forall cur, splitlines_from cur ("010"%char :: str_chars b)
                        = rev cur :: splitlines_from [] (str_chars b)) as ->.
    { intros cur. simpl. by destruct (str_chars b). }
    simpl. by rewrite rev_involutive, chars_str_chars. }
  destruct (String.eqb_spec b "") as [->|Hb]; [reflexivity|].
  cbn [join]. destruct (splitlines b) eqn:E; [|reflexivity].
  by apply splitlines_empty in E.
Qed.

Lemma sanitize_question_two_lines :
  single_line "line one" = true
  /\ sanitize_question ("line one" +:+ LF +:+ "line two")
     = (if String.eqb "line two" "" then "line one"
        else "line one" +:+ " " +:+ sanitize_question "line two").
Proof.
  split; [reflexivity|].
  apply (sanitize_question_line_feed "line one" "line two").
  reflexivity.
Defined.

(** ** [Cortlayst.answer]: failures and the returned dictionary *)

(** X5.  [answer] raises [e] exactly when [e] is the exception the token
    generator raised, the one [requests.post] raised, the [Failed request]
    exception of a status other than 200, the one [resp.json()] raised on
    a 200 response, or the [TypeError] of unpacking a body that is no
    dictionary.  Whatever happens, [answer] makes at most one request. *)
Theorem answer_failures w question self tr :
  (forall e,
     outcome (answer w question (self, tr)) = inl e
     <-> answer_failure w question self tr e)
  /\ exists new,
       (final (answer w question (self, tr))).2 = (tr ++ new)%list
       /\ (count is_http_post new <= 1)%nat.
Proof.
  split.
  - intros e. split.
    + run.
      destruct (generate_token w tr) as [e0|jwt_token] eqn:Htoken; simpl.
      { intros [= ->]. by apply token_failed. }
      destruct (requests_post w _ _ _ _) as [e0|resp] eqn:Hpost; simpl.
      { intros [= ->]. by eapply request_failed. }
      destruct (status_code resp =? 200)%Z eqn:Es; simpl.
      * apply Z.eqb_eq in Es.
        destruct (json_body resp) as [e0|body] eqn:Hbody; simpl.
        { intros [= ->]. by eapply body_undecodable. }
        intros H.
        assert ((forall fields, body <> JObj fields)
                /\ e = Raise TypeError
                         ("'" +:+ py_type_name body +:+ "' object is not a mapping"))
          as [Hno ->].
        { destruct body; simpl in H; try done; by injection H as <-. }
        by eapply body_not_a_mapping.
      * apply Z.eqb_neq in Es. intros [= <-]. by eapply status_refused.
    + intros [e0 Htoken|jwt_token e0 Htoken Hpost|jwt_token resp Htoken Hpost Hs
              |jwt_token resp e0 Htoken Hpost Hs Hbody
              |jwt_token resp body Htoken Hpost Hs Hbody Hno];
        run; rewrite Htoken; simpl; try done;
        rewrite Hpost; simpl; try done.
      * apply Z.eqb_neq in Hs. by rewrite Hs.
      * rewrite Hs. simpl. by rewrite Hbody.
      * rewrite Hs. simpl. rewrite Hbody. simpl.
        destruct body; try done. by specialize (Hno fields).
  - eexists. rewrite answer_trace. split; [reflexivity|].
    unfold count. destruct (generate_token w tr); simpl; lia.
Qed.

(** X6.  On a 200 response whose body is a JSON object, [answer] returns
    that object with the key [request_id] set to the request id of the
    response header ([None] when the header is absent); a [request_id] the
    body had is overwritten and every other key is kept. *)
Theorem answer_returns_body_with_request_id
    w question self tr jwt_token resp fields :
  generate_token w tr = inr jwt_token ->
  requests_post w (tr ++ [EGenerateToken])
    (sanitize_host_name (analyst_endpoint self))
    (request_payload self question) (request_headers jwt_token) = inr resp ->
  status_code resp = 200%Z ->
  json_body resp = inr (JObj fields) ->
  exists fields',
    outcome (answer w question (self, tr)) = inr (JObj fields')
    /\ fields' !! "request_id"
       = Some (json_of_optional (request_id_header resp))
    /\ forall key, key <> "request_id" -> fields' !! key = fields !! key.
Proof.
  intros Htoken Hpost Hstatus Hbody.
  exists (<["request_id" := json_of_optional (request_id_header resp)]> fields).
  split; [|split].
  - run. rewrite Htoken. simpl. rewrite Hpost. simpl.
    rewrite Hstatus. simpl. by rewrite Hbody.
  - apply lookup_insert_eq.
  - intros key Hkey. by apply lookup_insert_ne.
Qed.

Lemma answer_returns_envelope_with_request_id :
  exists fields',
    outcome (answer (stub_world two_column_frame (envelope [sql_block "SELECT 1"]))
               "q" (a_client, []))
    = inr (JObj fields')
    /\ fields' !! "request_id" = Some (json_of_optional (Some "req-2"))
    /\ forall key,
         key <> "request_id" ->
         fields' !! key
         = (<["message" :=
                JObj (<["role" := JStr "analyst"]>
                     (<["content" := JArr [sql_block "SELECT 1"]]> ∅))]>
              (∅ : gmap string json)) !! key.
Proof.
  apply (answer_returns_body_with_request_id
           (stub_world two_column_frame (envelope [sql_block "SELECT 1"]))
           "q" a_client [] "jwt" (envelope [sql_block "SELECT 1"])).
  - reflexivity.
  - reflexivity.
  - reflexivity.
  - reflexivity.
Defined.

(** ** The dispatcher: composition, failures and ignored blocks *)

(** X7.  Dispatching two lists of blocks one after the other, stopping
    after the first if it failed, is dispatching their concatenation:
    blocks are processed strictly in order, and a failure ends the
    dispatch where it happens. *)
Theorem show_response_app w ch pre post tr :
  show_response w ch (JArr (pre ++ post)) tr
  = match show_response w ch (JArr pre) tr with
    | (inr _, tr1) => show_response w ch (JArr post) tr1
    | (inl e, tr1) => (inl e, tr1)
    end.
Proof.
  rewrite !show_response_items, show_items_app.
  destruct (show_items w ch pre tr) as [[e|[]] tr1]; [reflexivity|].
  by rewrite show_response_items.
Qed.

(** X8.  When the execution of a statement raises, the statement has been
    shown and nothing else of the block happens: no result is rendered and
    no chart attempted; the failure is logged, the dispatch ends with the
    exception [Error sending response ...], and the blocks after it are
    not processed. *)
Theorem query_failure_aborts_dispatch w ch pre item post q tr tr1 e :
  show_items w ch pre tr = (inr tt, tr1) ->
  getitem item "type" = inr (JStr "sql") ->
  getitem item "statement" = inr q ->
  say w tr1 (create_sql_block q) "Generated SQL" = inr tt ->
  session_sql w (tr1 ++ [shown q]) q = inl e ->
  show_response w ch (JArr (pre ++ item :: post)) tr
  = (inl (Raise Exception ("Error sending response " +:+ exn_str e)),
     (tr1 ++ [shown q; executed q;
              ELogError ("Error sending response " +:+ exn_str e)])%list).
Proof.
  intros Hpre Htype Hq Hsay Hsql.
  rewrite show_response_items, show_items_app, Hpre. simpl.
  unfold mbind, M_bind. rewrite (show_item_sql _ _ _ _ Htype).
  unfold show_sql. run. rewrite Hq. simpl. rewrite Hsay. simpl.
  rewrite Hsql. simpl. by rewrite <- !app_assoc.
Qed.

Lemma query_failure_aborts_two_blocks :
  show_response failing_session_world "C0123"
    (JArr ([text_block "Here is the query."]
             ++ sql_block "SELECT nope FROM tickets" :: [sql_block "SELECT 2"]))
    []
  = (inl (Raise Exception
            ("Error sending response "
               +:+ exn_str (Raise (ForeignError "SnowparkSQLException")
                              "invalid identifier"))),
     ([] ++ [shown (JStr "SELECT nope FROM tickets");
             executed (JStr "SELECT nope FROM tickets");
             ELogError
               ("Error sending response "
                  +:+ exn_str (Raise (ForeignError "SnowparkSQLException")
                                 "invalid identifier"))])%list).
Proof.
  apply (query_failure_aborts_dispatch failing_session_world "C0123"
           [text_block "Here is the query."]
           (sql_block "SELECT nope FROM tickets") [sql_block "SELECT 2"]
           (JStr "SELECT nope FROM tickets") [] []
           (Raise (ForeignError "SnowparkSQLException") "invalid identifier")).
  - vm_compute. reflexivity.
  - vm_compute. reflexivity.
  - vm_compute. reflexivity.
  - reflexivity.
  - reflexivity.
Defined.

(** X9.  A block that is a dictionary without the key [type] is not
    ignored: it ends the dispatch with the exception
    [Error sending response 'type'], without any call for it, and the
    blocks after it are not processed.  So does a [sql] block without the
    key [statement], with ['statement'] in the message and nothing
    shown. *)
Theorem block_without_key_aborts_dispatch w ch pre fields post tr tr1 :
  show_items w ch pre tr = (inr tt, tr1) ->
  (fields !! "type" = None ->
   show_response w ch (JArr (pre ++ JObj fields :: post)) tr
   = (inl (Raise Exception "Error sending response 'type'"),
      (tr1 ++ [ELogError "Error sending response 'type'"])%list))
  /\ (fields !! "type" = Some (JStr "sql") ->
      fields !! "statement" = None ->
      show_response w ch (JArr (pre ++ JObj fields :: post)) tr
      = (inl (Raise Exception "Error sending response 'statement'"),
         (tr1 ++ [ELogError "Error sending response 'statement'"])%list)).
Proof.
  intros Hpre. split.
  - intros Htype.
    rewrite show_response_items, show_items_app, Hpre. simpl.
    unfold mbind, M_bind, show_item, lift. simpl. rewrite Htype.
    unfold mbind, M_bind. simpl. reflexivity.
  - intros Htype Hq.
    rewrite show_response_items, show_items_app, Hpre. simpl.
    unfold mbind, M_bind, show_item, show_sql, lift. simpl. rewrite Htype.
    unfold mbind, M_bind. simpl. rewrite Hq. reflexivity.
Qed.

Lemma block_without_type_aborts :
  show_response (stub_world two_column_frame (envelope [])) "C0123"
    (JArr ([sql_block "SELECT 1"]
             ++ JObj (<["text" := JStr "no discriminator"]> ∅)
             :: [sql_block "SELECT 2"])) []
  = (inl (Raise Exception "Error sending response 'type'"),
     ([shown (JStr "SELECT 1"); executed (JStr "SELECT 1");
       rendered two_column_frame; charted two_column_frame;
       uploaded "C0123" png_stub]
        ++ [ELogError "Error sending response 'type'"])%list).
Proof.
  apply (proj1 (block_without_key_aborts_dispatch
                  (stub_world two_column_frame (envelope [])) "C0123"
                  [sql_block "SELECT 1"]
                  (<["text" := JStr "no discriminator"]> ∅)
                  [sql_block "SELECT 2"] []
                  [shown (JStr "SELECT 1"); executed (JStr "SELECT 1");
                   rendered two_column_frame; charted two_column_frame;
                   uploaded "C0123" png_stub]
                  ltac:(vm_compute; reflexivity))).
  vm_compute. reflexivity.
Defined.

Lemma show_item_other w ch item tr :
  is_other_block item = true -> show_item w ch item tr = (inr tt, tr).
Proof.
  unfold is_other_block, show_item, mbind, M_bind, lift.
  destruct (getitem item "type") as [e|type]; [done|]. simpl.
  by intros ->%negb_true_iff.
Qed.

Lemma show_items_other w ch items : forall tr,
  forallb is_other_block items = true ->
  show_items w ch items tr = (inr tt, tr).
Proof.
  induction items as [|item items IH]; intros tr H; [reflexivity|].
  cbn [forallb show_items] in *. apply andb_true_iff in H as [Hitem Hitems].
  unfold mbind, M_bind. rewrite (show_item_other _ _ _ _ Hitem). by apply IH.
Qed.

(** X10.  Blocks with a discriminator other than [sql], whatever it is
    (a string or not), are ignored: an envelope made of such blocks is
    dispatched without any call and without error. *)
Theorem other_blocks_are_ignored w ch items tr :
  forallb is_other_block items = true ->
  show_response w ch (JArr items) tr = (inr tt, tr).
Proof.
  intros H. by rewrite show_response_items, show_items_other.
Qed.

Lemma text_and_suggestions_are_ignored :
  show_response failing_session_world "C0123"
    (JArr [text_block "No data for this question.";
           suggestions_block;
           JObj (<["type" := JInt 7]> ∅)]) []
  = (inr tt, []).
Proof.
  apply (other_blocks_are_ignored failing_session_world "C0123"
           [text_block "No data for this question."; suggestions_block;
            JObj (<["type" := JInt 7]> ∅)] []).
  vm_compute. reflexivity.
Defined.

(** ** [ask_cortex_analyst]: configuration and failures *)

Lemma http_requests_app tr1 tr2 :
  http_requests (tr1 ++ tr2) = (http_requests tr1 ++ http_requests tr2)%list.
Proof. apply flat_map_app. Qed.

Lemma no_question_no_request tr : posted_questions tr = [] -> http_requests tr = [].
Proof.
  induction tr as [|e tr IH]; [reflexivity|].
  destruct e; simpl; try exact IH. discriminate.
Qed.

(** X11.  Without [PRIVATE_KEY_FILE_PATH] in the environment,
    [ask_cortex_analyst] fails after its wait message and nothing else: no
    token generator is built and no request is made; when the wait message
    went through, the exception is the one that asks for the variable. *)
Theorem ask_requires_key_path w ch question :
  getenv w "PRIVATE_KEY_FILE_PATH" = None ->
  exists e,
    ask_cortex_analyst w ch question []
    = (inl e, [EChatPostMessage ch wait_message])
    /\ (chat_postMessage w [] ch wait_message = inr tt ->
        e = Raise Exception (exn_str key_path_required)).
Proof.
  intros Henv. unfold ask_cortex_analyst. run.
  destruct (chat_postMessage w [] ch wait_message) as [e|[]]; simpl.
  - by eexists.
  - rewrite Henv. simpl. by eexists.
Qed.

Lemma ask_without_key_path :
  exists e,
    ask_cortex_analyst failing_session_world "C0123" "how many tickets?" []
    = (inl e, [EChatPostMessage "C0123" wait_message])
    /\ (chat_postMessage failing_session_world [] "C0123" wait_message = inr tt ->
        e = Raise Exception (exn_str key_path_required)).
Proof.
  apply (ask_requires_key_path failing_session_world "C0123" "how many tickets?").
  reflexivity.
Defined.

(** The calls of [ask_cortex_analyst] up to the dispatcher. *)
Lemma ask_requests w ch question :
  http_requests (final (ask_cortex_analyst w ch question [])) = []
  \/ exists self,
       database self = "slack_demo" /\ schema self = "data"
       /\ stage self = "semantic_models"
       /\ file self = "support_tickets_semantic_model.yaml"
       /\ http_requests (final (ask_cortex_analyst w ch question []))
          = [(sanitize_host_name (configured_endpoint w),
              request_payload self question)].
Proof.
  unfold ask_cortex_analyst, Cortlayst_init, configured_endpoint. run.
  destruct (chat_postMessage w [] ch wait_message) as [e|[]]; simpl; [by left|].
  destruct (getenv w "PRIVATE_KEY_FILE_PATH") as [path|]; simpl; [|by left].
  destruct (new_jwt_generator w _ _ _ _) as [e|[]]; simpl; [by left|].
  destruct (generate_token w _) as [e|jwt_token]; simpl; [by left|].
  right.
  exists {| account := session_conf w "account"; user := session_conf w "user";
            database := "slack_demo"; schema := "data";
            stage := "semantic_models";
            file := "support_tickets_semantic_model.yaml";
            analyst_endpoint :=
              "https://" +:+ str_of_optional (session_conf w "host")
                +:+ "/api/v2/cortex/analyst/message" |}.
  do 4 (split; [reflexivity|]).
  destruct (requests_post w _ _ _ _) as [e|resp]; simpl; [reflexivity|].
  destruct (status_code resp =? 200)%Z; simpl; [|reflexivity].
  destruct (json_body resp) as [e|body]; simpl; [reflexivity|].
  destruct (dict_with body _ _) as [e|ans]; simpl; [reflexivity|].
  destruct (getitem ans "message") as [e|message]; simpl; [reflexivity|].
  destruct (getitem message "content") as [e|content]; simpl; [reflexivity|].
  match goal with
  | |- context [show_response w ch content ?tr] =>
      destruct (show_response_extends w ch content tr) as (new & Hnew & Hposts);
      unfold final in Hnew;
      destruct (show_response w ch content tr) as [[e|v] tr']
  end; simpl in *; subst tr';
    apply no_question_no_request in Hposts;
    match goal with
    | |- context [http_requests (?a :: ?b :: ?c :: ?d :: ?n)] =>
        change (http_requests (a :: b :: c :: d :: n))
          with (http_requests [a; b; c; d] ++ http_requests n)%list
    end;
    by rewrite Hposts.
Qed.

(** X12.  Whatever the question and the collaborators,
    [ask_cortex_analyst] makes at most one request; it goes to the
    normalised endpoint of the configured host and names the semantic
    model of the defaults, [@slack_demo.data.semantic_models/...]: the
    database and schema chosen at setup play no part in it. *)
Theorem ask_request_uses_default_model w ch question :
  (length (http_requests (final (ask_cortex_analyst w ch question []))) <= 1)%nat
  /\ Forall (fun request =>
               request.1 = sanitize_host_name (configured_endpoint w)
               /\ getitem request.2 "semantic_model_file"
                  = inr (JStr default_model_file)
               /\ payload_question request.2 = Some question)
       (http_requests (final (ask_cortex_analyst w ch question []))).
Proof.
  destruct (ask_requests w ch question)
    as [->|(self & Hdb & Hschema & Hstage & Hfile & ->)].
  - split; [simpl; lia|constructor].
  - split; [simpl; lia|]. constructor; [|constructor]. simpl.
    split; [reflexivity|]. split; [|apply payload_question_request].
    unfold request_payload, getitem. simplify_map_eq.
    by rewrite Hdb, Hschema, Hstage, Hfile.
Qed.

(** X13.  Every failure of [ask_cortex_analyst] reaches its caller as the
    builtin [Exception]: the class of the original exception is lost, only
    its message is kept. *)
Theorem ask_raises_plain_exception w ch question tr e :
  outcome (ask_cortex_analyst w ch question tr) = inl e ->
  exn_class e = Exception.
Proof.
  unfold ask_cortex_analyst, try_except, raise, outcome.
  match goal with
  | |- context [match ?body with _ => _ end] => destruct body as [[e0|v] tr']
  end; simpl; [|done].
  by intros [= <-].
Qed.

Lemma ask_raises_plain_exception_on_503 :
  outcome (ask_cortex_analyst (stub_world two_column_frame overloaded)
             "C0123" "how many tickets?" [])
  = inl (Raise Exception "Failed request (id: req-1) with status 503: overloaded")
  /\ exn_class
       (Raise Exception "Failed request (id: req-1) with status 503: overloaded")
     = Exception.
Proof.
  split; [vm_compute; reflexivity|].
  apply (ask_raises_plain_exception (stub_world two_column_frame overloaded)
           "C0123" "how many tickets?" []).
  vm_compute. reflexivity.
Defined.

(** ** [load_rsa_public_key] and [match_fingerprints] *)

(** X14.  The failures of [load_rsa_public_key], by kind of input.  For a
    [str] it is the [TypeError] of [bytes(key)].  For a [Path] it is
    either the exception of reading the file, unchanged (a missing file
    stays a [FileNotFoundError]), or a [ValueError].  For [bytes] it is
    always a [ValueError].  Every such [ValueError] has a message that
    starts with [Failed to load public key: ], and for a key that is not
    an RSA key the message is
    [Failed to load public key: Not an RSA public key]. *)
Theorem load_rsa_public_key_failures read_binary load_pem key e :
  load_rsa_public_key read_binary load_pem key = inl e ->
  match key with
  | KeyStr _ => e = Raise TypeError "string argument without an encoding"
  | KeyPath path =>
      read_binary path = inl e
      \/ exists data cause,
           read_binary path = inr data
           /\ e = Raise ValueError ("Failed to load public key: " +:+ cause)
           /\ (forall algorithm,
                 load_pem data = inr (OtherKey algorithm) ->
                 cause = "Not an RSA public key")
  | KeyBytes data =>
      exists cause,
        e = Raise ValueError ("Failed to load public key: " +:+ cause)
        /\ (forall algorithm,
              load_pem data = inr (OtherKey algorithm) ->
              cause = "Not an RSA public key")
  end.
Proof.
  unfold load_rsa_public_key. destruct key as [path|pem|data].
  - destruct (read_binary path) as [e0|data]; [intros [= ->]; by left|].
    intros H. right. exists data.
    destruct (load_pem data) as [e0|[k|algorithm]]; try done;
      injection H as <-; eexists; (split; [reflexivity|]);
      (split; [reflexivity|]); by intros ? [=].
  - by intros [= <-].
  - intros H.
    destruct (load_pem data) as [e0|[k|algorithm]]; try done;
      injection H as <-; eexists; (split; [reflexivity|]); by intros ? [=].
Qed.

Lemma load_rsa_public_key_not_rsa :
  exists cause,
    Raise ValueError "Failed to load public key: Not an RSA public key"
    = Raise ValueError ("Failed to load public key: " +:+ cause)
    /\ (forall algorithm,
          stub_load_ec_pem stub_pem = inr (OtherKey algorithm) ->
          cause = "Not an RSA public key").
Proof.
  apply (load_rsa_public_key_failures stub_read_binary stub_load_ec_pem
           (KeyBytes stub_pem)
           (Raise ValueError "Failed to load public key: Not an RSA public key")).
  reflexivity.
Defined.

(** X15.  Loading from a path whose file can be read is loading the bytes
    of the file; and loading bytes returns a key exactly when the PEM
    parser finds an RSA key in them, which is then the key returned. *)
Theorem load_rsa_public_key_of_file read_binary load_pem path data :
  read_binary path = inr data ->
  load_rsa_public_key read_binary load_pem (KeyPath path)
  = load_rsa_public_key read_binary load_pem (KeyBytes data)
  /\ forall k,
       load_rsa_public_key read_binary load_pem (KeyBytes data) = inr k
       <-> load_pem data = inr (RSAKey k).
Proof.
  intros Hread. unfold load_rsa_public_key. rewrite Hread.
  split; [reflexivity|]. intros k.
  destruct (load_pem data) as [e0|[k0|algorithm]]; split; try done;
    by intros [= ->].
Qed.

Lemma load_rsa_public_key_of_stub_file :
  load_rsa_public_key stub_read_binary stub_load_pem (KeyPath "rsa_key.pub")
  = load_rsa_public_key stub_read_binary stub_load_pem (KeyBytes stub_pem)
  /\ forall k,
       load_rsa_public_key stub_read_binary stub_load_pem (KeyBytes stub_pem)
       = inr k
       <-> stub_load_pem stub_pem = inr (RSAKey k).
Proof.
  apply (load_rsa_public_key_of_file stub_read_binary stub_load_pem
           "rsa_key.pub" stub_pem).
  reflexivity.
Defined.

(** X16.  [match_fingerprints] is exact string equality: it holds of two
    fingerprints exactly when they are the same text, in either order;
    and the fingerprints of two keys match exactly when the SHA-256
    digests of their encodings are equal. *)
Theorem match_fingerprints_is_equality public_bytes sha256 fp_1 fp_2 k1 k2 :
  (match_fingerprints fp_1 fp_2 = true <-> fp_1 = fp_2)
  /\ match_fingerprints fp_1 fp_2 = match_fingerprints fp_2 fp_1
  /\ (match_fingerprints (get_key_fingerprint public_bytes sha256 k1)
                         (get_key_fingerprint public_bytes sha256 k2) = true
      <-> sha256 (public_bytes k1) = sha256 (public_bytes k2)).
Proof.
  unfold match_fingerprints. split; [apply String.eqb_eq|].
  split; [apply String.eqb_sym|].
  rewrite String.eqb_eq. unfold get_key_fingerprint. split.
  - intros H. by apply vec_to_list_inj2, hexdigest_inj.
  - by intros ->.
Qed.
(** ** Histories *)

Lemma core_calls_app h1 h2 :
  core_calls (h1 ++ h2) = (core_calls h1 ++ core_calls h2)%list.
Proof. apply omap_app. Qed.

Lemma core_calls_Core tr : core_calls (map Core tr) = tr.
Proof.
  induction tr as [|e tr IH]; [done|].
  change (e :: core_calls (map Core tr) = e :: tr). by rewrite IH.
Qed.

Lemma lift_core_extends {A} (m : M trace A) h r new :
  m (core_calls h) = (r, (core_calls h ++ new)%list) ->
  lift_core m h = (r, (h ++ map Core new)%list).
Proof. unfold lift_core. intros ->. simpl. by rewrite drop_app_length. Qed.

(** [ask_cortex_analyst] only adds calls, and each request it makes
    carries the question it was given. *)
Lemma ask_cortex_analyst_extends w ch question tr :
  exists new,
    final (ask_cortex_analyst w ch question tr) = (tr ++ new)%list
    /\ Forall (fun sent => sent = Some question) (posted_questions new).
Proof.
  unfold ask_cortex_analyst, Cortlayst_init. run.
  destruct (chat_postMessage w tr ch wait_message) as [e|[]]; simpl;
    [eexists; split; [reflexivity|constructor]|].
  destruct (getenv w "PRIVATE_KEY_FILE_PATH") as [path|]; simpl;
    [|eexists; split; [reflexivity|constructor]].
  destruct (new_jwt_generator w _ _ _ _) as [e|[]]; simpl;
    [rewrite <- !app_assoc; eexists; split; [reflexivity|constructor]|].
  destruct (generate_token w _) as [e|jwt_token]; simpl;
    [rewrite <- !app_assoc; eexists; split; [reflexivity|constructor]|].
  assert (forall rest,
             posted_questions rest = [] ->
             Forall (fun sent => sent = Some question)
               (posted_questions
                  ([EChatPostMessage ch wait_message]
                   ++ [ENewJWTGenerator (session_conf w "account")
                         (session_conf w "user") path]
                   ++ [EGenerateToken]
                   ++ [EHttpPost
                         (sanitize_host_name
                            ("https://" +:+ str_of_optional (session_conf w "host")
                             +:+ "/api/v2/cortex/analyst/message"))
                         (request_payload
                            {| account := session_conf w "account";
                               user := session_conf w "user";
                               database := "slack_demo"; schema := "data";
                               stage := "semantic_models";
                               file := "support_tickets_semantic_model.yaml";
                               analyst_endpoint :=
                                 "https://" +:+ str_of_optional (session_conf w "host")
                                 +:+ "/api/v2/cortex/analyst/message" |} question)
                         (request_headers jwt_token)] ++ rest))) as Hrest.
  { intros rest Hr. simpl. rewrite payload_question_request, Hr. by repeat constructor. }
  destruct (requests_post w _ _ _ _) as [e|resp]; simpl.
  { rewrite <- !app_assoc. eexists; split; [reflexivity|]. apply (Hrest []). done. }
  destruct (status_code resp =? 200)%Z; simpl.
  2:{ rewrite <- !app_assoc. eexists; split; [reflexivity|]. apply (Hrest []). done. }
  destruct (json_body resp) as [e|body]; simpl.
  { rewrite <- !app_assoc. eexists; split; [reflexivity|]. apply (Hrest []). done. }
  destruct (dict_with body _ _) as [e|ans]; simpl.
  { rewrite <- !app_assoc. eexists; split; [reflexivity|]. apply (Hrest []). done. }
  destruct (getitem ans "message") as [e|message]; simpl.
  { rewrite <- !app_assoc. eexists; split; [reflexivity|]. apply (Hrest []). done. }
  destruct (getitem message "content") as [e|content]; simpl.
  { rewrite <- !app_assoc. eexists; split; [reflexivity|]. apply (Hrest []). done. }
  match goal with
  | |- context [show_response w ch content ?tr0] =>
      destruct (show_response_extends w ch content tr0) as (new & Hnew & Hposts);
      unfold final in Hnew;
      destruct (show_response w ch content tr0) as [[e|v] tr']
  end; simpl in *; subst tr'; rewrite <- !app_assoc;
    (eexists; split; [reflexivity|]); by apply Hrest.
Qed.

(** ** White space *)

Lemma lstrip_chars_blank s : forallb is_space s = true -> lstrip_chars s = [].
Proof.
  induction s as [|c s IH]; [done|]. simpl.
  destruct (is_space c); [exact IH|done].
Qed.

Lemma strip_blank s : forallb is_space (str_chars s) = true -> strip s = "".
Proof. intros H. unfold strip, strip_chars. by rewrite (lstrip_chars_blank _ H). Qed.

Ltac run_app :=
  unfold send_form, global_failed, step_failed, raise_str, log_error, post_message,
    in_history, get_db_setup, update_db_setup, app_call;
  run.

(** ** The command [/cortalyst] *)

(** X17: a [/cortalyst] command whose text is missing or made of white
    space asks nothing.  Once acknowledged, the handler sends the question
    form to the user; whatever happens then, the only core calls are log
    entries: nothing is posted to the channel and nothing is sent to the
    analyst.  If the form goes through, that is all the handler does. *)
Theorem cortalyst_blank_text_shows_form a command h :
  forallb is_space (str_chars (default "" (command !! "text"))) = true ->
  ack a h = inr tt ->
  exists new,
    final (handle_cortalyst a command h)
    = (h ++ EAck :: ERespondBlocks cortex_question "ephemeral" :: new)%list
    /\ Forall (fun e => exists msg, e = ELogError msg) (core_calls new)
    /\ (respond_blocks a (h ++ [EAck]) cortex_question "ephemeral" = inr tt ->
        handle_cortalyst a command h
        = (inr tt, (h ++ [EAck; ERespondBlocks cortex_question "ephemeral"])%list)).
Proof.
  intros Hblank Hack. unfold handle_cortalyst, command_text_of.
  rewrite (strip_blank _ Hblank). run_app. rewrite Hack. simpl.
  destruct (respond_blocks a _ _ _) as [e|[]]; simpl.
  2:{ rewrite <- app_assoc. exists []. by repeat split. }
  destruct (respond_text a _ _ _) as [e1|[]]; simpl.
  2:{ rewrite <- !app_assoc. eexists. split; [reflexivity|].
      split; [|done]. repeat constructor. by eexists. }
  destruct (respond_text a _ _ _) as [e2|[]]; simpl.
  2:{ rewrite <- !app_assoc. eexists. split; [reflexivity|].
      split; [|done]. repeat constructor; by eexists. }
  destruct (command_item command "channel_id") as [e3|channel]; simpl.
  { rewrite <- !app_assoc. eexists. split; [reflexivity|].
    split; [|done]. repeat constructor; by eexists. }
  destruct (command_item command "user_id") as [e4|user]; simpl.
  { rewrite <- !app_assoc. eexists. split; [reflexivity|].
    split; [|done]. repeat constructor; by eexists. }
  rewrite <- !app_assoc. eexists. split; [reflexivity|].
  split; [|done]. repeat constructor; by eexists.
Qed.

Lemma cortalyst_blank_text_shows_form_only :
  exists new,
    final (handle_cortalyst (stub_services (stub_world two_column_frame overloaded))
             (a_command "   ") [])
    = ([] ++ EAck :: ERespondBlocks cortex_question "ephemeral" :: new)%list
    /\ Forall (fun e => exists msg, e = ELogError msg) (core_calls new)
    /\ (respond_blocks (stub_services (stub_world two_column_frame overloaded))
          ([] ++ [EAck]) cortex_question "ephemeral" = inr tt ->
        handle_cortalyst (stub_services (stub_world two_column_frame overloaded))
          (a_command "   ") []
        = (inr tt, ([] ++ [EAck; ERespondBlocks cortex_question "ephemeral"])%list)).
Proof.
  apply (cortalyst_blank_text_shows_form
           (stub_services (stub_world two_column_frame overloaded))
           (a_command "   ") []); reflexivity.
Defined.

Lemma global_failed_extends a prefix command e h :
  exists new,
    final (global_failed a prefix command e h) = (h ++ new)%list
    /\ posted_questions (core_calls new) = [].
Proof.
  run_app.
  destruct (respond_text a _ _ _) as [e2|[]]; simpl;
    [|rewrite <- !app_assoc; by eexists].
  destruct (command_item command "channel_id") as [e3|channel]; simpl;
    [rewrite <- !app_assoc; by eexists|].
  destruct (command_item command "user_id") as [e4|user]; simpl;
    rewrite <- !app_assoc; by eexists.
Qed.

Lemma send_form_extends a blocks apology h :
  exists new,
    final (send_form a blocks apology h) = (h ++ new)%list
    /\ posted_questions (core_calls new) = [].
Proof.
  run_app.
  destruct (respond_blocks a _ _ _) as [e|[]]; simpl; [|by eexists].
  rewrite <- !app_assoc; by eexists.
Qed.

Lemma posted_questions_core_app h1 h2 :
  posted_questions (core_calls (h1 ++ h2))
  = (posted_questions (core_calls h1) ++ posted_questions (core_calls h2))%list.
Proof. by rewrite core_calls_app, posted_questions_app. Qed.

(** X18: whatever the collaborators answer, every request that
    [/cortalyst] sends to the analyst carries the text of the command with
    the white space around it removed, and nothing else of it is changed. *)
Theorem cortalyst_asks_stripped_text a command h :
  exists new,
    final (handle_cortalyst a command h) = (h ++ new)%list
    /\ Forall (fun sent => sent = Some (command_text_of command))
         (posted_questions (core_calls new)).
Proof.
  unfold handle_cortalyst.
  unfold mbind at 1. unfold M_bind at 1. unfold app_call at 1.
  destruct (ack a h) as [e|[]]; [by eexists|].
  unfold try_except at 1.
  destruct (is_empty (command_text_of command)).
  - destruct (send_form_extends a cortex_question
                "Sorry, there was an error displaying the question form."
                (h ++ [EAck])) as (new & Hnew & Hq).
    unfold final in Hnew.
    destruct (send_form a _ _ _) as [[e|[]] h1]; simpl in *; subst h1.
    + destruct (global_failed_extends a "Cortalyst::Failed to send response: "
                  command e ((h ++ [EAck]) ++ new)) as (new2 & Hnew2 & Hq2).
      rewrite Hnew2, <- !app_assoc. eexists. split; [reflexivity|].
      change ([EAck] ++ new ++ new2)%list with (([EAck] ++ new) ++ new2)%list.
      rewrite posted_questions_core_app, Hq2, app_nil_r.
      change (core_calls ([EAck] ++ new)) with (core_calls new).
      rewrite Hq. constructor.
    + rewrite <- !app_assoc. eexists. split; [reflexivity|].
      change (core_calls ([EAck] ++ new)) with (core_calls new).
      rewrite Hq. constructor.
  - unfold try_except at 1.
    unfold mbind at 1. unfold M_bind at 1. unfold lift at 1.
    destruct (command_item command "channel_id") as [e|channel_id] eqn:Hch.
    + run_app.
      destruct (respond_text a _ _ _) as [e1|[]]; simpl.
      2:{ rewrite <- !app_assoc. eexists. split; [reflexivity|]. constructor. }
      destruct (respond_text a _ _ _) as [e2|[]]; simpl.
      2:{ rewrite <- !app_assoc. eexists. split; [reflexivity|]. constructor. }
      rewrite Hch. simpl.
      rewrite <- !app_assoc; eexists; (split; [reflexivity|]); constructor.
    + destruct (ask_cortex_analyst_extends (core_world a) channel_id
                  (command_text_of command) (core_calls (h ++ [EAck])))
        as (asked & Hasked & Hsent).
      unfold final in Hasked.
      destruct (ask_cortex_analyst (core_world a) channel_id
                  (command_text_of command) (core_calls (h ++ [EAck])))
        as [r tr'] eqn:Hask.
      simpl in Hasked. subst tr'.
      rewrite (lift_core_extends _ _ _ _ Hask).
      assert (posted_questions (core_calls (EAck :: map Core asked))
              = posted_questions asked) as Hcore.
      { change (EAck :: map Core asked) with ([EAck] ++ map Core asked)%list.
        by rewrite core_calls_app, core_calls_Core. }
      destruct r as [e|[]].
      * unfold mbind at 1. unfold M_bind at 1. unfold log_error at 1.
        unfold app_call at 1.
        unfold app_call at 1.
        destruct (respond_text a _ _ _) as [e1|[]].
        -- destruct (global_failed_extends a "Cortalyst::Failed to send response: "
                       command e1
                       ((((h ++ [EAck]) ++ map Core asked)
                           ++ [Core (ELogError ("Cortalyst error: " +:+ exn_str e))])
                          ++ [ERespondText
                                ("Error asking Cortex Analyst: " +:+ exn_str e)
                                "ephemeral"]))
             as (new2 & Hnew2 & Hq2).
           rewrite Hnew2, <- !app_assoc. eexists. split; [reflexivity|].
           change ([EAck] ++ map Core asked ++ ?x)%list
             with ((EAck :: map Core asked) ++ x)%list.
           rewrite !posted_questions_core_app, Hcore, Hq2.
           simpl. by rewrite app_nil_r.
        -- simpl. rewrite <- !app_assoc. eexists. split; [reflexivity|].
           change ([EAck] ++ map Core asked ++ ?x)%list
             with ((EAck :: map Core asked) ++ x)%list.
           rewrite !posted_questions_core_app, Hcore.
           simpl. by rewrite app_nil_r.
      * simpl. rewrite <- !app_assoc. eexists. split; [reflexivity|].
        change ([EAck] ++ map Core asked)%list with (EAck :: map Core asked).
        by rewrite Hcore.
Qed.

Lemma is_empty_false s : s <> "" -> is_empty s = false.
Proof. intros H. unfold is_empty. by apply String.eqb_neq. Qed.

(** X19: when asking the analyst fails, [/cortalyst] tells the user why.
    For a command with a text and a channel, an exception [e] of
    [ask_cortex_analyst] is logged and then sent to the user, as
    [Error asking Cortex Analyst: ] followed by [str(e)]; if that message
    goes through, the handler returns. *)
Theorem cortalyst_reports_failure a command h ch e asked :
  ack a h = inr tt ->
  command_text_of command <> "" ->
  command !! "channel_id" = Some ch ->
  ask_cortex_analyst (core_world a) ch (command_text_of command) (core_calls h)
  = (inl e, (core_calls h ++ asked)%list) ->
  exists r new,
    handle_cortalyst a command h
    = (r, (h ++ EAck :: map Core asked
             ++ Core (ELogError ("Cortalyst error: " +:+ exn_str e))
             :: ERespondText ("Error asking Cortex Analyst: " +:+ exn_str e)
                  "ephemeral"
             :: new)%list)
    /\ (respond_text a
          (h ++ EAck :: map Core asked
             ++ [Core (ELogError ("Cortalyst error: " +:+ exn_str e))])
          ("Error asking Cortex Analyst: " +:+ exn_str e) "ephemeral" = inr tt ->
        new = [] /\ r = inr tt).
Proof.
  intros Hack Htext Hch Hask. unfold handle_cortalyst.
  unfold mbind at 1. unfold M_bind at 1. unfold app_call at 1. rewrite Hack.
  unfold try_except at 1. rewrite (is_empty_false _ Htext).
  unfold try_except at 1.
  unfold mbind at 1. unfold M_bind at 1. unfold lift at 1.
  unfold command_item at 1. rewrite Hch.
  assert (core_calls (h ++ [EAck]) = core_calls h) as Hcore.
  { rewrite core_calls_app. apply app_nil_r. }
  rewrite <- Hcore in Hask. rewrite (lift_core_extends _ _ _ _ Hask).
  unfold mbind at 1. unfold M_bind at 1. unfold log_error at 1.
  unfold app_call at 1. unfold app_call at 1.
  replace ((((h ++ [EAck]) ++ map Core asked)
              ++ [Core (ELogError ("Cortalyst error: " +:+ exn_str e))]))%list
    with (h ++ EAck :: map Core asked
            ++ [Core (ELogError ("Cortalyst error: " +:+ exn_str e))])%list
    by (by rewrite <- !app_assoc).
  destruct (respond_text a _ _ _) as [e1|[]].
  - destruct (global_failed_extends a "Cortalyst::Failed to send response: "
                command e1
                ((h ++ EAck :: map Core asked
                    ++ [Core (ELogError ("Cortalyst error: " +:+ exn_str e))])
                   ++ [ERespondText ("Error asking Cortex Analyst: " +:+ exn_str e)
                         "ephemeral"]))
      as (new2 & Hnew2 & _).
    unfold final in Hnew2.
    destruct (global_failed a _ command e1 _) as [r h2]. simpl in Hnew2. subst h2.
    exists r, new2. split; [|done].
    rewrite <- !app_assoc. simpl. by rewrite <- !app_assoc.
  - exists (inr tt), []. split; [|done].
    rewrite <- !app_assoc. simpl. by rewrite <- !app_assoc.
Qed.

Lemma cortalyst_reports_503 :
  exists r new,
    handle_cortalyst (stub_services (stub_world two_column_frame overloaded))
      (a_command " how many tickets? ") []
    = (r, ([] ++ EAck
         :: map Core
              (final (ask_cortex_analyst (stub_world two_column_frame overloaded)
                        "C0123" "how many tickets?" []))
         ++ Core (ELogError
                    ("Cortalyst error: "
                     +:+ exn_str (Raise Exception
                           "Failed request (id: req-1) with status 503: overloaded")))
         :: ERespondText
              ("Error asking Cortex Analyst: "
               +:+ exn_str (Raise Exception
                     "Failed request (id: req-1) with status 503: overloaded"))
              "ephemeral"
         :: new)%list)
    /\ (respond_text (stub_services (stub_world two_column_frame overloaded))
          ([] ++ EAck
             :: map Core
                  (final (ask_cortex_analyst (stub_world two_column_frame overloaded)
                            "C0123" "how many tickets?" []))
             ++ [Core (ELogError
                         ("Cortalyst error: "
                          +:+ exn_str (Raise Exception
                                "Failed request (id: req-1) with status 503: overloaded")))])
          ("Error asking Cortex Analyst: "
           +:+ exn_str (Raise Exception
                 "Failed request (id: req-1) with status 503: overloaded"))
          "ephemeral" = inr tt ->
        new = [] /\ r = inr tt).
Proof.
  apply (cortalyst_reports_failure
           (stub_services (stub_world two_column_frame overloaded))
           (a_command " how many tickets? ") [] "C0123"
           (Raise Exception "Failed request (id: req-1) with status 503: overloaded")
           (final (ask_cortex_analyst (stub_world two_column_frame overloaded)
                     "C0123" "how many tickets?" []))).
  - reflexivity.
  - vm_compute. discriminate.
  - reflexivity.
  - vm_compute. reflexivity.
Defined.

(** X20: [/cortalyst] raises only if Slack fails it.  When the
    acknowledgement succeeds and [respond] delivers every text it is given,
    the handler returns, whatever the command holds and whatever else
    fails. *)
Theorem cortalyst_raises_only_if_respond_fails a command h :
  ack a h = inr tt ->
  (forall h' msg, respond_text a h' msg "ephemeral" = inr tt) ->
  outcome (handle_cortalyst a command h) = inr tt.
Proof.
  intros Hack Hrespond. unfold handle_cortalyst.
  unfold mbind at 1. unfold M_bind at 1. unfold app_call at 1. rewrite Hack.
  unfold try_except at 1.
  destruct (is_empty (command_text_of command)).
  - run_app. destruct (respond_blocks a _ _ _) as [e|[]]; simpl; [|done].
    by rewrite Hrespond.
  - unfold try_except at 1.
    destruct ((channel_id ← lift (command_item command "channel_id");
               lift_core (ask_cortex_analyst (core_world a) channel_id
                            (command_text_of command))) (h ++ [EAck])%list)
      as [[e|[]] h1]; [|done].
    run_app. by rewrite Hrespond.
Qed.

Lemma cortalyst_returns_on_503 :
  outcome (handle_cortalyst (stub_services (stub_world two_column_frame overloaded))
             (a_command "how many tickets?") []) = inr tt.
Proof.
  apply (cortalyst_raises_only_if_respond_fails
           (stub_services (stub_world two_column_frame overloaded))
           (a_command "how many tickets?") []); [reflexivity|].
  intros h' msg. reflexivity.
Defined.

(** ** The command [/cleanup] *)

(** X21: [/cleanup] drops what the command names, without looking at it.
    Once the command is acknowledged and the wait message posted, the
    statement [DROP DATABASE ] followed by the stripped text of the command
    is run, for every text, the empty one included.  The success message
    follows exactly when the count of the result is positive. *)
Theorem cleanup_drops_the_named_database a command h ch n :
  ack a h = inr tt ->
  command !! "channel_id" = Some ch ->
  chat_postMessage (core_world a) (core_calls h) ch cleanup_wait_message = inr tt ->
  session_sql_count a
    (h ++ [EAck; Core (EChatPostMessage ch cleanup_wait_message)])
    ("DROP DATABASE " +:+ command_text_of command) = inr n ->
  exists r new,
    cleanup_handler a command h
    = (r, (h ++ [EAck; Core (EChatPostMessage ch cleanup_wait_message);
                 ESqlCount ("DROP DATABASE " +:+ command_text_of command)]
             ++ new)%list)
    /\ ((n <= 0)%Z -> new = [] /\ r = inr tt)
    /\ ((0 < n)%Z ->
        exists rest,
          new = Core (EChatPostMessage ch
                        (":white_check_mark: Database `"
                         +:+ command_text_of command
                         +:+ "` dropped successfully.")) :: rest).
Proof.
  intros Hack Hch Hpost Hcount. unfold cleanup_handler, command_item.
  rewrite Hch. run_app. rewrite Hack. simpl.
  assert (core_calls (h ++ [EAck]) = core_calls h) as ->.
  { rewrite core_calls_app. apply app_nil_r. }
  rewrite Hpost. simpl. rewrite <- !app_assoc. simpl.
  rewrite Hcount. simpl.
  destruct (0 <? n)%Z eqn:Hn; simpl.
  - apply Z.ltb_lt in Hn. clear Hpost.
    destruct (chat_postMessage (core_world a) _ ch _) as [e|[]]; simpl;
      rewrite <- !app_assoc; simpl;
      eexists _, _; (split; [reflexivity|]); (split; [lia|]); intros _; by eexists.
  - apply Z.ltb_ge in Hn. exists (inr tt), []. simpl.
    split; [reflexivity|]. split; [done|lia].
Qed.

Lemma cleanup_runs_without_a_name :
  exists r new,
    cleanup_handler (stub_services (stub_world two_column_frame overloaded))
      (a_command "  ") []
    = (r, ([] ++ [EAck; Core (EChatPostMessage "C0123" cleanup_wait_message);
                  ESqlCount ("DROP DATABASE " +:+ command_text_of (a_command "  "))]
              ++ new)%list)
    /\ ((1 <= 0)%Z -> new = [] /\ r = inr tt)
    /\ ((0 < 1)%Z ->
        exists rest,
          new = Core (EChatPostMessage "C0123"
                        (":white_check_mark: Database `"
                         +:+ command_text_of (a_command "  ")
                         +:+ "` dropped successfully.")) :: rest).
Proof.
  apply (cleanup_drops_the_named_database
           (stub_services (stub_world two_column_frame overloaded))
           (a_command "  ") [] "C0123" 1%Z); reflexivity.
Defined.

(** X22: when the statement of [/cleanup] fails, the failure is logged
    and the user is sent one fixed text, in which the name of the database
    is not filled in: it holds the placeholder [{db_name}] as written.  The
    handler then returns what [respond] returns. *)
Theorem cleanup_failure_names_no_database a command h ch e :
  ack a h = inr tt ->
  command !! "channel_id" = Some ch ->
  chat_postMessage (core_world a) (core_calls h) ch cleanup_wait_message = inr tt ->
  session_sql_count a
    (h ++ [EAck; Core (EChatPostMessage ch cleanup_wait_message)])
    ("DROP DATABASE " +:+ command_text_of command) = inl e ->
  cleanup_handler a command h
  = (respond_text a
       (h ++ [EAck; Core (EChatPostMessage ch cleanup_wait_message);
              ESqlCount ("DROP DATABASE " +:+ command_text_of command);
              Core (ELogError ("Failed to cleanup: " +:+ exn_str e))])
       "Sorry, there was an error during cleanup of Database {db_name}."
       "ephemeral",
     (h ++ [EAck; Core (EChatPostMessage ch cleanup_wait_message);
            ESqlCount ("DROP DATABASE " +:+ command_text_of command);
            Core (ELogError ("Failed to cleanup: " +:+ exn_str e));
            ERespondText
              "Sorry, there was an error during cleanup of Database {db_name}."
              "ephemeral"])%list).
Proof.
  intros Hack Hch Hpost Hcount. unfold cleanup_handler, command_item.
  rewrite Hch. run_app. rewrite Hack. simpl.
  assert (core_calls (h ++ [EAck]) = core_calls h) as ->.
  { rewrite core_calls_app. apply app_nil_r. }
  rewrite Hpost. simpl. rewrite <- !app_assoc. simpl.
  rewrite Hcount. simpl. rewrite <- !app_assoc. simpl.
  by destruct (respond_text a _ _ _).
Qed.

Lemma cleanup_failure_of_demo_db :
  cleanup_handler
    (refusing_session (stub_services (stub_world two_column_frame overloaded)))
    (a_command "demo_db") []
  = (respond_text
       (refusing_session (stub_services (stub_world two_column_frame overloaded)))
       ([] ++ [EAck; Core (EChatPostMessage "C0123" cleanup_wait_message);
               ESqlCount ("DROP DATABASE " +:+ command_text_of (a_command "demo_db"));
               Core (ELogError
                       ("Failed to cleanup: "
                        +:+ exn_str (Raise (ForeignError "SnowparkSQLException")
                                       "Database does not exist")))])
       "Sorry, there was an error during cleanup of Database {db_name}."
       "ephemeral",
     ([] ++ [EAck; Core (EChatPostMessage "C0123" cleanup_wait_message);
             ESqlCount ("DROP DATABASE " +:+ command_text_of (a_command "demo_db"));
             Core (ELogError
                     ("Failed to cleanup: "
                      +:+ exn_str (Raise (ForeignError "SnowparkSQLException")
                                     "Database does not exist")));
             ERespondText
               "Sorry, there was an error during cleanup of Database {db_name}."
               "ephemeral"])%list).
Proof.
  apply (cleanup_failure_names_no_database
           (refusing_session (stub_services (stub_world two_column_frame overloaded)))
           (a_command "demo_db") [] "C0123"
           (Raise (ForeignError "SnowparkSQLException") "Database does not exist"));
    reflexivity.
Defined.

(** ** The action [ask_cortex_analyst] *)

Lemma ask_cortex_analyst_value_extends a ch question tr :
  exists new,
    final (ask_cortex_analyst_value a ch question tr) = (tr ++ new)%list.
Proof.
  destruct question;
    try (exists []; unfold ask_cortex_analyst_value, raise, final; simpl;
         by rewrite app_nil_r).
  destruct (ask_cortex_analyst_extends (core_world a) ch s tr) as (new & Hnew & _).
  by exists new.
Qed.

(** X23: a question form submitted with an empty input asks nothing.
    When the value of the input is not a [str] (Slack sends [null] for an
    empty input), the handler calls neither the channel nor the analyst:
    it logs that the value has no attribute [splitlines] and sends the
    user its fixed apology. *)
Theorem action_ask_needs_a_text a body h value ch :
  ack a h = inr tt ->
  outcome (input_value body "analyst_question_block" "question" h) = inr value ->
  (forall question, value <> JStr question) ->
  body_channel_id body = inr ch ->
  action_ask_cortex_analyst a body h
  = (respond_text a
       (h ++ [EAck;
              Core (ELogError
                      ("Failed to send request to Cortex Analyst: "
                       +:+ ("'" +:+ py_type_name value
                            +:+ "' object has no attribute 'splitlines'")))])
       "Sorry, there was an error askingCortex Analyst ." "ephemeral",
     (h ++ [EAck;
            Core (ELogError
                    ("Failed to send request to Cortex Analyst: "
                     +:+ ("'" +:+ py_type_name value
                          +:+ "' object has no attribute 'splitlines'")));
            ERespondText "Sorry, there was an error askingCortex Analyst ."
              "ephemeral"])%list).
Proof.
  intros Hack Hvalue Hnostr Hch. unfold action_ask_cortex_analyst.
  unfold mbind at 1. unfold M_bind at 1. unfold app_call at 1. rewrite Hack.
  unfold try_except at 1. unfold mbind at 1. unfold M_bind at 1.
  assert (input_value body "analyst_question_block" "question" (h ++ [EAck])%list
          = (inr value, (h ++ [EAck])%list)) as ->.
  { revert Hvalue. unfold input_value. run.
    destruct (body_state body) as [state|]; [|done]. simpl.
    destruct (getitem state "values") as [?|values]; [done|]. simpl.
    destruct (getitem values _) as [?|input_block]; [done|]. simpl.
    destruct (getitem input_block _) as [?|input]; [done|]. simpl.
    destruct (getitem input "value") as [?|v]; [done|]. simpl. by intros [= ->]. }
  unfold mbind at 1. unfold M_bind at 1. unfold lift at 1. rewrite Hch.
  assert (ask_cortex_analyst_value a ch value (core_calls (h ++ [EAck]))
          = (inl (Raise Exception
                    ("'" +:+ py_type_name value
                     +:+ "' object has no attribute 'splitlines'")),
             (core_calls (h ++ [EAck]) ++ [])%list)) as Hask.
  { rewrite app_nil_r. destruct value; try reflexivity. by destruct (Hnostr s). }
  rewrite (lift_core_extends _ _ _ _ Hask). run_app.
  rewrite <- !app_assoc. simpl.
  by destruct (respond_text a _ _ _).
Qed.

Lemma action_ask_with_empty_input :
  action_ask_cortex_analyst (stub_services (stub_world two_column_frame overloaded))
    (question_form_body JNull) []
  = (respond_text (stub_services (stub_world two_column_frame overloaded))
       ([] ++ [EAck;
               Core (ELogError
                       ("Failed to send request to Cortex Analyst: "
                        +:+ ("'" +:+ py_type_name JNull
                             +:+ "' object has no attribute 'splitlines'")))])
       "Sorry, there was an error askingCortex Analyst ." "ephemeral",
     ([] ++ [EAck;
             Core (ELogError
                     ("Failed to send request to Cortex Analyst: "
                      +:+ ("'" +:+ py_type_name JNull
                           +:+ "' object has no attribute 'splitlines'")));
             ERespondText "Sorry, there was an error askingCortex Analyst ."
               "ephemeral"])%list).
Proof.
  apply (action_ask_needs_a_text
           (stub_services (stub_world two_column_frame overloaded))
           (question_form_body JNull) [] JNull "C0123");
    [reflexivity | reflexivity | discriminate | reflexivity].
Defined.

(** ** The setup: [DBSetup] *)

Lemma posted_messages_app h1 h2 :
  posted_messages (h1 ++ h2) = (posted_messages h1 ++ posted_messages h2)%list.
Proof. apply flat_map_app. Qed.

Lemma dumps_app h1 h2 : dumps (h1 ++ h2) = (dumps h1 ++ dumps h2)%list.
Proof. apply flat_map_app. Qed.

Lemma reports_bind m k l1 l2 :
  reports m l1 -> reports k l2 -> reports (m;; k) (l1 ++ l2).
Proof.
  intros Hm Hk h. destruct (Hm h) as (new1 & Hf1 & Hd1 & Hp1 & Ho1).
  unfold mbind, M_bind, final, outcome in *.
  destruct (m h) as [[e|[]] h1]; simpl in *; subst h1.
  - exists new1. repeat split; [done| |done].
    by apply prefix_app_r.
  - destruct (Hk (h ++ new1)%list) as (new2 & Hf2 & Hd2 & Hp2 & Ho2).
    destruct (k _) as [r h2]; simpl in *; subst h2.
    exists (new1 ++ new2)%list. rewrite app_assoc, dumps_app, posted_messages_app.
    rewrite Hd1, Hd2, (Ho1 eq_refl). repeat split; [|].
    + by apply prefix_app.
    + intros Hr. by rewrite (Ho2 Hr).
Qed.

Lemma reports_post a channel msg : reports (post_message a channel msg) [(channel, msg)].
Proof.
  intros h. exists [Core (EChatPostMessage channel msg)].
  by repeat split.
Qed.

(** A step that fails through [handler], where the handler only logs and
    raises. *)
Lemma reports_try m handler l :
  reports m l ->
  (forall e h, exists msg e',
      handler e h = (inl e', (h ++ [Core (ELogError msg)])%list)) ->
  reports (try_except m handler) l.
Proof.
  intros Hm Hh h. destruct (Hm h) as (new & Hf & Hd & Hp & Ho).
  unfold try_except, final, outcome in *.
  destruct (m h) as [[e|[]] h1]; simpl in *; subst h1.
  - destruct (Hh e (h ++ new)%list) as (msg & e' & ->). simpl.
    exists (new ++ [Core (ELogError msg)])%list.
    rewrite app_assoc, dumps_app, posted_messages_app, Hd. simpl.
    rewrite app_nil_r. by repeat split.
  - by exists new.
Qed.

Lemma step_failed_logs step e h :
  exists msg e',
    step_failed step e h = (inl e', (h ++ [Core (ELogError msg)])%list).
Proof. by eexists _, _. Qed.

Lemma reports_call {A} (e : app_event) (answer : history -> result A) :
  posted_messages [e] = [] -> dumps [e] = [] ->
  forall h, exists new,
    final (app_call e answer h) = (h ++ new)%list
    /\ dumps new = [] /\ posted_messages new = [].
Proof. intros Hp Hd h. by exists [e]. Qed.

Lemma reports_create_db a self name : reports (create_db a self name) [].
Proof.
  intros h. unfold create_db. run_app.
  destruct (databases_create_or_alter a h name _) as [e|[]]; simpl.
  - rewrite <- app_assoc. eexists. by repeat split.
  - eexists. by repeat split.
Qed.

Lemma reports_create_schema a self name db : reports (create_schema a self name db) [].
Proof.
  intros h. unfold create_schema. run_app.
  destruct (schemas_create a h db _ _) as [e|[]]; simpl.
  - rewrite <- app_assoc. eexists. by repeat split.
  - eexists. by repeat split.
Qed.

Lemma reports_create_file_formats a self db sch :
  reports (create_file_formats a self db sch) [].
Proof.
  intros h. unfold create_file_formats. run_app.
  destruct (session_sql_collect a h _) as [e|[]]; simpl.
  - rewrite <- app_assoc. eexists. by repeat split.
  - eexists. by repeat split.
Qed.

Lemma reports_create_table a self db sch name :
  reports (create_table a self db sch name) [].
Proof.
  intros h. unfold create_table. run_app.
  destruct (tables_create a h db sch _ _) as [e|[]]; simpl.
  - rewrite <- app_assoc. eexists. by repeat split.
  - eexists. by repeat split.
Qed.

(** A computation that posts nothing and dumps nothing. *)
Lemma silent_reports (m : M history unit) :
  (forall h, exists new,
      final (m h) = (h ++ new)%list /\ dumps new = [] /\ posted_messages new = []) ->
  reports m [].
Proof.
  intros Hm h. destruct (Hm h) as (new & Hf & Hd & Hp). exists new.
  rewrite Hp. by repeat split.
Qed.

Lemma silent_bind {A B} (m : M history A) (k : A -> M history B) :
  (forall h, exists new,
      final (m h) = (h ++ new)%list /\ dumps new = [] /\ posted_messages new = []) ->
  (forall x h, exists new,
      final (k x h) = (h ++ new)%list /\ dumps new = [] /\ posted_messages new = []) ->
  forall h, exists new,
    final ((x ← m; k x) h) = (h ++ new)%list
    /\ dumps new = [] /\ posted_messages new = [].
Proof.
  intros Hm Hk h. destruct (Hm h) as (new1 & Hf1 & Hd1 & Hp1).
  unfold mbind, M_bind, final in *.
  destruct (m h) as [[e|x] h1]; simpl in *; subst h1; [by exists new1|].
  destruct (Hk x (h ++ new1)%list) as (new2 & Hf2 & Hd2 & Hp2).
  destruct (k x _) as [r h2]; simpl in *; subst h2.
  exists (new1 ++ new2)%list.
  by rewrite app_assoc, dumps_app, posted_messages_app, Hd1, Hd2, Hp1, Hp2.
Qed.

Lemma silent_ret {A} (x : A) :
  forall h : history, exists new : history,
    final ((mret x : M history A) h) = (h ++ new)%list
    /\ dumps new = [] /\ posted_messages new = [].
Proof. intros h. exists []. by rewrite app_nil_r. Qed.

Lemma silent_lift {A} (r : result A) :
  forall h : history, exists new : history,
    final ((lift r : M history A) h) = (h ++ new)%list
    /\ dumps new = [] /\ posted_messages new = [].
Proof. intros h. exists []. by rewrite app_nil_r. Qed.

Lemma silent_try {A} (m : M history A) handler :
  (forall h, exists new,
      final (m h) = (h ++ new)%list /\ dumps new = [] /\ posted_messages new = []) ->
  (forall e h, exists new,
      final (handler e h) = (h ++ new)%list
      /\ dumps new = [] /\ posted_messages new = []) ->
  forall h, exists new,
    final (try_except m handler h) = (h ++ new)%list
    /\ dumps new = [] /\ posted_messages new = [].
Proof.
  intros Hm Hh h. destruct (Hm h) as (new1 & Hf1 & Hd1 & Hp1).
  unfold try_except, final in *.
  destruct (m h) as [[e|x] h1]; simpl in *; subst h1; [|by exists new1].
  destruct (Hh e (h ++ new1)%list) as (new2 & Hf2 & Hd2 & Hp2).
  destruct (handler e _) as [r h2]; simpl in *; subst h2.
  exists (new1 ++ new2)%list.
  by rewrite app_assoc, dumps_app, posted_messages_app, Hd1, Hd2, Hp1, Hp2.
Qed.

Lemma silent_step_failed step e :
  forall h, exists new,
    final (step_failed step e h) = (h ++ new)%list
    /\ dumps new = [] /\ posted_messages new = [].
Proof. intros h. by eexists. Qed.

Lemma silent_create_stages a db sch stages :
  forall h, exists new,
    final (create_stages a db sch stages h) = (h ++ new)%list
    /\ dumps new = [] /\ posted_messages new = [].
Proof.
  induction stages as [|stage rest IH]; [apply silent_ret|].
  simpl. apply silent_bind; [by apply reports_call|]. intros _. apply IH.
Qed.

Lemma silent_create_pipes a db sch pipes :
  forall h, exists new,
    final (create_pipes a db sch pipes h) = (h ++ new)%list
    /\ dumps new = [] /\ posted_messages new = [].
Proof.
  induction pipes as [|pipe rest IH]; [apply silent_ret|].
  simpl. apply silent_bind; [by apply reports_call|]. intros _. apply IH.
Qed.

Lemma silent_older_than_7days a self files :
  forall h, exists new,
    final (older_than_7days a self files h) = (h ++ new)%list
    /\ dumps new = [] /\ posted_messages new = [].
Proof.
  induction files as [|f rest IH]; [apply silent_ret|].
  simpl. apply silent_bind.
  - unfold is_date_older_than_7days. apply silent_bind; [apply silent_lift|].
    intros date_obj. apply silent_bind; [by apply reports_call|].
    intros now. apply silent_ret.
  - intros older. apply silent_bind; [apply IH|]. intros names. apply silent_ret.
Qed.

Lemma reports_create_stage a self db sch name :
  reports (create_stage a self db sch name) [].
Proof.
  apply silent_reports. unfold create_stage.
  apply silent_try; [|apply silent_step_failed].
  apply silent_bind; [apply silent_create_stages|]. intros _.
  apply silent_bind; [by apply reports_call|]. intros rendered_yaml.
  apply silent_bind; [by apply reports_call|]. intros _.
  by apply reports_call.
Qed.

Lemma reports_pipe_and_load a self db sch stage_name table_name ff_name pipe_name :
  reports (pipe_and_load a self db sch stage_name table_name ff_name pipe_name) [].
Proof.
  apply silent_reports. unfold pipe_and_load.
  apply silent_try; [|apply silent_step_failed].
  apply silent_bind; [apply silent_create_pipes|]. intros _.
  apply silent_bind; [by apply reports_call|]. intros old_stage_files.
  apply silent_bind; [apply silent_older_than_7days|]. intros older.
  destruct (0 <? length older)%nat; [|apply silent_ret].
  apply silent_bind; [by apply reports_call|]. intros _.
  by apply reports_call.
Qed.

Lemma reports_do a self channel_id :
  reports (DBSetup_do a self channel_id)
    (map (pair channel_id) (progress_messages self)).
Proof.
  unfold DBSetup_do. apply reports_try; [|by eexists _, _].
  apply (reports_bind _ _ [] _ (reports_create_db _ _ _)).
  apply (reports_bind _ _ [_] _ (reports_post _ _ _)).
  apply (reports_bind _ _ [] _ (reports_create_schema _ _ _ _)).
  apply (reports_bind _ _ [_] _ (reports_post _ _ _)).
  apply (reports_bind _ _ [] _ (reports_create_file_formats _ _ _ _)).
  apply (reports_bind _ _ [_] _ (reports_post _ _ _)).
  apply (reports_bind _ _ [] _ (reports_create_stage _ _ _ _ _)).
  apply (reports_bind _ _ [_] _ (reports_post _ _ _)).
  apply (reports_bind _ _ [] _ (reports_create_table _ _ _ _ _)).
  apply (reports_bind _ _ [_] _ (reports_post _ _ _)).
  apply (reports_bind _ _ [] _ (reports_pipe_and_load _ _ _ _ _ _ _ _)).
  apply (reports_bind _ _ [_] _ (reports_post _ _ _)).
  apply reports_post.
Qed.

Lemma reports_silent (m : M history unit) :
  reports m [] ->
  forall h, exists calls,
    final (m h) = (h ++ calls)%list /\ posted_messages calls = [].
Proof.
  intros Hm h. destruct (Hm h) as (calls & Hf & _ & Hp & _).
  exists calls. split; [done|]. by apply prefix_nil_inv.
Qed.

Lemma setup_steps_silent a self :
  Forall (fun step : M history unit * string =>
            forall h, exists calls,
              final (step.1 h) = (h ++ calls)%list /\ posted_messages calls = [])
    (setup_steps a self).
Proof.
  repeat constructor; simpl; apply reports_silent.
  - apply reports_create_db.
  - apply reports_create_schema.
  - apply reports_create_file_formats.
  - apply reports_create_stage.
  - apply reports_create_table.
  - apply reports_pipe_and_load.
Qed.

(** The body of [do] is its six steps, reported in order, and then the
    last message. *)
Lemma do_is_report_steps a self channel_id :
  DBSetup_do a self channel_id
  = try_except
      (report_steps a channel_id (setup_steps a self)
         (post_message a channel_id "Setup completed."))
      (fun e =>
         log_error "Error setting up demo";;
         raise (Raise Exception ("Error setting up demo," +:+ exn_str e))).
Proof. reflexivity. Qed.

(** In a run of reported steps, the message of a step is posted right
    after the calls of a run of that step which returned, and after the
    messages of the steps before it. *)
Lemma report_steps_after_step a channel_id steps rest :
  Forall (fun step : M history unit * string =>
            forall h, exists calls,
              final (step.1 h) = (h ++ calls)%list /\ posted_messages calls = [])
    steps ->
  (forall h, exists new, final (rest h) = (h ++ new)%list) ->
  forall h,
    exists new,
      final (report_steps a channel_id steps rest h) = (h ++ new)%list
      /\ forall k step msg,
           steps !! k = Some (step, msg) ->
           (k < length (posted_messages new))%nat ->
           exists before calls after,
             new = (before ++ calls
                      ++ Core (EChatPostMessage channel_id msg) :: after)%list
             /\ length (posted_messages before) = k
             /\ step (h ++ before)%list = (inr tt, (h ++ before ++ calls)%list).
Proof.
  intros Hsilent Hrest. induction Hsilent as [|[step0 msg0] steps Hstep _ IH];
    intros h.
  { destruct (Hrest h) as (new & Hnew). exists new. split; [done|].
    intros k step msg Hk. done. }
  simpl in Hstep. destruct (Hstep h) as (calls & Hcalls & Hquiet).
  cbn [report_steps]. unfold mbind, M_bind, final in *.
  destruct (step0 h) as [[e|[]] h1] eqn:Hrun; simpl in Hcalls; subst h1.
  { exists calls. split; [done|]. rewrite Hquiet. simpl. intros; lia. }
  unfold post_message at 1. unfold app_call at 1.
  destruct (chat_postMessage (core_world a) (core_calls (h ++ calls)) channel_id msg0)
    as [e|[]].
  { exists (calls ++ [Core (EChatPostMessage channel_id msg0)])%list.
    rewrite app_assoc. split; [done|].
    rewrite posted_messages_app, Hquiet. simpl.
    intros [|k] step msg Hk Hlt; [|lia].
    simpl in Hk. injection Hk as <- <-.
    exists [], calls, []. rewrite app_nil_r. by repeat split. }
  destruct (IH ((h ++ calls) ++ [Core (EChatPostMessage channel_id msg0)])%list)
    as (new & Hnew & Hafter).
  destruct (report_steps a channel_id steps rest _) as [r h2]. simpl in Hnew.
  subst h2.
  exists (calls ++ Core (EChatPostMessage channel_id msg0) :: new)%list.
  split.
  { simpl. rewrite <- !app_assoc. done. }
  rewrite posted_messages_app, Hquiet. simpl.
  intros [|k] step msg Hk Hlt.
  - simpl in Hk. injection Hk as <- <-.
    exists [], calls, new. rewrite app_nil_r. by repeat split.
  - simpl in Hk. destruct (Hafter k step msg Hk ltac:(lia))
      as (before & calls' & after & -> & Hlen & Hstep').
    exists (calls ++ Core (EChatPostMessage channel_id msg0) :: before)%list,
      calls', after.
    split; [by rewrite <- !app_assoc|]. split.
    + rewrite posted_messages_app, Hquiet. simpl. by rewrite Hlen.
    + rewrite <- !app_assoc in Hstep'. simpl in Hstep'.
      rewrite <- !app_assoc. simpl. exact Hstep'.
Qed.

(** X24: [DBSetup.do] reports its six steps in order.  Whatever fails,
    the messages it has posted by then are the first ones of the seven
    progress messages, in their order, all to the given channel; when [do]
    returns, all seven were posted; when it does not return, it raises an
    [Exception] whose text starts with [Error setting up demo,].  None of
    the six step methods posts a message itself.  The message of a step is
    posted only right after the calls of a run of that step which
    returned, started after the messages of the steps before it; and
    [Setup completed.] is posted only as the seventh message, that is,
    only after each of the six steps has returned. *)
Theorem do_reports_progress_in_order a self channel_id h :
  exists new,
    final (DBSetup_do a self channel_id h) = (h ++ new)%list
    /\ posted_messages new `prefix_of` map (pair channel_id) (progress_messages self)
    /\ (outcome (DBSetup_do a self channel_id h) = inr tt ->
        posted_messages new = map (pair channel_id) (progress_messages self))
    /\ (outcome (DBSetup_do a self channel_id h) = inr tt
        \/ exists cause,
             outcome (DBSetup_do a self channel_id h)
             = inl (Raise Exception ("Error setting up demo," +:+ cause)))
    /\ Forall (fun step : M history unit * string =>
                 forall h', exists calls,
                   final (step.1 h') = (h' ++ calls)%list
                   /\ posted_messages calls = [])
         (setup_steps a self)
    /\ (forall k step msg,
          setup_steps a self !! k = Some (step, msg) ->
          (k < length (posted_messages new))%nat ->
          exists before calls after,
            new = (before ++ calls
                     ++ Core (EChatPostMessage channel_id msg) :: after)%list
            /\ length (posted_messages before) = k
            /\ step (h ++ before)%list = (inr tt, (h ++ before ++ calls)%list))
    /\ (In (channel_id, "Setup completed.") (posted_messages new) ->
        length (posted_messages new) = 7%nat).
Proof.
  destruct (reports_do a self channel_id h) as (new & Hf & _ & Hp & Ho).
  exists new. split; [done|]. split; [done|]. split; [done|].
  split.
  { unfold DBSetup_do, try_except, outcome.
    match goal with
    | |- context [match ?body with _ => _ end] => destruct body as [[e|[]] h1]
    end; [right|left]; [by eexists|done]. }
  split; [apply setup_steps_silent|]. split.
  - destruct (report_steps_after_step a channel_id (setup_steps a self)
                (post_message a channel_id "Setup completed.")
                (setup_steps_silent a self)
                ltac:(intros h0; by eexists) h) as (body & Hbody & Hafter).
    revert Hf. rewrite do_is_report_steps. unfold try_except, final in *.
    destruct (report_steps a channel_id (setup_steps a self) _ h) as [[e|[]] h1];
      simpl in Hbody; subst h1; simpl.
    + intros Hnew. rewrite <- app_assoc in Hnew. apply app_inv_head in Hnew.
      subst new. intros k step msg Hk Hlt.
      rewrite posted_messages_app in Hlt. simpl in Hlt. rewrite app_nil_r in Hlt.
      destruct (Hafter k step msg Hk Hlt)
        as (before & calls & after & -> & Hlen & Hstep).
      exists before, calls, (after ++ [Core (ELogError "Error setting up demo")])%list.
      split; [by rewrite <- !app_assoc|]. by split.
    + intros Hnew%app_inv_head. subst new. exact Hafter.
  - intros Hin. destruct Hp as [missing Hmissing].
    unfold progress_messages in Hmissing. cbn [map] in Hmissing.
    destruct (posted_messages new) as [|m1 [|m2 [|m3 [|m4 [|m5 [|m6 [|m7 more]]]]]]];
      simpl in Hmissing; simplify_eq; simpl in Hin;
      try (by destruct more);
      repeat match goal with
        | H : _ \/ _ |- _ => destruct H as [H|H]
        | H : (_, _) = (_, _) |- _ => injection H as _ H; try discriminate H
        | H : False |- _ => destruct H
        end.
Qed.

(** [create_db] cannot report its failure: what it raises is the
    [TypeError] of raising a [str]. *)
Lemma create_db_failure a self name h e :
  databases_create_or_alter a h name
    {| Database_name := name; Database_comment := setup_comment |} = inl e ->
  create_db a self name h
  = (inl (Raise TypeError "exceptions must derive from BaseException"),
     (h ++ [ECreateOrAlterDatabase name
              {| Database_name := name; Database_comment := setup_comment |};
            Core (ELogError (exn_str e))])%list).
Proof.
  intros He. unfold create_db. run_app. rewrite He. simpl.
  by rewrite <- app_assoc.
Qed.

(** X25: a failure to create the database loses its cause.  Whatever
    exception the Snowflake API raises there, [create_db] logs it and then
    raises a [TypeError] that says [exceptions must derive from
    BaseException]: the message it meant to raise, naming the database
    and the cause, reaches nobody. *)
Theorem create_db_failure_loses_the_cause a self name h e :
  databases_create_or_alter a h name
    {| Database_name := name; Database_comment := setup_comment |} = inl e ->
  outcome (create_db a self name h)
  = inl (Raise TypeError "exceptions must derive from BaseException")
  /\ final (create_db a self name h)
     = (h ++ [ECreateOrAlterDatabase name
                {| Database_name := name; Database_comment := setup_comment |};
              Core (ELogError (exn_str e))])%list.
Proof. intros He. by rewrite (create_db_failure _ _ _ _ _ He). Qed.

Lemma create_db_without_privileges :
  outcome (create_db (refusing_database (stub_services posting_world))
             DBSetup_init "demo_db" [])
  = inl (Raise TypeError "exceptions must derive from BaseException")
  /\ final (create_db (refusing_database (stub_services posting_world))
              DBSetup_init "demo_db" [])
     = ([] ++ [ECreateOrAlterDatabase "demo_db"
                 {| Database_name := "demo_db"; Database_comment := setup_comment |};
               Core (ELogError
                       (exn_str (Raise (ForeignError "APIError")
                                   "Insufficient privileges")))])%list.
Proof.
  apply (create_db_failure_loses_the_cause
           (refusing_database (stub_services posting_world)) DBSetup_init
           "demo_db" []
           (Raise (ForeignError "APIError") "Insufficient privileges")).
  reflexivity.
Defined.

(** ** Loading the older files *)

Lemma older_than_7days_frozen a self (modified : StageFile -> Z) now files h :
  Forall (fun f => strptime a (StageFile_last_modified f) date_format
                   = inr (modified f)) files ->
  (forall h', datetime_now a h' = now) ->
  older_than_7days a self files h
  = (inr (map (fun f => basename (StageFile_name f))
            (List.filter (fun f => (seven_days <? now - modified f)%Z) files)),
     (h ++ replicate (length files) ENow)%list).
Proof.
  intros Hparse Hnow. revert h.
  induction Hparse as [|f rest Hf _ IH]; intros h.
  { simpl. unfold mret, M_ret. by rewrite app_nil_r. }
  simpl. unfold is_date_older_than_7days. run_app. rewrite Hf. simpl.
  rewrite IH, Hnow. simpl. rewrite <- app_assoc. simpl.
  by destruct (seven_days <? now - modified f)%Z.
Qed.

(** X26: which files [pipe_and_load] copies.  With both pipes created,
    the stage listed, every date parsed and the clock held still, the files
    copied to the internal stage are those modified strictly more than
    seven days before now, named by the last component of their path,
    quoted and joined by commas.  With no such file nothing is copied and
    the method returns; otherwise one [COPY FILES] statement is run. *)
Theorem pipe_and_load_copies_older_files
    a self db sch stage_name table_name ff_name pipe_name h
    (modified : StageFile -> Z) now files :
  (forall h' pipe, pipes_create a h' db sch pipe DBSetup_mode = inr tt) ->
  (forall h', stage_list_files a h' db sch stage_name ".*[.csv]" = inr files) ->
  Forall (fun f => strptime a (StageFile_last_modified f) date_format
                   = inr (modified f)) files ->
  (forall h', datetime_now a h' = now) ->
  exists r pipes rest,
    pipe_and_load a self db sch stage_name table_name ff_name pipe_name h
    = (r, (h ++ map (fun pipe => ECreatePipe db sch pipe DBSetup_mode) pipes
             ++ EListFiles db sch stage_name ".*[.csv]"
             :: replicate (length files) ENow ++ rest)%list)
    /\ map Pipe_name pipes = [pipe_name; "older_than_7days_" +:+ pipe_name]
    /\ match map (fun f => basename (StageFile_name f))
               (List.filter (fun f => (seven_days <? now - modified f)%Z) files)
       with
       | [] => rest = [] /\ r = inr tt
       | older =>
           exists rest',
             rest = ESqlCollect
                      (copy_files_statement
                         (db +:+ "." +:+ sch +:+ ".older_than_7days_" +:+ stage_name)
                         (db +:+ "." +:+ sch +:+ "." +:+ stage_name)
                         (join "," (map quoted older))) :: rest'
       end.
Proof.
  intros Hpipes Hlist Hparse Hnow.
  unfold pipe_and_load, create_pipes, support_tickets_pipes. run_app.
  rewrite !Hpipes. simpl. rewrite Hlist. simpl.
  rewrite (older_than_7days_frozen a self modified now files _ Hparse Hnow).
  set (older := map (fun f => basename (StageFile_name f))
                  (List.filter (fun f => (seven_days <? now - modified f)%Z) files)).
  destruct older as [|x older'].
  - simpl. eexists (inr tt), [_; _], []. rewrite <- !app_assoc. simpl.
    rewrite app_nil_r. by repeat split.
  - cbn [length Nat.ltb Nat.leb].
    destruct (session_sql_collect a _ _) as [e|[]].
    + eexists _, [_; _], _. rewrite <- !app_assoc. simpl.
      split; [reflexivity|]. split; [reflexivity|]. by eexists.
    + destruct (pipe_refresh a _ _ _ _) as [e|[]];
        eexists _, [_; _], _; rewrite <- !app_assoc; simpl;
        (split; [reflexivity|]); (split; [reflexivity|]); by eexists.
Qed.

Lemma pipe_and_load_copies_the_old_file :
  exists r pipes rest,
    pipe_and_load (stub_services posting_world) DBSetup_init "demo_db" "data"
      "support_tickets_data" "support_tickets" "csvformat" "support_tickets_data" []
    = (r, ([] ++ map (fun pipe => ECreatePipe "demo_db" "data" pipe DBSetup_mode) pipes
              ++ EListFiles "demo_db" "data" "support_tickets_data" ".*[.csv]"
              :: replicate (length staged_files) ENow ++ rest)%list)
    /\ map Pipe_name pipes
       = ["support_tickets_data"; "older_than_7days_" +:+ "support_tickets_data"]
    /\ match map (fun f => basename (StageFile_name f))
               (List.filter (fun f => (seven_days <? stub_now - stub_modified f)%Z)
                  staged_files)
       with
       | [] => rest = [] /\ r = inr tt
       | older =>
           exists rest',
             rest = ESqlCollect
                      (copy_files_statement
                         ("demo_db" +:+ "." +:+ "data" +:+ ".older_than_7days_"
                          +:+ "support_tickets_data")
                         ("demo_db" +:+ "." +:+ "data" +:+ "."
                          +:+ "support_tickets_data")
                         (join "," (map quoted older))) :: rest'
       end.
Proof.
  apply (pipe_and_load_copies_older_files
           (stub_services posting_world) DBSetup_init "demo_db" "data"
           "support_tickets_data" "support_tickets" "csvformat"
           "support_tickets_data" [] stub_modified stub_now staged_files).
  - reflexivity.
  - reflexivity.
  - repeat constructor.
  - reflexivity.
Defined.

(** ** [do_setup] *)



(** X27: what the user is told when the database cannot be created.  The
    wait message posted and the creation of the database failing with any
    exception [e], [do_setup] has set the two names of the global
    [db_setup], and it tells the channel [Sorry, error setting up
    database.Error setting up demo,exceptions must derive from
    BaseException]; [e] itself is only logged. *)
Theorem setup_tells_a_type_error a st h channel_id db sch e :
  chat_postMessage (core_world a) (core_calls h) channel_id setup_wait_message
  = inr tt ->
  databases_create_or_alter a
    (h ++ [Core (EChatPostMessage channel_id setup_wait_message)]) db
    {| Database_name := db; Database_comment := setup_comment |} = inl e ->
  (forall h', glob_yaml a h' "src/templates" = inr []) ->
  exists r,
    do_setup a channel_id db sch (st, h)
    = (r, (set_schema_name sch (set_db_name db st),
           (h ++ [Core (EChatPostMessage channel_id setup_wait_message);
                  ECreateOrAlterDatabase db
                    {| Database_name := db; Database_comment := setup_comment |};
                  Core (ELogError (exn_str e));
                  Core (ELogError "Error setting up demo");
                  Core (ELogError
                          "Error handling db setup: Error setting up demo,exceptions must derive from BaseException");
                  EGlobYaml "src/templates";
                  Core (EChatPostMessage channel_id
                          "Sorry, error setting up database.Error setting up demo,exceptions must derive from BaseException")])%list)).
Proof.
  intros Hpost Hcreate Hglob. unfold do_setup, setup_failed. run_app.
  rewrite Hpost. simpl. unfold DBSetup_do. run_app.
  rewrite (create_db_failure _ _ _ _ _ Hcreate). simpl.
  rewrite Hglob. simpl. rewrite <- !app_assoc. simpl.
  by eexists.
Qed.

Lemma setup_without_privileges :
  exists r,
    do_setup (refusing_database (stub_services posting_world))
      "C0123" "demo_db" "data" (DBSetup_init, [])
    = (r, (set_schema_name "data" (set_db_name "demo_db" DBSetup_init),
           ([] ++ [Core (EChatPostMessage "C0123" setup_wait_message);
                   ECreateOrAlterDatabase "demo_db"
                     {| Database_name := "demo_db";
                        Database_comment := setup_comment |};
                   Core (ELogError
                           (exn_str (Raise (ForeignError "APIError")
                                       "Insufficient privileges")));
                   Core (ELogError "Error setting up demo");
                   Core (ELogError
                           "Error handling db setup: Error setting up demo,exceptions must derive from BaseException");
                   EGlobYaml "src/templates";
                   Core (EChatPostMessage "C0123"
                           "Sorry, error setting up database.Error setting up demo,exceptions must derive from BaseException")])%list)).
Proof.
  apply (setup_tells_a_type_error
           (refusing_database (stub_services posting_world)) DBSetup_init []
           "C0123" "demo_db" "data"
           (Raise (ForeignError "APIError") "Insufficient privileges"));
    [reflexivity | reflexivity | intros h'; reflexivity].
Defined.


(** ** The words of a command *)

Lemma split_from_lstrip s : split_from [] (lstrip_chars s) = split_from [] s.
Proof.
  induction s as [|c s IH]; [done|]. simpl.
  destruct (is_space c) eqn:Hc; [exact IH|]. simpl. by rewrite Hc.
Qed.

Lemma split_from_blank cur ws :
  forallb is_space ws = true ->
  split_from cur ws = match cur with [] => [] | _ => [rev cur] end.
Proof.
  revert cur. induction ws as [|c ws IH]; intros cur H; [done|].
  simpl in *. apply andb_true_iff in H as [Hc Hws]. rewrite Hc.
  rewrite (IH [] Hws). by destruct cur.
Qed.

Lemma lstrip_chars_app x y :
  lstrip_chars (x ++ y)
  = if forallb is_space x then lstrip_chars y else (lstrip_chars x ++ y)%list.
Proof.
  induction x as [|c x IH]; [done|]. simpl.
  destruct (is_space c); [exact IH|done].
Qed.

Lemma rstrip_cons c r :
  rev (lstrip_chars (rev (c :: r)))
  = if forallb is_space (c :: r) then [] else c :: rev (lstrip_chars (rev r)).
Proof.
  simpl. rewrite lstrip_chars_app, forallb_rev.
  destruct (forallb is_space r) eqn:Hr.
  - rewrite andb_true_r. simpl.
    rewrite (lstrip_chars_blank (rev r)) by (by rewrite forallb_rev).
    by destruct (is_space c).
  - rewrite andb_false_r. by rewrite rev_app_distr.
Qed.

Lemma split_from_rstrip cur s :
  split_from cur (rev (lstrip_chars (rev s))) = split_from cur s.
Proof.
  revert cur. induction s as [|c s IH]; intros cur; [done|].
  rewrite rstrip_cons.
  destruct (forallb is_space (c :: s)) eqn:Hblank.
  - by rewrite (split_from_blank cur (c :: s) Hblank).
  - simpl. rewrite !IH. done.
Qed.

(** The words of a text are those of the stripped text. *)
Lemma split_strip s : split (strip s) = split s.
Proof.
  unfold split, strip, strip_chars.
  by rewrite str_chars_str, split_from_rstrip, split_from_lstrip.
Qed.

Lemma strip_empty_split s : strip s = "" -> split s = [].
Proof. intros H. by rewrite <- split_strip, H. Qed.

(** ** The command [/setup] *)

Lemma command_text_words command :
  split (strip (command_text_of command)) = split (default "" (command !! "text")).
Proof. unfold command_text_of. by rewrite !split_strip. Qed.

Lemma command_text_not_empty command :
  split (default "" (command !! "text")) <> [] ->
  is_empty (command_text_of command) = false.
Proof.
  intros Hwords. apply is_empty_false. intros Hempty. apply Hwords.
  by apply strip_empty_split.
Qed.

Lemma global_failed_in_history a prefix command e h (st : DBSetup) :
  exists r new,
    ((global_failed a prefix command e h).1,
     (st, (global_failed a prefix command e h).2))
    = (r, (st, (h ++ new)%list)).
Proof.
  destruct (global_failed_extends a prefix command e h) as (new & Hf & _).
  unfold final in *.
  destruct (global_failed a prefix command e h) as [r h2]. simpl in *. subst h2.
  by exists r, new.
Qed.

(** X29: [/setup] takes exactly two words.  When the text of the command
    has words, but not two of them, the handler touches neither Snowflake
    nor the global [db_setup]: once acknowledged, it answers the user
    [Invalid format. Please provide both database name and schema name.],
    and returns if that answer goes through. *)
Theorem setup_needs_two_words a command st h :
  ack a h = inr tt ->
  split (default "" (command !! "text")) <> [] ->
  length (split (default "" (command !! "text"))) <> 2 ->
  exists r new,
    setup_handler a command (st, h)
    = (r, (st, (h ++ EAck
                  :: ERespondText
                       "Invalid format. Please provide both database name and schema name."
                       "ephemeral"
                  :: new)%list))
    /\ (respond_text a (h ++ [EAck])
          "Invalid format. Please provide both database name and schema name."
          "ephemeral" = inr tt ->
        new = [] /\ r = inr tt).
Proof.
  intros Hack Hwords Hlen. unfold setup_handler.
  rewrite (command_text_not_empty _ Hwords), command_text_words.
  assert (exists e, unpack_two (split (default "" (command !! "text"))) = inl e
                    /\ is_value_error e = true) as (e & -> & He).
  { destruct (split (default "" (command !! "text"))) as [|x [|y [|z words]]];
      try done; by eexists. }
  unfold try_except, in_history, app_call, lift. unfold mbind, M_bind.
  cbn [fst snd]. rewrite Hack. cbn [fst snd]. rewrite He. cbn [fst snd].
  destruct (respond_text a (h ++ [EAck]) invalid_format "ephemeral") as [e1|[]]
    eqn:Hrespond; cbn [fst snd].
  - destruct (global_failed_in_history a "Global handler error: " command e1
                ((h ++ [EAck]) ++ [ERespondText invalid_format "ephemeral"]) st)
      as (r & new & ->).
    exists r, new. rewrite <- !app_assoc. split; [reflexivity|].
    unfold invalid_format in Hrespond. by rewrite Hrespond.
  - exists (inr tt), []. rewrite <- !app_assoc. by split.
Qed.

Lemma setup_with_one_word :
  exists r new,
    setup_handler (stub_services posting_world) (a_command "demo_db")
      (DBSetup_init, [])
    = (r, (DBSetup_init,
           ([] ++ EAck
               :: ERespondText
                    "Invalid format. Please provide both database name and schema name."
                    "ephemeral"
               :: new)%list))
    /\ (respond_text (stub_services posting_world) ([] ++ [EAck])
          "Invalid format. Please provide both database name and schema name."
          "ephemeral" = inr tt ->
        new = [] /\ r = inr tt).
Proof.
  apply (setup_needs_two_words (stub_services posting_world) (a_command "demo_db")
           DBSetup_init []); [reflexivity | | ]; vm_compute; discriminate.
Defined.

(** X30: [/setup] with two words sets up what they name.  For a command
    from a channel whose text holds two words, however they are spaced,
    the handler acknowledges and runs [do_setup] for that channel with the
    first word as the database and the second as the schema; when
    [do_setup] returns, the handler adds nothing and returns. *)
Theorem setup_runs_with_two_words a command st h db sch channel :
  ack a h = inr tt ->
  split (default "" (command !! "text")) = [db; sch] ->
  command !! "channel_id" = Some channel ->
  outcome (do_setup a channel db sch (st, (h ++ [EAck])%list)) = inr tt ->
  setup_handler a command (st, h)
  = do_setup a channel db sch (st, (h ++ [EAck])%list).
Proof.
  intros Hack Hwords Hch Hdone. unfold setup_handler.
  rewrite command_text_not_empty by (by rewrite Hwords).
  rewrite command_text_words, Hwords.
  unfold try_except, in_history, app_call, lift, command_item.
  unfold mbind, M_bind. rewrite Hch.
  cbn [fst snd unpack_two]. rewrite Hack. cbn [fst snd].
  unfold outcome in Hdone.
  destruct (do_setup a channel db sch (st, (h ++ [EAck])%list)) as [r st'].
  simpl in Hdone. by subst r.
Qed.

Lemma setup_of_demo_db :
  setup_handler (stub_services posting_world) (a_command "  demo_db   data ")
    (DBSetup_init, [])
  = do_setup (stub_services posting_world) "C0123" "demo_db" "data"
      (DBSetup_init, ([] ++ [EAck])%list).
Proof.
  apply (setup_runs_with_two_words (stub_services posting_world)
           (a_command "  demo_db   data ") DBSetup_init [] "demo_db" "data" "C0123");
    vm_compute; reflexivity.
Defined.
